(** * fsnjs/test: the assertion library and the sequential test runner

    A shallow embedding of [expect.ts], [execute.ts] and [fsntest.ts]
    (the three TypeScript modules bundled after the command line front end
    in [src/bin.js]) and of the functions of the front end that format the
    messages of the compiler and resolve the files, and the properties
    proved on it.

    Layout: JavaScript values and the language operations the code relies
    on; the external packages as type classes; the RxJS operators as
    functions on finite traces; then the source functions under their own
    names; then the theorems. *)

From Stdlib Require Import List String Ascii Bool Arith ZArith QArith Lia.
From Stdlib Require Import Floats.PrimFloat Floats.FloatOps Floats.SpecFloat.
From Stdlib Require Import Floats.FloatAxioms.
From Stdlib Require Import Sorting.Permutation Sorting.Sorted.
From Stdlib Require Import Numbers.Cyclic.Int63.Uint63.
Import ListNotations.

Set Implicit Arguments.
Set Warnings "-register-all,-inexact-float,-abstract-large-number".
Close Scope Q_scope.
Local Open Scope string_scope.

(* ===================================================================== *)
(** ** Characters and strings the source spells as literals *)
(* ===================================================================== *)

(** The double quote and the line feed, which the embedding cannot write
    inside a literal. *)
Definition dquote : string := String (ascii_of_nat 34) EmptyString.
Definition nl : string := String (ascii_of_nat 10) EmptyString.

(** [Array.prototype.join] on an array of strings. *)
Fixpoint join (sep : string) (parts : list string) : string :=
  match parts with
  | [] => EmptyString
  | [p] => p
  | p :: rest => p ++ sep ++ join sep rest
  end.

(** [String.prototype.split] with a one-character separator: the pieces
    between the occurrences of [sep], as a non-empty list. *)
Fixpoint split_on (sep : ascii) (s : string) : string * list string :=
  match s with
  | EmptyString => (EmptyString, [])
  | String c rest =>
      let (piece, more) := split_on sep rest in
      if Ascii.eqb c sep then (EmptyString, piece :: more)
      else (String c piece, more)
  end.

Definition split (sep : ascii) (s : string) : list string :=
  let (piece, more) := split_on sep s in piece :: more.

(** [String.prototype.slice(0, n)]. *)
Definition slice0 (n : nat) (s : string) : string := substring 0 n s.

(* ===================================================================== *)
(** ** JavaScript values *)
(* ===================================================================== *)

(** How an evaluation ends: with a value, or by throwing. *)
Inductive Completion (A E : Type) : Type :=
| Normal (a : A)
| Throw (e : E).
Arguments Normal {A E} a.
Arguments Throw {A E} e.

(** How a promise ends. [Pending] is a promise that never settles. *)
Inductive Settlement (A : Type) : Type :=
| Fulfilled (v : A)
| Rejected (reason : A)
| Pending.
Arguments Fulfilled {A} v.
Arguments Rejected {A} reason.
Arguments Pending {A}.

(** How an observable ends after its emissions. [Never] is a sequence
    that neither completes nor errors. *)
Inductive Ending (E : Type) : Type :=
| Completes
| Errors (e : E)
| Never.
Arguments Completes {E}.
Arguments Errors {E} e.
Arguments Never {E}.

(** The values a test, a hook or a matcher can meet.  Objects, functions,
    errors, promises and observables are references: [ref] is the identity
    [===] compares.  A function is given with what calling it without
    arguments does; a promise with how it settles; an observable with the
    values a subscriber receives and how the sequence ends.  [VObj] is a
    plain object with its own enumerable data properties in insertion
    order; [VErr] is a native [Error] with its [stack] ([None] when the
    property is missing). *)
Inductive JsVal : Type :=
| VUndefined
| VNull
| VBool (b : bool)
| VNum (x : float)
| VBigInt (z : Z)
| VStr (s : string)
| VFun (ref : nat) (call : Completion JsVal JsVal)
| VObj (ref : nat) (props : list (string * JsVal))
| VErr (ref : nat) (message : string) (stack : option string)
| VPromise (ref : nat) (settles : Settlement JsVal)
| VObservable (ref : nat) (emits : list JsVal) (ends : Ending JsVal).

(** The [typeof] operator. *)
Definition typeof (v : JsVal) : string :=
  match v with
  | VUndefined => "undefined"
  | VNull => "object"
  | VBool _ => "boolean"
  | VNum _ => "number"
  | VBigInt _ => "bigint"
  | VStr _ => "string"
  | VFun _ _ => "function"
  | VObj _ _ | VErr _ _ _ | VPromise _ _ | VObservable _ _ _ => "object"
  end.

(** Strict equality [===]: numbers by IEEE comparison (so [NaN] differs
    from itself and the two zeros agree), the other primitives by value,
    references by identity. *)
Definition strict_eq (a b : JsVal) : bool :=
  match a, b with
  | VUndefined, VUndefined => true
  | VNull, VNull => true
  | VBool x, VBool y => Bool.eqb x y
  | VNum x, VNum y => PrimFloat.eqb x y
  | VBigInt x, VBigInt y => Z.eqb x y
  | VStr x, VStr y => String.eqb x y
  | VFun r _, VFun r' _ => Nat.eqb r r'
  | VObj r _, VObj r' _ => Nat.eqb r r'
  | VErr r _ _, VErr r' _ _ => Nat.eqb r r'
  | VPromise r _, VPromise r' _ => Nat.eqb r r'
  | VObservable r _ _, VObservable r' _ _ => Nat.eqb r r'
  | _, _ => false
  end.

(** [ToBoolean], the truthiness of the language itself ([if (x)], [!x]). *)
Definition ToBoolean (v : JsVal) : bool :=
  match v with
  | VUndefined | VNull => false
  | VBool b => b
  | VNum x => negb (PrimFloat.eqb x 0%float || PrimFloat.is_nan x)
  | VBigInt z => negb (Z.eqb z 0)
  | VStr s => negb (String.eqb s EmptyString)
  | _ => true
  end.

(** Property lookup on a plain object. *)
Fixpoint lookup (key : string) (props : list (string * JsVal)) : option JsVal :=
  match props with
  | [] => None
  | (k, v) :: rest => if String.eqb k key then Some v else lookup key rest
  end.

(** The [in] operator, on the objects that reach it here (on a primitive
    it throws; it yields [false] for the values without the property).
    A native error inherits [name] and [message] from its prototype and
    owns [stack]. *)
Definition has_property (key : string) (v : JsVal) : bool :=
  match v with
  | VObj _ props => match lookup key props with Some _ => true | None => false end
  | VErr _ _ stack =>
      String.eqb key "name" || String.eqb key "message"
      || (String.eqb key "stack" && match stack with Some _ => true | None => false end)
  | _ => false
  end.

(** [util/types]: [isNativeError], [isPromise]; RxJS: [isObservable]. *)
Definition isNativeError (v : JsVal) : bool :=
  match v with VErr _ _ _ => true | _ => false end.
Definition isPromise (v : JsVal) : bool :=
  match v with VPromise _ _ => true | _ => false end.
Definition isObservable (v : JsVal) : bool :=
  match v with VObservable _ _ _ => true | _ => false end.

(* ===================================================================== *)
(** ** Numbers: what a template literal prints for a number *)
(* ===================================================================== *)

(** JavaScript numbers are binary64 floats; their arithmetic is the
    kernel's.  [Number::toString] (ECMA-262, 6.1.6.1.20) prints the
    shortest decimal that reads back as the same float, in positional
    notation when the decimal exponent is between -6 and 21. *)
Module NumberToString.

Local Open Scope Z_scope.

Definition digit (d : Z) : ascii := ascii_of_nat (48 + Z.to_nat d).

Fixpoint decimal_fuel (fuel : nat) (n : Z) (acc : string) : string :=
  match fuel with
  | O => acc
  | S fuel' =>
      if n <? 10 then String (digit n) acc
      else decimal_fuel fuel' (n / 10) (String (digit (n mod 10)) acc)
  end.

(** The decimal digits of a natural number. *)
Definition decimal (n : Z) : string :=
  decimal_fuel (S (Z.to_nat (Z.log2 n))) n EmptyString.

Fixpoint zeros (n : nat) : string :=
  match n with O => EmptyString | S n' => String "0"%char (zeros n') end.

(** [10^n] as a rational, for any integer [n]. *)
Definition pow10 (n : Z) : Q :=
  if 0 <=? n then inject_Z (10 ^ n) else Qmake 1 (Z.to_pos (10 ^ (- n))).

Definition pow2 (e : Z) : Q :=
  if 0 <=? e then inject_Z (2 ^ e) else Qmake 1 (Z.to_pos (2 ^ (- e))).

Definition Qleb (a b : Q) : bool :=
  match Qcompare a b with Gt => false | _ => true end.
Definition Qltb (a b : Q) : bool :=
  match Qcompare a b with Lt => true | _ => false end.

(** The decimal exponent [n] with [10^(n-1) <= x < 10^n], searched from
    a first guess. *)
Fixpoint exponent10 (fuel : nat) (x : Q) (n : Z) : Z :=
  match fuel with
  | O => n
  | S fuel' =>
      if Qleb (pow10 n) x then exponent10 fuel' x (n + 1)
      else if Qltb x (pow10 (n - 1)) then exponent10 fuel' x (n - 1)
      else n
  end.

Definition Qfloor (x : Q) : Z := Qnum x / Zpos (Qden x).

(** The interval of reals that round to the float [m * 2^e]: half way to
    each neighbour, the ends included when the mantissa is even. *)
Definition rounds_to (m e : Z) (v : Q) : bool :=
  let x := (inject_Z m * pow2 e)%Q in
  let up := (pow2 e / inject_Z 2)%Q in
  let down :=
    if (m =? 2 ^ 52) && negb (e =? -1074) then (pow2 e / inject_Z 4)%Q else up in
  if Z.even m then Qleb (x - down)%Q v && Qleb v (x + up)%Q
  else Qltb (x - down)%Q v && Qltb v (x + up)%Q.

(** With [k] digits: the candidate [s * 10^(n-k)] below [x] and the one
    above, whichever rounds to [x] and is nearer. *)
Definition candidate (m e : Z) (n k : Z) : option Z :=
  let x := (inject_Z m * pow2 e)%Q in
  let scale := pow10 (n - k) in
  let lo := Qfloor (x / scale)%Q in
  let vlo := (inject_Z lo * scale)%Q in
  let vhi := (inject_Z (lo + 1) * scale)%Q in
  let oklo := rounds_to m e vlo in
  let okhi := rounds_to m e vhi in
  if oklo && okhi then
    if Qleb (x - vlo)%Q (vhi - x)%Q then Some lo else Some (lo + 1)
  else if oklo then Some lo
  else if okhi then Some (lo + 1)
  else None.

Fixpoint shortest (fuel : nat) (m e n k : Z) : Z * Z :=
  match fuel with
  | O => (m, k)
  | S fuel' =>
      match candidate m e n k with
      | Some s => (s, k)
      | None => shortest fuel' m e n (k + 1)
      end
  end.

(** The digits [s], their number [k] and the exponent [n] of the positive
    float [m * 2^e]; a candidate that rolled over to [10^k] is [1] with
    the next exponent. *)
Definition shortest_digits (m e : Z) : Z * Z * Z :=
  let x := (inject_Z m * pow2 e)%Q in
  let n := exponent10 700 x 0 in
  let (s, k) := shortest 17 m e n 1 in
  if s =? 10 ^ k then (10 ^ (k - 1), k, n + 1) else (s, k, n).

Fixpoint strip_zeros (fuel : nat) (s k : Z) : Z * Z :=
  match fuel with
  | O => (s, k)
  | S fuel' =>
      if (1 <? k) && (s mod 10 =? 0) then strip_zeros fuel' (s / 10) (k - 1)
      else (s, k)
  end.

(** Steps 6 to 10 of [Number::toString]: the notation. *)
Definition notation (s k n : Z) : string :=
  let ds := decimal s in
  if (k <=? n) && (n <=? 21) then ds ++ zeros (Z.to_nat (n - k))
  else if (0 <? n) && (n <=? 21) then
    substring 0 (Z.to_nat n) ds ++ "." ++ substring (Z.to_nat n) (Z.to_nat (k - n)) ds
  else if (-6 <? n) && (n <=? 0) then "0." ++ zeros (Z.to_nat (- n)) ++ ds
  else
    let ex := n - 1 in
    let sign := if 0 <=? ex then "+" else "-" in
    let mant :=
      if k =? 1 then ds
      else substring 0 1 ds ++ "." ++ substring 1 (Z.to_nat (k - 1)) ds in
    mant ++ "e" ++ sign ++ decimal (Z.abs ex).

Definition positive_finite (m : positive) (e : Z) : string :=
  let '(s, k, n) := shortest_digits (Zpos m) e in
  let (s', k') := strip_zeros 17 s k in
  notation s' k' n.

Definition toString (x : float) : string :=
  match Prim2SF x with
  | S754_nan => "NaN"
  | S754_zero _ => "0"
  | S754_infinity false => "Infinity"
  | S754_infinity true => "-Infinity"
  | S754_finite false m e => positive_finite m e
  | S754_finite true m e => "-" ++ positive_finite m e
  end.

End NumberToString.

(* ===================================================================== *)
(** ** The packages the code imports *)
(* ===================================================================== *)

(** [chalk]: each style maps a string to a string.  What it adds depends
    on the colour support of the terminal, so the styles stay abstract. *)
Class Chalk : Type := {
  red : string -> string;
  green : string -> string;
  gray : string -> string;
  blue : string -> string;
  bold : string -> string
}.

(** [@fsnjs/truthy]: the two predicates the code imports.  The package
    is not part of the repository; all that is taken for granted is that
    [null] is not truthy, so that the [in] operator of [isExecResult] is
    never applied to it. *)
Class Truthy : Type := {
  isTruthy : JsVal -> bool;
  isFalsy : JsVal -> bool;
  isTruthy_null : isTruthy VNull = false
}.

(** [JSON.stringify(value, null, 4)] on a value that is an object: the
    text, or the exception it throws (a [BigInt] inside, a cycle). *)
Class Json : Type := {
  JSON_stringify : JsVal -> Completion string JsVal
}.

(** One change of [diffChars]. *)
Record Change : Type := mkChange {
  value : string;
  added : bool;
  removed : bool
}.

(** [diff]: [diffChars(old, new)], which throws when [new] is no string;
    and the conversion of a value to the string a template literal or a
    concatenation shows. *)
Class Diff : Type := {
  diffChars : string -> JsVal -> Completion (list Change) JsVal;
  display : JsVal -> string
}.

(** The environments the closed examples run in: a terminal without
    colour support, where every [chalk] style returns its argument;
    truthiness as the language defines it. *)
Definition chalk_level0 : Chalk :=
  {| red := fun s => s; green := fun s => s; gray := fun s => s;
     blue := fun s => s; bold := fun s => s |}.

Definition truthy_ToBoolean : Truthy :=
  {| isTruthy := ToBoolean; isFalsy := fun v => negb (ToBoolean v);
     isTruthy_null := eq_refl |}.

(** [JSON.stringify(value, null, 4)] for plain objects of strings,
    booleans, [null], numbers and nested plain objects; a [BigInt] makes
    it throw a [TypeError].  [undefined] and functions are left out of an
    object, as the language does; an error, a promise or an observable
    inside is shown as an object without enumerable properties. *)
Module JSON.

Definition TypeError_BigInt : JsVal :=
  VErr 0 "Do not know how to serialize a BigInt" None.

Definition hex_digit (n : nat) : ascii :=
  if Nat.ltb n 10 then ascii_of_nat (48 + n) else ascii_of_nat (87 + n).

(** [QuoteJSONString], on the bytes of the string. *)
Fixpoint quote_chars (s : string) : string :=
  match s with
  | EmptyString => EmptyString
  | String c rest =>
      let n := nat_of_ascii c in
      let esc :=
        if Nat.eqb n 34 then String "\"%char dquote
        else if Nat.eqb n 92 then "\\"
        else if Nat.eqb n 8 then "\b"
        else if Nat.eqb n 9 then "\t"
        else if Nat.eqb n 10 then "\n"
        else if Nat.eqb n 12 then "\f"
        else if Nat.eqb n 13 then "\r"
        else if Nat.ltb n 32 then
          "\u00" ++ String (hex_digit (n / 16)) (String (hex_digit (n mod 16)) EmptyString)
        else String c EmptyString in
      esc ++ quote_chars rest
  end.

Definition quote (s : string) : string := dquote ++ quote_chars s ++ dquote.

Fixpoint spaces (n : nat) : string :=
  match n with O => EmptyString | S n' => String " "%char (spaces n') end.

(** [SerializeJSONProperty] at indentation [depth]: [None] is
    [undefined], a property that is skipped. *)
Fixpoint serialize (depth : nat) (v : JsVal) : Completion (option string) JsVal :=
  match v with
  | VUndefined | VFun _ _ => Normal None
  | VNull => Normal (Some "null")
  | VBool true => Normal (Some "true")
  | VBool false => Normal (Some "false")
  | VNum x =>
      match Prim2SF x with
      | S754_nan | S754_infinity _ => Normal (Some "null")
      | _ => Normal (Some (NumberToString.toString x))
      end
  | VBigInt _ => Throw TypeError_BigInt
  | VStr s => Normal (Some (quote s))
  | VObj _ props =>
      let inner := spaces (4 * S depth) in
      let fix members (ps : list (string * JsVal)) : Completion (list string) JsVal :=
        match ps with
        | [] => Normal []
        | (k, x) :: rest =>
            match serialize (S depth) x with
            | Throw e => Throw e
            | Normal None => members rest
            | Normal (Some text) =>
                match members rest with
                | Throw e => Throw e
                | Normal ms => Normal ((quote k ++ ": " ++ text) :: ms)
                end
            end
        end in
      match members props with
      | Throw e => Throw e
      | Normal [] => Normal (Some "{}")
      | Normal ms =>
          Normal (Some ("{" ++ nl ++ inner ++ join ("," ++ nl ++ inner) ms
                        ++ nl ++ spaces (4 * depth) ++ "}"))
      end
  | VErr _ _ _ | VPromise _ _ | VObservable _ _ _ => Normal (Some "{}")
  end.

Definition stringify (v : JsVal) : Completion string JsVal :=
  match serialize 0 v with
  | Throw e => Throw e
  | Normal (Some text) => Normal text
  | Normal None => Normal "undefined"
  end.

End JSON.

Definition json_pretty : Json := {| JSON_stringify := JSON.stringify |}.

(* ===================================================================== *)
(** ** Results, callbacks and the state of a run *)
(* ===================================================================== *)

(** [interface ExecResult] of [execute.ts]: [passed] is a string, the
    coloured mark, and [errorStr] is optional. *)
Record ExecResult : Type := mkExecResult {
  name : string;
  passed : string;
  errorStr : option string
}.

(** What the observable returned by [executeJustCallback] delivers: an
    object the function built itself, or a value a test's own observable
    emitted, handed on as it is.  A result is read when it is delivered:
    [fail] is one object, which the error handlers later give its
    [errorStr], and a result that was delivered before is recorded with
    the fields it had then. *)
Inductive Emitted : Type :=
| Own (r : ExecResult)
| Foreign (v : JsVal).

(** Reading a property of a delivered result. *)
Definition field (key : string) (e : Emitted) : JsVal :=
  match e with
  | Own r =>
      if String.eqb key "name" then VStr (name r)
      else if String.eqb key "passed" then VStr (passed r)
      else if String.eqb key "errorStr" then
        match errorStr r with Some text => VStr text | None => VUndefined end
      else VUndefined
  | Foreign (VObj _ props) =>
      match lookup key props with Some v => v | None => VUndefined end
  | Foreign _ => VUndefined
  end.

(** [ExecResult & { timing: string }]: the spread of a result with the
    [timing] property set last. *)
Record TimedResult : Type := mkTimed {
  result : Emitted;
  timing : string
}.

Definition Summary : Type := list TimedResult.

(** A row of the summary table. *)
Record Row : Type := mkRow {
  row_name : JsVal;
  row_passed : JsVal;
  row_timing : string
}.

(** [JustCallback]: a function, known by its identity and by what a call
    does (throw, or return a value that may be a promise or an
    observable). *)
Record JustCallback : Type := mkCallback {
  fn_ref : nat;
  fn_call : Completion JsVal JsVal
}.

(** A [Date], through the four getters [dateToMs] uses (local time). *)
Record Date : Type := mkDate {
  getHours : Z;
  getMinutes : Z;
  getSeconds : Z;
  getMilliseconds : Z
}.

(** What the run writes to the terminal. *)
Inductive Output : Type :=
| ConsoleLog (text : string)
| SpinnerSucceed (text : string)
| SpinnerFail (text : JsVal)
| PrintTable (rows : list Row).

(** The module-level variables of [fsntest.ts] ([tests] as the entries of
    the object in insertion order), the array given to [scan] as its seed,
    and what a run leaves behind: the identities of the functions it
    called, the number of [Date]s it took, its output.  The calls are
    recorded operator by operator along the pipeline; how the calls of
    two operators interleave in time depends on which callbacks are
    asynchronous and is not recorded, so that [invoked] is read for the
    number of calls of a function only. *)
Record World : Type := mkWorld {
  beforeAllFn : option JustCallback;
  beforeEachFn : option JustCallback;
  afterAllFn : option JustCallback;
  afterEachFn : option JustCallback;
  tests : list (string * JustCallback);
  acc : list TimedResult;
  invoked : list nat;
  dates : nat;
  printed : list Output
}.

Definition initial : World :=
  mkWorld None None None None [] [] [] 0 [].

(** The state monad of the run. *)
Definition Run (A : Type) : Type := World -> A * World.

Definition ret {A : Type} (a : A) : Run A := fun w => (a, w).

Definition bind {A B : Type} (m : Run A) (k : A -> Run B) : Run B :=
  fun w => let (a, w') := m w in k a w'.

Declare Scope run_scope.
Delimit Scope run_scope with run.
Notation "x <- m ;; k" := (bind m (fun x => k))
  (at level 61, m at next level, right associativity) : run_scope.
Notation "m ;; k" := (bind m (fun _ => k))
  (at level 61, right associativity) : run_scope.

Definition gets {A : Type} (f : World -> A) : Run A := fun w => (f w, w).
Definition modify (f : World -> World) : Run unit := fun w => (tt, f w).

(** Calling a callback: the call is recorded and its outcome returned. *)
Definition invoke (callback : JustCallback) : Run (Completion JsVal JsVal) :=
  fun w =>
    (fn_call callback,
     mkWorld (beforeAllFn w) (beforeEachFn w) (afterAllFn w) (afterEachFn w)
             (tests w) (acc w) (invoked w ++ [fn_ref callback]) (dates w) (printed w)).

Definition print (o : Output) : Run unit :=
  fun w =>
    (tt,
     mkWorld (beforeAllFn w) (beforeEachFn w) (afterAllFn w) (afterEachFn w)
             (tests w) (acc w) (invoked w) (dates w) (printed w ++ [o])).

(** [Completion] as a functor. *)
Definition on_normal {A B E : Type} (f : A -> B) (c : Completion A E) : Completion B E :=
  match c with
  | Normal a => Normal (f a)
  | Throw e => Throw e
  end.

(* ===================================================================== *)
(** ** RxJS: observables as finite traces *)
(* ===================================================================== *)

(** An observable is what one subscription delivers: the values, in
    order, and the end of the sequence. *)
Record Obs (A : Type) : Type := mkObs {
  emitted : list A;
  ending : Ending JsVal
}.
Arguments mkObs {A} emitted ending.

Module Rx.

Local Open Scope run_scope.

(** [of(...values)]. *)
Definition of_ {A : Type} (values : list A) : Obs A := mkObs values Completes.

Definition map {A B : Type} (project : A -> B) (source : Obs A) : Obs B :=
  mkObs (List.map project (emitted source)) (ending source).

(** [catchError]: on an error the sequence goes on with the observable
    the selector returns; a selector that throws ends it with what it
    threw. *)
Definition catchError {A : Type}
    (selector : JsVal -> Completion (Obs A) JsVal) (source : Obs A) : Obs A :=
  match ending source with
  | Errors err =>
      match selector err with
      | Normal handled => mkObs (emitted source ++ emitted handled) (ending handled)
      | Throw thrown => mkObs (emitted source) (Errors thrown)
      end
  | _ => source
  end.

(** [concatMap]: the inner observables one after the other.  The next
    value is projected when the inner observable before it has completed;
    an inner observable that errors or never ends is the end of the
    output, and so is a projection that throws.  The end of the source
    reaches the output after the inner observables of its values. *)
Fixpoint concatMap_from {A B : Type}
    (project : A -> Run (Completion (Obs B) JsVal))
    (values : list A) (fin : Ending JsVal) : Run (Obs B) :=
  match values with
  | [] => ret (mkObs [] fin)
  | x :: rest =>
      r <- project x ;;
      match r with
      | Throw thrown => ret (mkObs [] (Errors thrown))
      | Normal inner =>
          match ending inner with
          | Completes =>
              o <- concatMap_from project rest fin ;;
              ret (mkObs (emitted inner ++ emitted o) (ending o))
          | _ => ret inner
          end
      end
  end.

Definition concatMap {A B : Type}
    (project : A -> Run (Completion (Obs B) JsVal)) (source : Obs A) : Run (Obs B) :=
  concatMap_from project (emitted source) (ending source).

(** [scan((acc, result) => { acc.push(result); return acc; }, seed)]: the
    seed is one array, shared by every subscription; each value is pushed
    on it and the array, as it then is, is emitted. *)
Definition push (r : TimedResult) : Run Summary :=
  fun w =>
    let a := (acc w ++ [r])%list in
    (a,
     mkWorld (beforeAllFn w) (beforeEachFn w) (afterAllFn w) (afterEachFn w)
             (tests w) a (invoked w) (dates w) (printed w)).

Fixpoint scan_push_from (values : list TimedResult) : Run (list Summary) :=
  match values with
  | [] => ret []
  | r :: rest =>
      a <- push r ;;
      more <- scan_push_from rest ;;
      ret (a :: more)
  end.

Definition scan_push (source : Obs TimedResult) : Run (Obs Summary) :=
  states <- scan_push_from (emitted source) ;;
  ret (mkObs states (ending source)).

(** The error [last] raises on a sequence that completes empty. *)
Definition EmptyError : JsVal := VErr 0 "no elements in sequence" None.

(** The last element of a list, if it has one. *)
Fixpoint final {A : Type} (values : list A) : option A :=
  match values with
  | [] => None
  | [x] => Some x
  | _ :: rest => final rest
  end.

(** [last()]: the last value once the source completes; [EmptyError]
    when it completes without a value. *)
Definition last {A : Type} (source : Obs A) : Obs A :=
  match ending source with
  | Completes =>
      match final (emitted source) with
      | None => mkObs [] (Errors EmptyError)
      | Some x => mkObs [x] Completes
      end
  | other => mkObs [] other
  end.

End Rx.

(* ===================================================================== *)
(** ** execute.ts *)
(* ===================================================================== *)

Module Execute.

Section Execute.

Context {chalk : Chalk} {truthy : Truthy} {json : Json}.

Local Open Scope run_scope.

(** The two marks: [chalk.green('✔')] and [chalk.red('✖')]. *)
Definition pass_mark : string := green "✔".
Definition fail_mark : string := red "✖".

(** [isExecResult(val)]. *)
Definition isExecResult (val : JsVal) : bool :=
  isTruthy val
  && String.eqb (typeof val) "object"
  && has_property "name" val
  && has_property "passed" val.

(** [const { stack } = error] on a native error, and [if (stack)]. *)
Definition stack_of (error : JsVal) : option string :=
  match error with
  | VErr _ _ stack => stack
  | _ => None
  end.

Definition string_of (error : JsVal) : string :=
  match error with
  | VStr s => s
  | _ => EmptyString
  end.

(** [printErrorDetails(name, error)]: the joined lines, or what
    [JSON.stringify] throws. *)
Definition printErrorDetails (name : string) (error : JsVal) : Completion string JsVal :=
  let err := [red (dquote ++ name ++ dquote ++ " failed.")] in
  if negb (isTruthy error) then
    Normal (join nl (err ++ [red "An unknown error occured."]))
  else if isNativeError error then
    match stack_of error with
    | Some stack =>
        if ToBoolean (VStr stack) then
          Normal (join nl (err ++ [gray (nl ++ "Details:" ++ nl); stack]))
        else Normal (join nl err)
    | None => Normal (join nl err)
    end
  else if String.eqb (typeof error) "string" then
    Normal (join nl (err ++ [red (string_of error)]))
  else if String.eqb (typeof error) "object" then
    match JSON_stringify error with
    | Normal text => Normal (join nl (err ++ [gray "Could not parse error:"; text]))
    | Throw thrown => Throw thrown
    end
  else Normal (join nl (err ++ [red "An unknown error occured."])).

(** [fail.errorStr = ...] *)
Definition set_errorStr (r : ExecResult) (text : string) : ExecResult :=
  mkExecResult (name r) (passed r) (Some text).

(** The observable built around a promise.  [then] delivers [pass] and
    completes; [catch] renders the reason (twice: the first text is
    dropped), stores it in [fail] and delivers [fail].  When the renderer
    throws inside the [catch] handler nothing is ever delivered, and
    nothing either while the promise is pending. *)
Definition from_promise (name : string) (pass fail : ExecResult)
    (settles : Settlement JsVal) : Obs Emitted :=
  match settles with
  | Fulfilled _ => Rx.of_ [Own pass]
  | Rejected reason =>
      match printErrorDetails name reason with
      | Throw _ => mkObs [] Never
      | Normal _ =>
          match printErrorDetails name reason with
          | Throw _ => mkObs [] Never
          | Normal text => Rx.of_ [Own (set_errorStr fail text)]
          end
      end
  | Pending => mkObs [] Never
  end.

(** The selector given to [catchError]. *)
Definition on_error (name : string) (fail : ExecResult) (error : JsVal)
    : Completion (Obs Emitted) JsVal :=
  match printErrorDetails name error with
  | Throw thrown => Throw thrown
  | Normal _ =>
      match printErrorDetails name error with
      | Throw thrown => Throw thrown
      | Normal text => Normal (Rx.of_ [Own (set_errorStr fail text)])
      end
  end.

(** The function given to [map]: a value that is an [ExecResult] goes
    through, anything else becomes [fail].  The [fail] that [catchError]
    delivered is an [ExecResult] already, and is [fail] in any case. *)
Definition coerce (fail : ExecResult) (value : Emitted) : Emitted :=
  match value with
  | Own r => Own r
  | Foreign v => if isExecResult v then Foreign v else Own fail
  end.

(** The body of [executeJustCallback] once [callback()] has returned or
    thrown: the [try] block's tests on [result], and the [catch] block.
    An exception of the renderer inside the [catch] block is not caught:
    the function throws it. *)
Definition normalize (name : string) (outcome : Completion JsVal JsVal)
    : Completion (Obs Emitted) JsVal :=
  let pass := mkExecResult name pass_mark None in
  let fail := mkExecResult name fail_mark None in
  match outcome with
  | Normal (VPromise _ settles) =>
      Normal (from_promise name pass fail settles)
  | Normal (VObservable _ emits ends) =>
      Normal
        (Rx.map (coerce fail)
           (Rx.catchError (on_error name fail)
              (mkObs (List.map Foreign emits) ends)))
  | Normal _ => Normal (Rx.of_ [Own pass])
  | Throw e =>
      match printErrorDetails name e with
      | Normal text => Normal (Rx.of_ [Own (set_errorStr fail text)])
      | Throw thrown => Throw thrown
      end
  end.

(** [executeJustCallback(name, callback)]: the observable the function
    returns, or what it throws. *)
Definition executeJustCallback (name : string) (callback : option JustCallback)
    : Run (Completion (Obs Emitted) JsVal) :=
  match callback with
  | None => ret (Normal (Rx.of_ [Own (mkExecResult name pass_mark None)]))
  | Some callback =>
      outcome <- invoke callback ;;
      ret (normalize name outcome)
  end.

End Execute.

End Execute.

(* ===================================================================== *)
(** ** fsntest.ts *)
(* ===================================================================== *)

Module Fsntest.

(** *** The [tests] object *)

(** An array index: the canonical decimal of an integer below [2^32 - 1].
    [Object.entries] lists such keys first, in ascending order, and the
    other keys after them in the order they were created. *)
Definition is_digit (c : ascii) : bool :=
  let n := nat_of_ascii c in Nat.leb 48 n && Nat.leb n 57.

Fixpoint all_digits (s : string) : bool :=
  match s with
  | EmptyString => true
  | String c rest => is_digit c && all_digits rest
  end.

Fixpoint digits_value (s : string) (sofar : Z) : Z :=
  match s with
  | EmptyString => sofar
  | String c rest => digits_value rest (10 * sofar + Z.of_nat (nat_of_ascii c - 48))
  end.

Definition array_index (key : string) : option Z :=
  match key with
  | EmptyString => None
  | String c rest =>
      if all_digits key
         && (negb (Ascii.eqb c "0") || String.eqb rest EmptyString)
         && (digits_value key 0 <=? 4294967294)%Z
      then Some (digits_value key 0)
      else None
  end.

Definition is_index (key : string) : bool :=
  match array_index key with Some _ => true | None => false end.

Definition index_of (key : string) : Z :=
  match array_index key with Some i => i | None => 0%Z end.

Fixpoint insert_by_index {A : Type} (e : string * A) (sorted : list (string * A))
    : list (string * A) :=
  match sorted with
  | [] => [e]
  | e' :: rest =>
      if (index_of (fst e) <=? index_of (fst e'))%Z then e :: sorted
      else e' :: insert_by_index e rest
  end.

Fixpoint sort_by_index {A : Type} (entries : list (string * A)) : list (string * A) :=
  match entries with
  | [] => []
  | e :: rest => insert_by_index e (sort_by_index rest)
  end.

(** [Object.entries(tests)]. *)
Definition Object_entries {A : Type} (props : list (string * A)) : list (string * A) :=
  (sort_by_index (filter (fun e => is_index (fst e)) props)
   ++ filter (fun e => negb (is_index (fst e))) props)%list.

(** [tests[key] = fn]: an existing property keeps its place and takes the
    new value, a new one is created last.  The key [__proto__] names the
    prototype accessor: the assignment creates no property.  It makes
    [fn] the prototype of [tests] instead, and a later assignment to a
    name that [fn] holds read-only ([name], [length]) then throws; the
    prototype is not part of this model, so that the registry is modelled
    for the processes that never register a test under [__proto__].  The
    statements on the test a name registers, and on the order of the
    tests, say so ([declares_proto], [reached_by]). *)
Fixpoint assign {A : Type} (key : string) (fn : A) (props : list (string * A))
    : list (string * A) :=
  match props with
  | [] => [(key, fn)]
  | (k, old) :: rest =>
      if String.eqb k key then (k, fn) :: rest else (k, old) :: assign key fn rest
  end.

Definition set_property {A : Type} (key : string) (fn : A) (props : list (string * A))
    : list (string * A) :=
  if String.eqb key "__proto__" then props else assign key fn props.

(** *** Registration *)

Definition beforeAll (fn : JustCallback) : Run unit :=
  modify (fun w => mkWorld (Some fn) (beforeEachFn w) (afterAllFn w) (afterEachFn w)
                           (tests w) (acc w) (invoked w) (dates w) (printed w)).

Definition beforeEach (fn : JustCallback) : Run unit :=
  modify (fun w => mkWorld (beforeAllFn w) (Some fn) (afterAllFn w) (afterEachFn w)
                           (tests w) (acc w) (invoked w) (dates w) (printed w)).

Definition afterAll (fn : JustCallback) : Run unit :=
  modify (fun w => mkWorld (beforeAllFn w) (beforeEachFn w) (Some fn) (afterEachFn w)
                           (tests w) (acc w) (invoked w) (dates w) (printed w)).

Definition afterEach (fn : JustCallback) : Run unit :=
  modify (fun w => mkWorld (beforeAllFn w) (beforeEachFn w) (afterAllFn w) (Some fn)
                           (tests w) (acc w) (invoked w) (dates w) (printed w)).

Definition it (testDescription : string) (testExec : JustCallback) : Run unit :=
  modify (fun w => mkWorld (beforeAllFn w) (beforeEachFn w) (afterAllFn w) (afterEachFn w)
                           (set_property testDescription testExec (tests w))
                           (acc w) (invoked w) (dates w) (printed w)).

(** The body of a suite, [testDef]: the registrations it makes, in
    order. *)
Inductive Declaration : Type :=
| It (testDescription : string) (testExec : JustCallback)
| BeforeAll (fn : JustCallback)
| BeforeEach (fn : JustCallback)
| AfterAll (fn : JustCallback)
| AfterEach (fn : JustCallback).

Definition declare (d : Declaration) : Run unit :=
  match d with
  | It testDescription testExec => it testDescription testExec
  | BeforeAll fn => beforeAll fn
  | BeforeEach fn => beforeEach fn
  | AfterAll fn => afterAll fn
  | AfterEach fn => afterEach fn
  end.

Fixpoint call_testDef (testDef : list Declaration) : Run unit :=
  match testDef with
  | [] => ret tt
  | d :: rest => bind (declare d) (fun _ => call_testDef rest)
  end.

(** *** Timing *)

Definition number (z : Z) : float := PrimFloat.of_uint63 (Uint63.of_Z z).

(** [dateToMs(date)]: the seconds since midnight, with the milliseconds
    as the fraction. *)
Definition dateToMs (date : Date) : float :=
  let seconds :=
    (number (getHours date) * 60 * 60 + number (getMinutes date) * 60
     + number (getSeconds date))%float in
  let ms := (number (getMilliseconds date) / 1000)%float in
  (seconds + ms)%float.

(** The [time] string [describe] computes for a result, from the [Date]
    taken before the test and the one taken when the result arrives. *)
Definition time_between (start finish : Date) : string :=
  let _timing := (dateToMs finish - dateToMs start)%float in
  if ToBoolean (VNum _timing) then
    match split "." (NumberToString.toString _timing) with
    | whole :: parts =>
        let decimal := match parts with d :: _ => d | [] => "000" end in
        whole ++ "." ++ slice0 3 decimal
    | [] => "."
    end
  else "0.000".

Section Describe.

Context {chalk : Chalk} {truthy : Truthy} {json : Json}.

(** The clock: [now k] is the [k]-th [Date] the run constructs. *)
Variable now : nat -> Date.

Local Open Scope run_scope.

Definition new_Date : Run Date :=
  fun w =>
    (now (dates w),
     mkWorld (beforeAllFn w) (beforeEachFn w) (afterAllFn w) (afterEachFn w)
             (tests w) (acc w) (invoked w) (S (dates w)) (printed w)).

(** [scan]'s seed: the array literal, evaluated when the pipeline is
    built. *)
Definition new_seed : Run unit :=
  modify (fun w => mkWorld (beforeAllFn w) (beforeEachFn w) (afterAllFn w) (afterEachFn w)
                           (tests w) [] (invoked w) (dates w) (printed w)).

(** [a ?? b]. *)
Definition nullish_or (a b : JsVal) : JsVal :=
  match a with
  | VUndefined | VNull => b
  | _ => a
  end.

(** The inner [concatMap] of a test: timing, the status line, then
    [afterEach] and the result with its [timing].  The result is copied
    as it is when it is delivered.  The code copies it ([...testResult])
    when [afterEach] delivers its result: the two agree when [afterEach]
    delivers at once ([sync_hook]) and when the result is not changed
    after its delivery ([fail_is_final]); the one object the code changes
    later is [fail], when the observable of a test emitted a value that
    is no [ExecResult] and errors afterwards.  The statements on the
    entries of a summary say so ([read_as_delivered]). *)
Definition on_result (name : string) (start : Date) (testResult : Emitted)
    : Run (Completion (Obs TimedResult) JsVal) :=
  finish <- new_Date ;;
  let time := time_between start finish in
  (if strict_eq (field "passed" testResult) (VStr (green "✔")) then
     print (SpinnerSucceed (green (dquote ++ name ++ dquote ++ " passed in " ++ time ++ "s.")))
   else
     print (SpinnerFail (nullish_or (field "errorStr" testResult)
                                    (VStr (dquote ++ name ++ dquote ++ " failed."))))) ;;
  a <- gets afterEachFn ;;
  r <- Execute.executeJustCallback "afterEach" a ;;
  ret (on_normal (Rx.map (fun _ => mkTimed testResult time)) r).

(** The first [concatMap] of the pipeline: [beforeEach], then the test
    entry itself for each result of the hook. *)
Definition with_beforeEach {A : Type} (test : A) : Run (Completion (Obs A) JsVal) :=
  b <- gets beforeEachFn ;;
  r <- Execute.executeJustCallback "beforeEach" b ;;
  ret (on_normal (Rx.map (fun _ => test)) r).

(** The second [concatMap]: the [Date] before the test, the test, and
    [on_result] for each of its results. *)
Definition run_test (test : string * JustCallback)
    : Run (Completion (Obs TimedResult) JsVal) :=
  let (name, testFn) := test in
  start <- new_Date ;;
  r <- Execute.executeJustCallback name (Some testFn) ;;
  match r with
  | Throw thrown => ret (Throw thrown)
  | Normal results =>
      o <- Rx.concatMap (on_result name start) results ;;
      ret (Normal o)
  end.

(** [executeTests]: one subscription to the pipeline over the entries of
    [tests], operator by operator.  In a run that goes to its end every
    operator sees every value, whatever the order in time.  In a run that
    an error cuts short the code unsubscribes from the entries, and how
    many of them the first [concatMap] has taken by then depends on which
    callbacks are asynchronous: the record of the calls of [beforeEach]
    is an upper bound there, and no statement is made on it. *)
Definition executeTests (entries : list (string * JustCallback)) : Run (Obs Summary) :=
  readied <- Rx.concatMap with_beforeEach (Rx.of_ entries) ;;
  timed <- Rx.concatMap run_test readied ;;
  states <- Rx.scan_push timed ;;
  ret (Rx.last states).

(** The table rows: [summary.map(({ name, passed, timing }) => ...)]. *)
Definition rows (summary : Summary) : list Row :=
  List.map
    (fun t => mkRow (field "name" (result t)) (field "passed" (result t)) (timing t))
    summary.

Definition show_summary (summary : Summary) : Run unit :=
  print (ConsoleLog (blue (nl ++ nl ++ "Summary:" ++ nl))) ;;
  print (PrintTable (rows summary)).

Fixpoint subscribe (values : list Summary) : Run unit :=
  match values with
  | [] => ret tt
  | summary :: rest => show_summary summary ;; subscribe rest
  end.

(** The [concatMap] after [beforeAll]: a subscription to
    [executeTests]; and the one after it: [afterAll], then the summary
    for each result of the hook. *)
Definition then_tests (entries : list (string * JustCallback)) (_ : Emitted)
    : Run (Completion (Obs Summary) JsVal) :=
  o <- executeTests entries ;;
  ret (Normal o).

Definition with_afterAll (summary : Summary) : Run (Completion (Obs Summary) JsVal) :=
  a <- gets afterAllFn ;;
  r <- Execute.executeJustCallback "afterAll" a ;;
  ret (on_normal (Rx.map (fun _ => summary)) r).

(** [describe(suiteName, testDef)].  The result is what the subscriber at
    the end of the pipeline receives, the summaries and the end of the
    sequence; [Throw] is the rejection of the promise [describe] returns,
    when [executeJustCallback] throws for [beforeAll]. *)
Definition describe (suiteName : string) (testDef : list Declaration)
    : Run (Completion (Obs Summary) JsVal) :=
  print (ConsoleLog (blue ("Executing " ++ suiteName ++ nl))) ;;
  call_testDef testDef ;;
  entries <- gets (fun w => Object_entries (tests w)) ;;
  new_seed ;;
  b <- gets beforeAllFn ;;
  r <- Execute.executeJustCallback "beforeAll" b ;;
  match r with
  | Throw thrown => ret (Throw thrown)
  | Normal before =>
      ran <- Rx.concatMap (then_tests entries) before ;;
      done <- Rx.concatMap with_afterAll ran ;;
      subscribe (emitted done) ;;
      ret (Normal done)
  end.

End Describe.

End Fsntest.

(* ===================================================================== *)
(** ** expect.ts *)
(* ===================================================================== *)

Module Expect.

(** What a matcher throws: [new Error(message)], or the exception of a
    function it called. *)
Inductive Exception : Type :=
| NewError (message : string)
| Raised (e : JsVal).

Definition Outcome : Type := Completion bool Exception.

Section Matchers.

Context {chalk : Chalk} {truthy : Truthy} {diff : Diff}.

(** [expected()]: calling a function value. *)
Definition call (f : JsVal) : Completion JsVal Exception :=
  match f with
  | VFun _ (Normal v) => Normal v
  | VFun _ (Throw e) => Throw (Raised e)
  | _ => Throw (Raised (VErr 0 "expected is not a function" None))
  end.

(** Statement sequencing and [try { ... } catch (e) { ... }]. *)
Definition and_then {A B : Type}
    (first : Completion A Exception) (next : Completion B Exception)
    : Completion B Exception :=
  match first with
  | Normal _ => next
  | Throw e => Throw e
  end.

Definition try_catch {A : Type}
    (body : Completion A Exception) (handler : Exception -> Completion A Exception)
    : Completion A Exception :=
  match body with
  | Normal a => Normal a
  | Throw e => handler e
  end.

(** The function [toEqual] maps over the changes of [diffChars]. *)
Definition paint (change : Change) : string :=
  let shown := if String.eqb (value change) " " then "_" else value change in
  if added change then green shown
  else if removed change then red shown
  else value change.

Definition expect_isTruthy (expected : JsVal) : Outcome :=
  if isTruthy expected then Normal true
  else Throw (NewError ("Expected value to be truthy, received "
                        ++ blue (display expected) ++ ".")).

Definition expect_isFalsy (expected : JsVal) : Outcome :=
  if isFalsy expected then Normal true
  else Throw (NewError ("Expected value to be falsy, received "
                        ++ blue (display expected) ++ ".")).

Definition expect_toEqual (expected received : JsVal) : Outcome :=
  if strict_eq expected received then Normal true
  else
    let diffed := EmptyString in
    let diffed_string :=
      if String.eqb (typeof expected) "string" then
        match expected with
        | VStr old =>
            match diffChars old received with
            | Normal changes =>
                Normal (nl ++ nl ++ gray "Diff:" ++ nl
                        ++ join EmptyString (List.map paint changes) ++ nl ++ nl)
            | Throw e => Throw (Raised e)
            end
        | _ => Normal diffed
        end
      else Normal diffed in
    match diffed_string with
    | Throw e => Throw e
    | Normal diffed =>
        let diffed :=
          if String.eqb (typeof expected) "number" then
            nl ++ nl ++ gray "Details:" ++ nl ++ nl
            ++ red (display expected ++ " !== " ++ display received) ++ nl
          else diffed in
        Throw (NewError ("Expected value " ++ bold "does not equal"
                         ++ " received value." ++ diffed))
    end.

Definition expect_toNotEqual (expected received : JsVal) : Outcome :=
  if negb (strict_eq expected received) then Normal true
  else Throw (NewError ("Expected value (" ++ blue (display expected) ++ ") "
                        ++ bold "equals" ++ " received value ("
                        ++ blue (display received) ++ ").")).

Definition expect_toThrow (expected : JsVal) : Outcome :=
  if negb (String.eqb (typeof expected) "function") then
    Throw (NewError ("Expected a function, received " ++ blue (typeof expected) ++ "."))
  else
    try_catch
      (and_then (call expected)
         (Throw (NewError ("Expected function " ++ blue (display expected)
                           ++ " to throw an error, but it did not."))))
      (fun e => Normal true).

End Matchers.

(** The object [expect] returns: each matcher with what calling it
    does. *)
Record Matchers : Type := mkMatchers {
  isTruthy : Outcome;
  isFalsy : Outcome;
  toEqual : JsVal -> Outcome;
  toNotEqual : JsVal -> Outcome;
  toThrow : Outcome
}.

(** [expect(expected)]. *)
Definition expect {chalk : Chalk} {truthy : Truthy} {diff : Diff}
    (expected : JsVal) : Matchers :=
  {| isTruthy := expect_isTruthy expected;
     isFalsy := expect_isFalsy expected;
     toEqual := expect_toEqual expected;
     toNotEqual := expect_toNotEqual expected;
     toThrow := expect_toThrow expected |}.

End Expect.

(* ===================================================================== *)
(** ** bin.js: the command line front end *)
(* ===================================================================== *)

Module Cli.

(** What the front end writes: [console.log], [console.error] and
    [console.clear]. *)
Inductive Console : Type :=
| StdOut (text : string)
| StdErr (text : string)
| Clear.

(** *** Strings and the regular expressions of the source *)

(** The rest of [s] after the prefix [p]. *)
Fixpoint after (p s : string) : option string :=
  match p, s with
  | EmptyString, _ => Some s
  | String a p', String b s' => if Ascii.eqb a b then after p' s' else None
  | String _ _, EmptyString => None
  end.

Definition starts_with (p s : string) : bool :=
  match after p s with Some _ => true | None => false end.

(** A test that holds at some position of the string: an unanchored
    regular expression. *)
Fixpoint anywhere (test : string -> bool) (s : string) : bool :=
  test s
  || match s with
     | EmptyString => false
     | String _ rest => anywhere test rest
     end.

(** A regular expression that is a literal, as [/error TS/]. *)
Definition includes (needle s : string) : bool := anywhere (starts_with needle) s.

(** The flag [i] on a pattern of ASCII characters: letters [A] to [Z]
    and [a] to [z] are the same, no other character is a letter. *)
Definition lower_char (c : ascii) : ascii :=
  let n := nat_of_ascii c in
  if Nat.leb 65 n && Nat.leb n 90 then ascii_of_nat (n + 32) else c.

Fixpoint lower (s : string) : string :=
  match s with
  | EmptyString => EmptyString
  | String c rest => String (lower_char c) (lower rest)
  end.

Definition includes_i (needle s : string) : bool := includes (lower needle) (lower s).

Fixpoint skip_digits (s : string) : string :=
  match s with
  | EmptyString => EmptyString
  | String c rest => if Fsntest.is_digit c then skip_digits rest else s
  end.

(** [/Found \d{1,} errors/i] at the start of a string in lower case. *)
Definition found_errors_here (s : string) : bool :=
  match after "found " s with
  | Some (String c rest) =>
      Fsntest.is_digit c && starts_with " errors" (skip_digits rest)
  | _ => false
  end.

Definition found_errors (data : string) : bool :=
  anywhere found_errors_here (lower data).

(** [:\d{2}:\d{2}] and [/\d{1,2}:\d{2}:\d{2}/] at the start of a
    string. *)
Definition minutes_seconds_here (s : string) : bool :=
  match s with
  | String c0 (String m1 (String m2 (String c1 (String s1 (String s2 _))))) =>
      Ascii.eqb c0 ":" && Fsntest.is_digit m1 && Fsntest.is_digit m2
      && Ascii.eqb c1 ":" && Fsntest.is_digit s1 && Fsntest.is_digit s2
  | _ => false
  end.

Definition time_here (s : string) : bool :=
  match s with
  | String h rest =>
      Fsntest.is_digit h
      && (minutes_seconds_here rest
          || match rest with
             | String h' rest' => Fsntest.is_digit h' && minutes_seconds_here rest'
             | EmptyString => false
             end)
  | EmptyString => false
  end.

Definition has_time (msg : string) : bool := anywhere time_here msg.

(** [String.prototype.trim], on the UTF-8 bytes of the string: the white
    space and the line terminators of the language. *)
Definition white_space : list (list ascii) :=
  List.map (List.map ascii_of_nat)
    [[9]; [10]; [11]; [12]; [13]; [32]; [194; 160]; [225; 154; 128];
     [226; 128; 128]; [226; 128; 129]; [226; 128; 130]; [226; 128; 131];
     [226; 128; 132]; [226; 128; 133]; [226; 128; 134]; [226; 128; 135];
     [226; 128; 136]; [226; 128; 137]; [226; 128; 138]; [226; 128; 168];
     [226; 128; 169]; [226; 128; 175]; [226; 129; 159]; [227; 128; 128];
     [239; 187; 191]].

Fixpoint drop_prefix (p s : list ascii) : option (list ascii) :=
  match p, s with
  | [], _ => Some s
  | a :: p', b :: s' => if Ascii.eqb a b then drop_prefix p' s' else None
  | _ :: _, [] => None
  end.

Fixpoint drop_one (seqs : list (list ascii)) (s : list ascii) : option (list ascii) :=
  match seqs with
  | [] => None
  | p :: more =>
      match drop_prefix p s with
      | Some rest => Some rest
      | None => drop_one more s
      end
  end.

Fixpoint drop_all (fuel : nat) (seqs : list (list ascii)) (s : list ascii) : list ascii :=
  match fuel with
  | O => s
  | S fuel' =>
      match drop_one seqs s with
      | Some rest => drop_all fuel' seqs rest
      | None => s
      end
  end.

Definition trim (s : string) : string :=
  let chars := list_ascii_of_string s in
  let front := drop_all (List.length chars) white_space chars in
  let back :=
    drop_all (List.length front) (List.map (@List.rev ascii) white_space) (List.rev front) in
  string_of_list_ascii (List.rev back).

(** [String.prototype.lastIndexOf] for one character: [None] is [-1]. *)
Fixpoint lastIndexOf (c : ascii) (s : string) : option nat :=
  match s with
  | EmptyString => None
  | String a rest =>
      match lastIndexOf c rest with
      | Some i => Some (S i)
      | None => if Ascii.eqb a c then Some 0 else None
      end
  end.

(** *** The functions of the front end *)

Section Messages.

Context {chalk : Chalk}.

(** What [message.trim()] throws when [split] left no second piece. *)
Definition TypeError_undefined : JsVal :=
  VErr 0 "Cannot read properties of undefined (reading 'trim')" None.

(** [formatTsMsg(msg, color)]. *)
Definition formatTsMsg (msg : string) (color : string -> string)
    : Completion string JsVal :=
  if has_time msg then
    match split "-" msg with
    | timestamp :: message :: _ =>
        Normal (gray ("[" ++ trim timestamp ++ "]") ++ " " ++ color (trim message))
    | _ => Throw TypeError_undefined
    end
  else Normal (color msg).

(** [formatTscMessage(data)]: what it writes, and what it returns or
    throws. *)
Definition formatTscMessage (data : string) : list Console * Completion bool JsVal :=
  if includes "error TS" data then
    ([StdErr (red (trim data))], Normal false)
  else if includes_i "Starting compilation" data
          || includes_i "File change detected" data then
    match formatTsMsg (trim data) blue with
    | Normal text => ([Clear; StdOut (text ++ nl)], Normal false)
    | Throw thrown => ([Clear], Throw thrown)
    end
  else if includes "Found 0 errors" data then
    match formatTsMsg (trim data) green with
    | Normal text => ([StdOut (text ++ nl)], Normal true)
    | Throw thrown => ([], Throw thrown)
    end
  else if found_errors data then
    match formatTsMsg (trim data) red with
    | Normal text => ([StdErr (text ++ nl)], Normal false)
    | Throw thrown => ([], Throw thrown)
    end
  else if Nat.ltb 0 (String.length (trim data)) then
    ([StdOut data], Normal false)
  else ([], Normal false).

End Messages.

Section Files.

Context {chalk : Chalk}.

(** The file system and the path functions of Node: [existsSync],
    [resolve], [join], and the matches of a [glob] pattern. *)
Variable existsSync : string -> bool.
Variable resolve : string -> string.
Variable join : list string -> string.
Variable glob : string -> list string.

(** [exists(path, type)]: the resolved path, or the message of the
    [Error] it throws. *)
Definition exists_ (path type : string) : Completion string string :=
  let path := resolve path in
  if existsSync path then Normal path
  else Throw (type ++ " file does not exist at " ++ path ++ ".").

(** How [resolveSrcFile] ends: with a path, or with a line on the error
    stream and [exit()]. *)
Inductive Resolution : Type :=
| Resolved (path : string)
| Exited (line : string).

(** [resolveSrcFile(srcFileNameOrPath, tsDir)]. *)
Definition resolveSrcFile (srcFileNameOrPath tsDir : string) : Resolution :=
  if existsSync srcFileNameOrPath then Resolved srcFileNameOrPath
  else
    let resolved := resolve srcFileNameOrPath in
    if existsSync resolved then Resolved resolved
    else
      let sourcePath := glob (join [tsDir; "**"; srcFileNameOrPath]) in
      match sourcePath with
      | [] =>
          Exited (red ("Source file " ++ srcFileNameOrPath ++ " could not be resolved. "
                       ++ "Provide an absolute path to the source file or a valid filename."))
      | [path] => Resolved path
      | _ :: _ :: _ =>
          Exited (red ("Multiple files matching name " ++ srcFileNameOrPath
                       ++ " were found in the "
                       ++ "out directory. Provide an absolute path to the source file."))
      end.

(** [resolveOutFile(outPath, outFile)]: the match, or the message of the
    [Error] it throws. *)
Definition resolveOutFile (outPath outFile : string) : Completion string string :=
  let matches := glob (join [outPath; "**/" ++ outFile ++ ".js"]) in
  match matches with
  | [] => Throw "Compiled file could not be resolved."
  | [path] => Normal path
  | _ :: _ :: _ =>
      Throw ("Multiple files in the out directory that match the name " ++ outFile ++ ".")
  end.

(** The name of the output file in the command handler:
    [outFile.substring(0, outFile.lastIndexOf('.'))] on the base name of
    the source path. *)
Definition outFile_of (base : string) : string :=
  substring 0 (match lastIndexOf "." base with Some i => i | None => 0 end) base.

End Files.

End Cli.

(* ===================================================================== *)
(** ** Statements of the specification, and vocabulary of the theorems *)
(* ===================================================================== *)

Section Vocabulary.

Context {chalk : Chalk} {truthy : Truthy} {json : Json}.

(** The first line of every error block. *)
Definition failed_line (name : string) : string :=
  red (dquote ++ name ++ dquote ++ " failed.").

(** The error block as the specification words it (section 7): the
    [failed] line, then the stack under [Details] when the error carries
    one, else the string, else the JSON text of a plain object under the
    could-not-parse label, else the unknown-error line. *)
Definition spec_error_block (name : string) (error : JsVal) : Completion string JsVal :=
  match error with
  | VErr _ _ (Some stack) =>
      Normal (join nl [failed_line name; gray (nl ++ "Details:" ++ nl); stack])
  | VStr s => Normal (join nl [failed_line name; red s])
  | VObj _ _ =>
      match JSON_stringify error with
      | Normal text =>
          Normal (join nl [failed_line name; gray "Could not parse error:"; text])
      | Throw thrown => Throw thrown
      end
  | _ => Normal (join nl [failed_line name; red "An unknown error occured."])
  end.

(** The shape the specification gives an [ExecResult] (section 3): a
    string [name], a boolean [passed], and an error detail only when
    [passed] is false. *)
Definition spec_result_shape (e : Emitted) : Prop :=
  typeof (field "name" e) = "string"
  /\ typeof (field "passed" e) = "boolean"
  /\ (field "errorStr" e <> VUndefined -> field "passed" e = VBool false).

(** What [executeJustCallback(name, callback)] delivers, whatever the
    state it runs in. *)
Definition delivers (name : string) (callback : option JustCallback)
    : Completion (Obs Emitted) JsVal :=
  match callback with
  | None => Normal (Rx.of_ [Own (mkExecResult name Execute.pass_mark None)])
  | Some f => Execute.normalize name (fn_call f)
  end.

(** The results of a callback: the values of the observable it is turned
    into. *)
Definition results_of (name : string) (callback : option JustCallback) : list Emitted :=
  match delivers name callback with
  | Normal o => emitted o
  | Throw _ => []
  end.

(** The callback's observable completes. *)
Definition completes (name : string) (callback : option JustCallback) : bool :=
  match delivers name callback with
  | Normal o => match ending o with Completes => true | _ => false end
  | Throw _ => false
  end.

(** The callback yields exactly one result and completes: a missing
    hook, a function that returns or throws something the renderer can
    print, a promise that settles, an observable with one value. *)
Definition once (name : string) (callback : option JustCallback) : bool :=
  completes name callback && Nat.eqb (List.length (results_of name callback)) 1.

Definition test_once (test : string * JustCallback) : bool :=
  once (fst test) (Some (snd test)).

Definition test_completes (test : string * JustCallback) : bool :=
  completes (fst test) (Some (snd test)).

Definition test_results (test : string * JustCallback) : list Emitted :=
  results_of (fst test) (Some (snd test)).

End Vocabulary.

(** The calls a hook adds to the record: one when it is registered. *)
Definition hook_calls (hook : option JustCallback) : list nat :=
  match hook with
  | Some f => [fn_ref f]
  | None => []
  end.

(** The state after a call of a hook, if it is registered. *)
Definition called (hook : option JustCallback) (w : World) : World :=
  match hook with
  | Some f => snd (invoke f w)
  | None => w
  end.

(** How often a run called the function with identity [ref]. *)
Definition calls_of (ref : nat) (w : World) : nat :=
  count_occ Nat.eq_dec (invoked w) ref.

(** The state after the registrations of a suite body. *)
Definition registered (testDef : list Fsntest.Declaration) (w : World) : World :=
  snd (Fsntest.call_testDef testDef w).

(** The tests a run of [describe] executes, in execution order. *)
Definition entries_of (testDef : list Fsntest.Declaration) (w : World)
    : list (string * JustCallback) :=
  Fsntest.Object_entries (tests (registered testDef w)).

(** Two states with the same registrations. *)
Definition same_registry (w w' : World) : Prop :=
  beforeAllFn w' = beforeAllFn w
  /\ beforeEachFn w' = beforeEachFn w
  /\ afterAllFn w' = afterAllFn w
  /\ afterEachFn w' = afterEachFn w
  /\ tests w' = tests w.

(** The tests a suite body declares, in the order of the calls of
    [it]. *)
Fixpoint declared_tests (testDef : list Fsntest.Declaration)
    : list (string * JustCallback) :=
  match testDef with
  | [] => []
  | Fsntest.It testDescription testExec :: rest =>
      (testDescription, testExec) :: declared_tests rest
  | _ :: rest => declared_tests rest
  end.

(** A name [Object.entries] keeps at its place: no array index, and not
    the name of the prototype accessor. *)
Definition plain_name (key : string) : bool :=
  negb (Fsntest.is_index key) && negb (String.eqb key "__proto__").

(** What the subscriber of [last()] receives for the results [timed]. *)
Definition last_of (timed : Summary) : Obs Summary :=
  match timed with
  | [] => mkObs [] (Errors Rx.EmptyError)
  | _ => mkObs [timed] Completes
  end.

Section Calls.

Context {chalk : Chalk} {truthy : Truthy} {json : Json}.

(** The calls one test adds: the test, then [afterEach] for each of its
    results. *)
Definition test_calls (after : option JustCallback) (test : string * JustCallback)
    : list nat :=
  fn_ref (snd test)
  :: List.concat (repeat (hook_calls after) (List.length (test_results test))).

(** The calls of one subscription to [executeTests]. *)
Definition tests_calls (before after : option JustCallback)
    (entries : list (string * JustCallback)) : list nat :=
  (List.concat (repeat (hook_calls before) (List.length entries))
   ++ flat_map (test_calls after) entries)%list.

(** The calls of a run of [describe]; [afterAll] is called when a
    summary arrives, that is when the tests left a result. *)
Definition suite_calls (w : World) (entries : list (string * JustCallback))
    (timed : Summary) : list nat :=
  (hook_calls (beforeAllFn w)
   ++ tests_calls (beforeEachFn w) (afterEachFn w) entries
   ++ match timed with [] => [] | _ => hook_calls (afterAllFn w) end)%list.

End Calls.

(** *** Vocabulary of the properties beyond the specification *)

(** A string holds the character [c]. *)
Fixpoint has_char (c : ascii) (s : string) : bool :=
  match s with
  | EmptyString => false
  | String a rest => Ascii.eqb a c || has_char c rest
  end.

(** A matcher ends in one of two ways: it returns [true], or throws. *)
Definition true_or_throws (o : Expect.Outcome) : Prop :=
  o = Normal true \/ exists e, o = Throw e.

(** The value is the number [NaN]. *)
Definition is_NaN (v : JsVal) : bool :=
  match v with
  | VNum x => PrimFloat.is_nan x
  | _ => false
  end.

(** [a], or [b] when there is no [a]. *)
Definition or_else {A : Type} (a b : option A) : option A :=
  match a with
  | Some x => Some x
  | None => b
  end.

(** The test registered under [key], if there is one. *)
Fixpoint test_named (key : string) (props : list (string * JustCallback))
    : option JustCallback :=
  match props with
  | [] => None
  | (k, fn) :: rest => if String.eqb k key then Some fn else test_named key rest
  end.

(** The callback of the last call of [it] under [key] in a suite body. *)
Fixpoint last_declared (key : string) (testDef : list Fsntest.Declaration)
    : option JustCallback :=
  match testDef with
  | [] => None
  | Fsntest.It testDescription testExec :: rest =>
      match last_declared key rest with
      | Some fn => Some fn
      | None => if String.eqb testDescription key then Some testExec else None
      end
  | _ :: rest => last_declared key rest
  end.

(** The four hook variables, the function each holds, and the last
    function a suite body registers for a hook. *)
Inductive Hook : Type := HBeforeAll | HBeforeEach | HAfterAll | HAfterEach.

Definition hook_fn (h : Hook) (w : World) : option JustCallback :=
  match h with
  | HBeforeAll => beforeAllFn w
  | HBeforeEach => beforeEachFn w
  | HAfterAll => afterAllFn w
  | HAfterEach => afterEachFn w
  end.

Definition declares (h : Hook) (d : Fsntest.Declaration) : option JustCallback :=
  match h, d with
  | HBeforeAll, Fsntest.BeforeAll fn => Some fn
  | HBeforeEach, Fsntest.BeforeEach fn => Some fn
  | HAfterAll, Fsntest.AfterAll fn => Some fn
  | HAfterEach, Fsntest.AfterEach fn => Some fn
  | _, _ => None
  end.

Fixpoint last_hook (h : Hook) (testDef : list Fsntest.Declaration) : option JustCallback :=
  match testDef with
  | [] => None
  | d :: rest =>
      match last_hook h rest with
      | Some fn => Some fn
      | None => declares h d
      end
  end.

(** The order of [Object.entries] among the names that are array
    indices. *)
Definition by_index {A : Type} (e e' : string * A) : Prop :=
  (Fsntest.index_of (fst e) <= Fsntest.index_of (fst e'))%Z.



(** A hook whose result is delivered at once, while the pipeline
    subscribes to it: no hook, or a function that throws or returns
    something that is neither a promise nor an observable. *)
Definition sync_hook (hook : option JustCallback) : bool :=
  match hook with
  | None => true
  | Some f =>
      match fn_call f with
      | Normal (VPromise _ _) | Normal (VObservable _ _ _) => false
      | _ => true
      end
  end.

(** The results of the test are not changed after their delivery: the
    one object [executeJustCallback] changes is [fail], when the
    observable of the test errors, and it was delivered before that when
    the observable emitted a value that is no [ExecResult]. *)
Definition fail_is_final {truthy : Truthy} (test : string * JustCallback) : bool :=
  match fn_call (snd test) with
  | Normal (VObservable _ emits (Errors _)) => forallb Execute.isExecResult emits
  | _ => true
  end.

(** The entries of the summary are the results as they were delivered:
    [afterEach] delivers at once, or no result changes afterwards. *)
Definition read_as_delivered {truthy : Truthy}
    (after : option JustCallback) (entries : list (string * JustCallback)) : bool :=
  sync_hook after || forallb fail_is_final entries.

(** The suite bodies register a test under [__proto__]. *)
Definition declares_proto (testDef : list Fsntest.Declaration) : bool :=
  existsb (fun test => String.eqb (fst test) "__proto__") (declared_tests testDef).

(** A state of a process whose suite bodies made the registrations
    [history], in that order, since the module was loaded. *)
Definition reached_by (history : list Fsntest.Declaration) (w : World) : Prop :=
  same_registry (registered history initial) w.

(** The names in the order of their first occurrence. *)
Definition seen (key : string) (names : list string) : bool :=
  existsb (String.eqb key) names.

Definition note (sofar : list string) (key : string) : list string :=
  if seen key sofar then sofar else (sofar ++ [key])%list.

Definition first_occurrences (names : list string) : list string :=
  fold_left note names [].

(** Ascending array indices, on names; and strictly ascending ones. *)
Definition index_order (key key' : string) : Prop :=
  (Fsntest.index_of key <= Fsntest.index_of key')%Z.

Definition index_before (key key' : string) : Prop :=
  (Fsntest.index_of key < Fsntest.index_of key')%Z.

(** The value of a decimal digit. *)
Definition digit (c : ascii) : Z := Z.of_nat (nat_of_ascii c - 48).

(** The registrations of the tests of a suite body, on the properties of
    [tests]. *)
Definition register_tests (declared : list (string * JustCallback))
    (props : list (string * JustCallback)) : list (string * JustCallback) :=
  fold_left (fun sofar test => Fsntest.set_property (fst test) (snd test) sofar)
            declared props.

(** A relation between the state before and the state after that a
    computation keeps. *)
Definition preserves (R : World -> World -> Prop) {A : Type} (m : Run A) : Prop :=
  forall w, R w (snd (m w)).

(** The summary tables printed so far. *)
Definition is_table (o : Output) : bool :=
  match o with
  | PrintTable _ => true
  | _ => false
  end.

Definition tables (w : World) : nat := List.length (filter is_table (printed w)).

Definition same_tables (w w' : World) : Prop := tables w' = tables w.

(** What a relation must allow to be kept by the pipeline of [describe]:
    the steps that record a call, take a [Date], replace or extend the
    seed array, and print anything but a table. *)
Class Frame (now : nat -> Date) (R : World -> World -> Prop) : Prop := {
  frame_refl : forall w, R w w;
  frame_trans : forall w1 w2 w3, R w1 w2 -> R w2 w3 -> R w1 w3;
  frame_invoke : forall f, preserves R (invoke f);
  frame_new_Date : preserves R (Fsntest.new_Date now);
  frame_new_seed : preserves R Fsntest.new_seed;
  frame_push : forall r, preserves R (Rx.push r);
  frame_print : forall o, is_table o = false -> preserves R (print o)
}.


Section Times.

Context {chalk : Chalk} {truthy : Truthy} {json : Json}.

Variable now : nat -> Date.



End Times.

(** The compiler announces a compilation: the second test of
    [formatTscMessage]. *)
Definition banner (data : string) : bool :=
  Cli.includes_i "Starting compilation" data
  || Cli.includes_i "File change detected" data.

(** *** Inputs of the closed examples *)

Module Sample.

(** A test returning [of(1)], and one returning [of(1, 2)]. *)
Definition emits_one : JustCallback :=
  mkCallback 1 (Normal (VObservable 101 [VNum 1] Completes)).
Definition emits_two : JustCallback :=
  mkCallback 2 (Normal (VObservable 102 [VNum 1; VNum 2] Completes)).

(** A test returning [EMPTY]. *)
Definition emits_nothing : JustCallback :=
  mkCallback 3 (Normal (VObservable 103 [] Completes)).

(** [{ id: 1n }], a value [JSON.stringify] cannot print. *)
Definition unprintable : JsVal := VObj 104 [("id", VBigInt 1)].

(** A test that throws it, and one that returns a promise rejecting
    with it. *)
Definition throws_unprintable : JustCallback := mkCallback 4 (Throw unprintable).
Definition rejects_unprintable : JustCallback :=
  mkCallback 5 (Normal (VPromise 105 (Rejected unprintable))).

(** A test that returns, one that throws [new Error("boom")], one whose
    promise resolves and one whose promise rejects with a string. *)
Definition returns : JustCallback := mkCallback 6 (Normal VUndefined).
Definition boom : JsVal := VErr 106 "boom" (Some "Error: boom").
Definition throws_boom : JustCallback := mkCallback 7 (Throw boom).
Definition resolves : JustCallback :=
  mkCallback 8 (Normal (VPromise 108 (Fulfilled (VNum 1)))).
Definition rejects : JustCallback :=
  mkCallback 9 (Normal (VPromise 109 (Rejected (VStr "no")))).

(** An error whose [stack] was removed. *)
Definition stackless : JsVal := VErr 110 "boom" None.

(** A test whose observable emits an object that looks like a result:
    it passed, and it has an error text. *)
Definition lookalike : JsVal :=
  VObj 111 [("name", VStr "t"); ("passed", VBool true); ("errorStr", VStr "late")].
Definition emits_lookalike : JustCallback :=
  mkCallback 10 (Normal (VObservable 112 [lookalike] Completes)).

(** The four hooks, as functions that return. *)
Definition hookBeforeAll : JustCallback := mkCallback 21 (Normal VUndefined).
Definition hookBeforeEach : JustCallback := mkCallback 22 (Normal VUndefined).
Definition hookAfterEach : JustCallback := mkCallback 23 (Normal VUndefined).
Definition hookAfterAll : JustCallback := mkCallback 24 (Normal VUndefined).

(** A clock that starts at midnight and advances half a second between
    two readings. *)
Definition half_seconds (k : nat) : Date :=
  mkDate (Z.of_nat ((k / 7200) mod 24)) (Z.of_nat ((k / 120) mod 60))
         (Z.of_nat ((k / 2) mod 60)) (Z.of_nat (500 * (k mod 2))).

(** The scenario of the specification (section 8): test [a] passes,
    [b] throws [Error("boom")], [c] returns a promise that resolves; with
    the four hooks. *)
Definition scenario : list Fsntest.Declaration :=
  [Fsntest.BeforeAll hookBeforeAll; Fsntest.BeforeEach hookBeforeEach;
   Fsntest.AfterEach hookAfterEach; Fsntest.AfterAll hookAfterAll;
   Fsntest.It "a" returns; Fsntest.It "b" throws_boom; Fsntest.It "c" resolves].

(** A suite of one test that returns [of(1, 2)], with [afterEach]. *)
Definition two_values : list Fsntest.Declaration :=
  [Fsntest.AfterEach hookAfterEach; Fsntest.It "a" emits_two].

(** A suite whose first test throws [{ id: 1n }]. *)
Definition unprintable_first : list Fsntest.Declaration :=
  [Fsntest.It "x" throws_unprintable; Fsntest.It "y" returns].

(** A suite without tests, with [beforeAll] and [afterAll]. *)
Definition no_tests : list Fsntest.Declaration :=
  [Fsntest.BeforeAll hookBeforeAll; Fsntest.AfterAll hookAfterAll].




(** A [beforeEach] hook that returns [EMPTY], before two tests. *)
Definition hookEmpty : JustCallback :=
  mkCallback 25 (Normal (VObservable 125 [] Completes)).

Definition skipped : list Fsntest.Declaration :=
  [Fsntest.BeforeEach hookEmpty; Fsntest.It "a" returns; Fsntest.It "b" throws_boom].

(** A test that returns [EMPTY], before a test that returns. *)
Definition empty_first : list Fsntest.Declaration :=
  [Fsntest.It "a" emits_nothing; Fsntest.It "b" returns].

(** A [beforeEach] hook that returns [of(1, 2)], before two tests. *)
Definition hookTwice : JustCallback :=
  mkCallback 26 (Normal (VObservable 126 [VNum 1; VNum 2] Completes)).

Definition doubled : list Fsntest.Declaration :=
  [Fsntest.BeforeEach hookTwice; Fsntest.It "a" returns; Fsntest.It "b" throws_boom].

(** A suite that registers [b], [1], [a] and [0], and [b] a second
    time. *)
Definition mixed_names : list Fsntest.Declaration :=
  [Fsntest.It "b" returns; Fsntest.It "1" resolves; Fsntest.It "a" returns;
   Fsntest.It "0" throws_boom; Fsntest.It "b" rejects].

(** A suite whose [beforeAll] throws [{ id: 1n }]. *)
Definition unprintable_beforeAll : list Fsntest.Declaration :=
  [Fsntest.BeforeAll throws_unprintable; Fsntest.It "a" returns].

(** A directory tree in which the compiler wrote [out/a.spec.js]: [join]
    with the separator of POSIX, and what [glob] finds. *)
Definition posix_join (parts : list string) : string := join "/" parts.

Definition one_compiled_file (pattern : string) : list string :=
  if String.eqb pattern "out/**/a.spec.js" then ["out/a.spec.js"] else [].

End Sample.

(* ===================================================================== *)
(** ** Properties of the matchers *)
(* ===================================================================== *)

Section Expect_properties.

Context {chalk : Chalk} {truthy : Truthy} {diff : Diff}.

Lemma typeof_function : forall v : JsVal,
  typeof v = "function" -> exists ref call, v = VFun ref call.
Proof.
  intros v H. destruct v; simpl in H; try discriminate.
  eauto.
Qed.

Lemma try_catch_true : forall body : Completion bool Expect.Exception,
  (forall b, body <> Normal b) ->
  Expect.try_catch body (fun _ => Normal true) = Normal true.
Proof.
  intros body Hthrows. destruct body as [b | e]; simpl.
  - exfalso. apply (Hthrows b). reflexivity.
  - reflexivity.
Qed.

(** C9.  [expect(expected).toThrow()] returns [true] for every function,
    whether calling it throws or returns: the error the [try] block
    raises after a call that returned is caught by the matcher's own
    [catch].  The matcher throws only when [expected] is no function. *)
Theorem toThrow_true_for_every_function : forall expected : JsVal,
  (typeof expected = "function" ->
   Expect.toThrow (Expect.expect expected) = Normal true)
  /\ (forall ref v,
        Expect.toThrow (Expect.expect (VFun ref (Normal v))) = Normal true)
  /\ (forall e,
        Expect.toThrow (Expect.expect expected) = Throw e ->
        typeof expected <> "function"
        /\ e = Expect.NewError
                 ("Expected a function, received " ++ blue (typeof expected) ++ ".")).
Proof.
  intros expected. split; [| split].
  - intros Hfun. destruct (typeof_function expected Hfun) as (ref & call & ->).
    simpl. unfold Expect.expect_toThrow. simpl.
    apply try_catch_true. intros b.
    destruct call as [v | thrown]; simpl; discriminate.
  - intros ref v. reflexivity.
  - intros e Hthrow. simpl in Hthrow. unfold Expect.expect_toThrow in Hthrow.
    destruct (String.eqb (typeof expected) "function") eqn:Hty; simpl in Hthrow.
    + apply String.eqb_eq in Hty.
      destruct (typeof_function expected Hty) as (ref & call & ->).
      destruct call; simpl in Hthrow; discriminate.
    + apply String.eqb_neq in Hty. split; [exact Hty |].
      injection Hthrow as <-. reflexivity.
Qed.

Lemma toEqual_throws_when_different : forall expected received : JsVal,
  strict_eq expected received = false ->
  exists e, Expect.expect_toEqual expected received = Throw e.
Proof.
  intros expected received Hne. unfold Expect.expect_toEqual. rewrite Hne.
  destruct (String.eqb (typeof expected) "string"); [| eauto].
  destruct expected; eauto.
  destruct (diffChars s received); eauto.
Qed.

(** C10.  [expect(expected).toEqual(received)] returns [true] exactly
    when [expected === received], and throws otherwise; two distinct
    objects throw even when their properties are the same. *)
Theorem toEqual_iff_strictly_equal : forall expected received : JsVal,
  (Expect.toEqual (Expect.expect expected) received = Normal true
   <-> strict_eq expected received = true)
  /\ (strict_eq expected received = false ->
      exists e, Expect.toEqual (Expect.expect expected) received = Throw e)
  /\ (forall ref ref' props,
        ref <> ref' ->
        exists e,
          Expect.toEqual (Expect.expect (VObj ref props)) (VObj ref' props) = Throw e).
Proof.
  intros expected received. simpl. split; [| split].
  - split.
    + intros Hret. destruct (strict_eq expected received) eqn:Heq; [reflexivity |].
      destruct (toEqual_throws_when_different expected received Heq) as [e He].
      rewrite He in Hret. discriminate.
    + intros Heq. unfold Expect.expect_toEqual. rewrite Heq. reflexivity.
  - apply toEqual_throws_when_different.
  - intros ref ref' props Hdiff.
    apply toEqual_throws_when_different. simpl.
    apply Nat.eqb_neq. exact Hdiff.
Qed.

End Expect_properties.

(* ===================================================================== *)
(** ** Properties of [execute.ts] *)
(* ===================================================================== *)

Section Execute_properties.

Context {chalk : Chalk} {truthy : Truthy} {json : Json}.

(** [executeJustCallback] calls the callback once, when there is one,
    and what it delivers does not depend on the state. *)
Lemma executeJustCallback_run : forall name callback w,
  Execute.executeJustCallback name callback w
  = (delivers name callback, called callback w).
Proof.
  intros name [f |] w; reflexivity.
Qed.

Lemma append_empty : forall s : string, s ++ EmptyString = s.
Proof.
  induction s as [| c s IH]; simpl; [reflexivity | now rewrite IH].
Qed.

Lemma printErrorDetails_header : forall name error text,
  Execute.printErrorDetails name error = Normal text ->
  exists rest, text = failed_line name ++ rest.
Proof.
  intros name error text. unfold Execute.printErrorDetails, failed_line.
  repeat match goal with
         | |- context [if ?c then _ else _] => destruct c
         | |- context [match ?x with _ => _ end] => destruct x
         end;
    intros H; try discriminate; injection H as <-;
    first [ eexists; reflexivity
          | exists EmptyString; rewrite append_empty; reflexivity ].
Qed.

(** C8, amended.  The block [printErrorDetails] renders starts with the
    [failed] line.  A value that is not truthy gets the unknown-error
    line.  A truthy native error gets its stack under [Details] when the
    stack is a non-empty string, and nothing more otherwise; a truthy
    string is appended; any other truthy value of type [object] gets the
    text of [JSON.stringify] under the could-not-parse label, when
    [JSON.stringify] returns one, and what it throws is thrown on; every
    other value gets the unknown-error line. *)
Theorem printErrorDetails_by_cases : forall (name : string) (error : JsVal),
  (forall text,
     Execute.printErrorDetails name error = Normal text ->
     exists rest, text = failed_line name ++ rest)
  /\ (isTruthy error = false ->
      Execute.printErrorDetails name error
      = Normal (failed_line name ++ nl ++ red "An unknown error occured."))
  /\ (isTruthy error = true ->
      match error with
      | VErr _ _ (Some stack) =>
          Execute.printErrorDetails name error
          = if String.eqb stack EmptyString then Normal (failed_line name)
            else Normal (failed_line name ++ nl ++ gray (nl ++ "Details:" ++ nl)
                         ++ nl ++ stack)
      | VErr _ _ None =>
          Execute.printErrorDetails name error = Normal (failed_line name)
      | VStr s =>
          Execute.printErrorDetails name error
          = Normal (failed_line name ++ nl ++ red s)
      | VObj _ _ | VPromise _ _ | VObservable _ _ _ =>
          match JSON_stringify error with
          | Normal text =>
              Execute.printErrorDetails name error
              = Normal (failed_line name ++ nl ++ gray "Could not parse error:"
                        ++ nl ++ text)
          | Throw thrown =>
              Execute.printErrorDetails name error = Throw thrown
          end
      | VUndefined | VNull | VBool _ | VNum _ | VBigInt _ | VFun _ _ =>
          Execute.printErrorDetails name error
          = Normal (failed_line name ++ nl ++ red "An unknown error occured.")
      end).
Proof.
  intros name error. split; [| split].
  - apply printErrorDetails_header.
  - intros Hfalsy. unfold Execute.printErrorDetails. rewrite Hfalsy. reflexivity.
  - intros Htruthy. unfold Execute.printErrorDetails. rewrite Htruthy.
    destruct error as [| | b | x | z | s | ref call | ref props
                       | ref message [stack |] | ref settles | ref emits ends];
      simpl; try reflexivity.
    + rewrite isTruthy_null in Htruthy. discriminate.
    + destruct (JSON_stringify (VObj ref props)); reflexivity.
    + destruct (String.eqb stack EmptyString); reflexivity.
    + destruct (JSON_stringify (VPromise ref settles)); reflexivity.
    + destruct (JSON_stringify (VObservable ref emits ends)); reflexivity.
Qed.

(** The result sequence of a callback that returned an observable, in
    closed form. *)
Lemma observable_closed_form : forall name oref emits ends,
  let fail := mkExecResult name Execute.fail_mark None in
  let coerced := List.map (fun v => Execute.coerce fail (Foreign v)) emits in
  Execute.normalize name (Normal (VObservable oref emits ends))
  = Normal
      match ends with
      | Completes => mkObs coerced Completes
      | Never => mkObs coerced Never
      | Errors error =>
          match Execute.printErrorDetails name error with
          | Normal text =>
              mkObs (coerced ++ [Own (mkExecResult name Execute.fail_mark (Some text))])
                    Completes
          | Throw thrown => mkObs coerced (Errors thrown)
          end
      end.
Proof.
  intros name oref emits ends fail coerced. unfold Execute.normalize.
  fold fail. f_equal. unfold Rx.map, Rx.catchError. simpl.
  destruct ends as [| error |]; simpl.
  - rewrite List.map_map. reflexivity.
  - unfold Execute.on_error.
    destruct (Execute.printErrorDetails name error) as [text | thrown]; simpl.
    + rewrite List.map_app, List.map_map. reflexivity.
    + rewrite List.map_map. reflexivity.
  - rewrite List.map_map. reflexivity.
Qed.

(** What the observable of a callback is turned into.  For a callback
    that returns an observable: every emitted value that is an
    [ExecResult] (truthy, an object, with [name] and [passed]) goes
    through as it is; every other emitted value is replaced by the
    failing result of the test, without error text; an error the renderer
    can print adds the failing result with the rendered text after them,
    and the sequence of results completes. *)
Theorem observable_results : forall name ref oref emits ends w,
  let fail := mkExecResult name Execute.fail_mark None in
  let coerced := List.map (fun v => Execute.coerce fail (Foreign v)) emits in
  let delivered :=
    fst (Execute.executeJustCallback name
           (Some (mkCallback ref (Normal (VObservable oref emits ends)))) w) in
  (forall v, Execute.isExecResult v = true -> Execute.coerce fail (Foreign v) = Foreign v)
  /\ (forall v, Execute.isExecResult v = false -> Execute.coerce fail (Foreign v) = Own fail)
  /\ match ends with
     | Completes => delivered = Normal (mkObs coerced Completes)
     | Never => delivered = Normal (mkObs coerced Never)
     | Errors error =>
         forall text,
           Execute.printErrorDetails name error = Normal text ->
           delivered
           = Normal (mkObs (coerced
                              ++ [Own (mkExecResult name Execute.fail_mark (Some text))])
                           Completes)
     end.
Proof.
  intros name ref oref emits ends w fail coerced delivered.
  assert (Hrun : delivered
                 = Execute.normalize name (Normal (VObservable oref emits ends))).
  { unfold delivered. rewrite executeJustCallback_run. reflexivity. }
  rewrite Hrun, observable_closed_form. fold fail. fold coerced.
  split; [| split].
  - intros v Hv. simpl. rewrite Hv. reflexivity.
  - intros v Hv. simpl. rewrite Hv. reflexivity.
  - destruct ends as [| error |]; try reflexivity.
    intros text Htext. rewrite Htext. reflexivity.
Qed.

(** What the observable of a promise delivers. *)
Lemma promise_closed_form : forall name pref settles,
  Execute.normalize name (Normal (VPromise pref settles))
  = Normal
      match settles with
      | Fulfilled _ => Rx.of_ [Own (mkExecResult name Execute.pass_mark None)]
      | Rejected reason =>
          match Execute.printErrorDetails name reason with
          | Normal text =>
              Rx.of_ [Own (mkExecResult name Execute.fail_mark (Some text))]
          | Throw _ => mkObs [] Never
          end
      | Pending => mkObs [] Never
      end.
Proof.
  intros name pref settles. unfold Execute.normalize, Execute.from_promise.
  destruct settles as [v | reason |]; try reflexivity.
  destruct (Execute.printErrorDetails name reason); reflexivity.
Qed.

(** Every result [executeJustCallback] delivers was built by it, or was
    emitted by the observable of the callback and is an [ExecResult]. *)
Lemma delivered_results : forall name callback o e,
  delivers name callback = Normal o ->
  In e (emitted o) ->
  e = Own (mkExecResult name Execute.pass_mark None)
  \/ e = Own (mkExecResult name Execute.fail_mark None)
  \/ (exists text, e = Own (mkExecResult name Execute.fail_mark (Some text)))
  \/ (exists v, e = Foreign v /\ Execute.isExecResult v = true).
Proof.
  intros name callback o e Hdel Hin.
  destruct callback as [[ref call] |]; simpl in Hdel.
  2: { injection Hdel as <-. destruct Hin as [<- | []]. now left. }
  destruct call as [returned | thrown].
  - assert (Hplain : o = Rx.of_ [Own (mkExecResult name Execute.pass_mark None)] ->
                     e = Own (mkExecResult name Execute.pass_mark None)).
    { intros ->. destruct Hin as [<- | []]. reflexivity. }
    destruct returned;
      try (left; apply Hplain; simpl in Hdel; injection Hdel as <-; reflexivity).
    + rewrite promise_closed_form in Hdel. injection Hdel as <-.
      destruct settles as [v | reason |]; simpl in Hin.
      * destruct Hin as [<- | []]. now left.
      * destruct (Execute.printErrorDetails name reason) as [text | t]; simpl in Hin.
        -- destruct Hin as [<- | []]. right; right; left. now exists text.
        -- destruct Hin.
      * destruct Hin.
    + rewrite observable_closed_form in Hdel. injection Hdel as <-.
      assert (Hco : forall v,
                 Execute.coerce (mkExecResult name Execute.fail_mark None) (Foreign v)
                 = Own (mkExecResult name Execute.fail_mark None)
                 \/ (Execute.coerce (mkExecResult name Execute.fail_mark None) (Foreign v)
                     = Foreign v /\ Execute.isExecResult v = true)).
      { intros v. simpl. destruct (Execute.isExecResult v); auto. }
      assert (Hmap : In e (List.map
                             (fun v => Execute.coerce
                                         (mkExecResult name Execute.fail_mark None)
                                         (Foreign v)) emits) ->
                     e = Own (mkExecResult name Execute.fail_mark None)
                     \/ (exists v, e = Foreign v /\ Execute.isExecResult v = true)).
      { intros Hm. apply in_map_iff in Hm. destruct Hm as (v & <- & _).
        destruct (Hco v) as [-> | [-> Hv]]; [now left | right; now exists v]. }
      destruct ends as [| error |]; simpl in Hin.
      * destruct (Hmap Hin) as [-> | Hf]; auto.
      * destruct (Execute.printErrorDetails name error) as [text | t]; simpl in Hin.
        -- apply in_app_or in Hin. destruct Hin as [Hin | [<- | []]].
           ++ destruct (Hmap Hin) as [-> | Hf]; auto.
           ++ right; right; left. now exists text.
        -- destruct (Hmap Hin) as [-> | Hf]; auto.
      * destruct (Hmap Hin) as [-> | Hf]; auto.
  - unfold Execute.normalize in Hdel.
    destruct (Execute.printErrorDetails name thrown) as [text | t]; [| discriminate].
    injection Hdel as <-. destruct Hin as [<- | []].
    right; right; left. now exists text.
Qed.

(** C5, amended.  A result built by [executeJustCallback] carries the
    name it was called with, one of the two marks as [passed] (a string:
    [chalk.green('✔')] or [chalk.red('✖')]) and an [errorStr] only
    together with the failure mark.  The only other results are values
    the observable of the callback emitted, which are [ExecResult]s by
    the test of [isExecResult] and go through with the fields they
    have. *)
Theorem results_built_by_executeJustCallback : forall label callback w o e,
  fst (Execute.executeJustCallback label callback w) = Normal o ->
  In e (emitted o) ->
  match e with
  | Own r =>
      name r = label
      /\ (passed r = Execute.pass_mark \/ passed r = Execute.fail_mark)
      /\ (forall text, errorStr r = Some text -> passed r = Execute.fail_mark)
  | Foreign v => Execute.isExecResult v = true
  end.
Proof.
  intros label callback w o e Hrun Hin.
  rewrite executeJustCallback_run in Hrun. simpl in Hrun.
  destruct (@delivered_results label callback o e Hrun Hin)
    as [-> | [-> | [[text ->] | (v & -> & Hv)]]]; simpl.
  - split; [reflexivity | split; [now left | discriminate]].
  - split; [reflexivity | split; [now right | discriminate]].
  - split; [reflexivity | split; [now right | reflexivity]].
  - exact Hv.
Qed.

(** A callback that throws a value the renderer can print yields exactly
    one result, the failing one, whose [errorStr] is the rendered block;
    the block starts with the [failed] line. *)
Theorem printable_throw_is_captured : forall label ref e text w,
  Execute.printErrorDetails label e = Normal text ->
  fst (Execute.executeJustCallback label (Some (mkCallback ref (Throw e))) w)
  = Normal (Rx.of_ [Own (mkExecResult label Execute.fail_mark (Some text))])
  /\ exists rest, text = failed_line label ++ rest.
Proof.
  intros label ref e text w Htext. split.
  - rewrite executeJustCallback_run. simpl. unfold Execute.normalize.
    rewrite Htext. reflexivity.
  - exact (printErrorDetails_header label e Htext).
Qed.

(** A callback that returns a promise yields the passing result when the
    promise resolves, the failing result with the rendered reason when it
    rejects with a reason the renderer can print, and nothing while the
    promise is pending. *)
Theorem promise_results : forall label ref pref settles w,
  match settles with
  | Fulfilled _ =>
      fst (Execute.executeJustCallback label
             (Some (mkCallback ref (Normal (VPromise pref settles)))) w)
      = Normal (Rx.of_ [Own (mkExecResult label Execute.pass_mark None)])
  | Rejected reason =>
      forall text,
        Execute.printErrorDetails label reason = Normal text ->
        fst (Execute.executeJustCallback label
               (Some (mkCallback ref (Normal (VPromise pref settles)))) w)
        = Normal (Rx.of_ [Own (mkExecResult label Execute.fail_mark (Some text))])
  | Pending =>
      fst (Execute.executeJustCallback label
             (Some (mkCallback ref (Normal (VPromise pref settles)))) w)
      = Normal (mkObs [] Never)
  end.
Proof.
  intros label ref pref settles w.
  destruct settles as [v | reason |]; try intros text Htext;
    rewrite executeJustCallback_run; unfold delivers; cbn [fst fn_call];
    rewrite promise_closed_form; try rewrite Htext; reflexivity.
Qed.

End Execute_properties.

(* ===================================================================== *)
(** ** Properties of the runner *)
(* ===================================================================== *)

Section Runner.

Context {chalk : Chalk} {truthy : Truthy} {json : Json}.

Variable now : nat -> Date.


Lemma same_registry_trans : forall w1 w2 w3,
  same_registry w1 w2 -> same_registry w2 w3 -> same_registry w1 w3.
Proof.
  intros w1 w2 w3 (a & b & c & d & e) (a' & b' & c' & d' & e').
  repeat split; congruence.
Qed.

Lemma called_frame : forall hook w,
  same_registry w (called hook w)
  /\ acc (called hook w) = acc w
  /\ dates (called hook w) = dates w
  /\ printed (called hook w) = printed w
  /\ invoked (called hook w) = (invoked w ++ hook_calls hook)%list.
Proof.
  intros [f |] w; simpl.
  - repeat split.
  - repeat split. now rewrite app_nil_r.
Qed.

Lemma once_delivers : forall name hook,
  once name hook = true ->
  exists r, delivers name hook = Normal (mkObs [r] Completes).
Proof.
  intros name hook. unfold once, completes, results_of.
  destruct (delivers name hook) as [[values fin] | thrown]; simpl; [| discriminate].
  destruct fin; simpl; try discriminate.
  destruct values as [| r [| r' rest]]; simpl; try discriminate.
  intros _. now exists r.
Qed.

Lemma concatMap_from_cons : forall (A B : Type)
    (project : A -> Run (Completion (Obs B) JsVal)) x rest fin w,
  Rx.concatMap_from project (x :: rest) fin w
  = match project x w with
    | (Throw thrown, w1) => (mkObs [] (Errors thrown), w1)
    | (Normal inner, w1) =>
        match ending inner with
        | Completes =>
            let (o, w2) := Rx.concatMap_from project rest fin w1 in
            (mkObs (emitted inner ++ emitted o) (ending o), w2)
        | _ => (inner, w1)
        end
    end.
Proof.
  intros. simpl. unfold bind. destruct (project x w) as [[inner | thrown] w1].
  - destruct (ending inner); try reflexivity.
  - reflexivity.
Qed.

Lemma on_result_run : forall name start x w,
  once "afterEach" (afterEachFn w) = true ->
  exists w',
    Fsntest.on_result now name start x w
    = (Normal (mkObs [mkTimed x (Fsntest.time_between start (now (dates w)))] Completes), w')
    /\ same_registry w w'
    /\ acc w' = acc w
    /\ invoked w' = (invoked w ++ hook_calls (afterEachFn w))%list.
Proof.
  intros name start x w Honce.
  destruct (@once_delivers _ _ Honce) as [r Hr].
  unfold Fsntest.on_result, bind, Fsntest.new_Date, gets.
  match goal with
  | |- context [if ?c then print ?a else print ?b] =>
      assert (Hline : exists o, (if c then print a else print b) = print o)
        by (destruct c; eexists; reflexivity)
  end.
  destruct Hline as [o ->]. simpl.
  rewrite executeJustCallback_run. rewrite Hr. simpl.
  eexists. split; [reflexivity |].
  unfold same_registry.
  destruct (afterEachFn w) as [f |] eqn:Ha; simpl; rewrite ?Ha, ?app_nil_r;
    repeat split.
Qed.

Lemma inner_results : forall name start results w,
  once "afterEach" (afterEachFn w) = true ->
  exists timed w',
    Rx.concatMap_from (Fsntest.on_result now name start) results Completes w
    = (mkObs timed Completes, w')
    /\ List.map result timed = results
    /\ same_registry w w'
    /\ acc w' = acc w
    /\ invoked w'
       = (invoked w
          ++ List.concat (repeat (hook_calls (afterEachFn w)) (List.length results)))%list.
Proof.
  intros name start results. induction results as [| x rest IH]; intros w Honce.
  - exists [], w. simpl. repeat split. now rewrite app_nil_r.
  - destruct (@on_result_run name start x w Honce)
      as (w1 & Hstep & Hreg & Hacc & Hinv).
    assert (Honce1 : once "afterEach" (afterEachFn w1) = true).
    { destruct Hreg as (_ & _ & _ & -> & _). exact Honce. }
    destruct (IH w1 Honce1) as (timed & w' & Hrun & Hmap & Hreg' & Hacc' & Hinv').
    rewrite concatMap_from_cons, Hstep. simpl. rewrite Hrun. simpl.
    eexists; eexists. split; [reflexivity |]. simpl.
    split; [now rewrite Hmap |].
    split; [eapply same_registry_trans; [exact Hreg | exact Hreg'] |].
    split; [rewrite Hacc', Hacc; reflexivity |].
    rewrite Hinv', Hinv. destruct Hreg as (_ & _ & _ & -> & _).
    rewrite <- app_assoc. reflexivity.
Qed.

Lemma with_beforeEach_run : forall (A : Type) (test : A) w,
  once "beforeEach" (beforeEachFn w) = true ->
  Fsntest.with_beforeEach test w
  = (Normal (mkObs [test] Completes), called (beforeEachFn w) w).
Proof.
  intros A test w Honce. destruct (@once_delivers _ _ Honce) as [r Hr].
  unfold Fsntest.with_beforeEach, bind, gets.
  rewrite executeJustCallback_run, Hr. reflexivity.
Qed.

Lemma readied_run : forall (A : Type) (entries : list A) w,
  once "beforeEach" (beforeEachFn w) = true ->
  exists w',
    Rx.concatMap_from Fsntest.with_beforeEach entries Completes w
    = (mkObs entries Completes, w')
    /\ same_registry w w'
    /\ acc w' = acc w
    /\ invoked w'
       = (invoked w
          ++ List.concat (repeat (hook_calls (beforeEachFn w)) (List.length entries)))%list.
Proof.
  intros A entries. induction entries as [| test rest IH]; intros w Honce.
  - exists w. simpl. repeat split. now rewrite app_nil_r.
  - destruct (called_frame (beforeEachFn w) w) as (Hreg & Hacc & _ & _ & Hinv).
    assert (Honce1 : once "beforeEach" (beforeEachFn (called (beforeEachFn w) w)) = true).
    { destruct Hreg as (_ & -> & _). exact Honce. }
    destruct (IH _ Honce1) as (w' & Hrun & Hreg' & Hacc' & Hinv').
    rewrite concatMap_from_cons, with_beforeEach_run by exact Honce.
    simpl. rewrite Hrun. simpl.
    eexists. split; [reflexivity |].
    split; [eapply same_registry_trans; [exact Hreg | exact Hreg'] |].
    split; [rewrite Hacc', Hacc; reflexivity |].
    rewrite Hinv', Hinv. destruct Hreg as (_ & -> & _).
    rewrite <- app_assoc. reflexivity.
Qed.

Lemma completes_delivers : forall name hook,
  completes name hook = true ->
  delivers name hook = Normal (mkObs (results_of name hook) Completes).
Proof.
  intros name hook. unfold completes, results_of.
  destruct (delivers name hook) as [[values fin] | thrown]; simpl; [| discriminate].
  destruct fin; simpl; try discriminate. reflexivity.
Qed.

Lemma run_test_run : forall test w,
  once "afterEach" (afterEachFn w) = true ->
  test_completes test = true ->
  exists timed w',
    Fsntest.run_test now test w = (Normal (mkObs timed Completes), w')
    /\ List.map result timed = test_results test
    /\ same_registry w w'
    /\ acc w' = acc w
    /\ invoked w' = (invoked w ++ test_calls (afterEachFn w) test)%list.
Proof.
  intros [name testFn] w Honce Hdone.
  unfold test_completes in Hdone. simpl in Hdone.
  apply completes_delivers in Hdone.
  unfold Fsntest.run_test, bind, Fsntest.new_Date.
  rewrite executeJustCallback_run, Hdone. unfold Rx.concatMap. simpl emitted.
  simpl ending.
  match goal with
  | |- context [Rx.concatMap_from ?p ?rs Completes ?w1] =>
      destruct (@inner_results name (now (dates w)) rs w1 Honce)
        as (timed & w' & Hrun & Hmap & Hreg & Hacc & Hinv)
  end.
  rewrite Hrun. exists timed, w'. unfold ret.
  split; [reflexivity |]. split; [exact Hmap |].
  split; [exact Hreg |]. split; [exact Hacc |].
  rewrite Hinv. unfold test_calls, test_results. simpl.
  rewrite <- app_assoc. reflexivity.
Qed.

Lemma timed_run : forall entries w,
  once "afterEach" (afterEachFn w) = true ->
  forallb test_completes entries = true ->
  exists timed w',
    Rx.concatMap_from (Fsntest.run_test now) entries Completes w
    = (mkObs timed Completes, w')
    /\ List.map result timed = flat_map test_results entries
    /\ same_registry w w'
    /\ acc w' = acc w
    /\ invoked w' = (invoked w ++ flat_map (test_calls (afterEachFn w)) entries)%list.
Proof.
  induction entries as [| test rest IH]; intros w Honce Hall.
  - exists [], w. simpl. repeat split. now rewrite app_nil_r.
  - simpl in Hall. apply andb_true_iff in Hall. destruct Hall as [Htest Hrest].
    destruct (@run_test_run test w Honce Htest)
      as (timed1 & w1 & Hstep & Hmap1 & Hreg1 & Hacc1 & Hinv1).
    assert (Honce1 : once "afterEach" (afterEachFn w1) = true).
    { destruct Hreg1 as (_ & _ & _ & -> & _). exact Honce. }
    destruct (IH w1 Honce1 Hrest) as (timed & w' & Hrun & Hmap & Hreg & Hacc & Hinv).
    rewrite concatMap_from_cons, Hstep. simpl. rewrite Hrun. simpl.
    eexists; eexists. split; [reflexivity |].
    split; [rewrite List.map_app, Hmap1, Hmap; reflexivity |].
    split; [eapply same_registry_trans; [exact Hreg1 | exact Hreg] |].
    split; [rewrite Hacc, Hacc1; reflexivity |].
    rewrite Hinv, Hinv1. destruct Hreg1 as (_ & _ & _ & -> & _).
    rewrite <- app_assoc. reflexivity.
Qed.

Lemma scan_push_run : forall timed w,
  exists states w',
    Rx.scan_push_from timed w = (states, w')
    /\ Rx.final states
       = match timed with [] => None | _ => Some (acc w ++ timed)%list end
    /\ same_registry w w'
    /\ acc w' = (acc w ++ timed)%list
    /\ invoked w' = invoked w.
Proof.
  induction timed as [| r rest IH]; intros w.
  - exists [], w. simpl. repeat split. now rewrite app_nil_r.
  - simpl. unfold bind. unfold Rx.push at 1.
    match goal with
    | |- context [Rx.scan_push_from rest ?w1] =>
        destruct (IH w1) as (states & w' & Hrun & Hfinal & Hreg & Hacc & Hinv)
    end.
    rewrite Hrun. unfold ret. eexists; eexists. split; [reflexivity |].
    simpl in Hfinal, Hreg, Hacc, Hinv.
    split.
    + simpl. destruct states as [| s more].
      * destruct rest; [reflexivity | discriminate].
      * rewrite Hfinal. destruct rest; [discriminate |].
        now rewrite <- app_assoc.
    + split; [exact Hreg |]. split; [| exact Hinv].
      rewrite Hacc, <- app_assoc. reflexivity.
Qed.

Lemma executeTests_run : forall entries w,
  once "beforeEach" (beforeEachFn w) = true ->
  once "afterEach" (afterEachFn w) = true ->
  forallb test_completes entries = true ->
  acc w = [] ->
  exists timed w',
    Fsntest.executeTests now entries w = (last_of timed, w')
    /\ List.map result timed = flat_map test_results entries
    /\ same_registry w w'
    /\ invoked w'
       = (invoked w ++ tests_calls (beforeEachFn w) (afterEachFn w) entries)%list.
Proof.
  intros entries w Hbefore Hafter Hall Hseed.
  unfold Fsntest.executeTests, bind, Rx.concatMap. simpl emitted. simpl ending.
  destruct (@readied_run _ entries w Hbefore) as (w1 & Hrun1 & Hreg1 & Hacc1 & Hinv1).
  rewrite Hrun1. simpl emitted. simpl ending.
  assert (Hafter1 : once "afterEach" (afterEachFn w1) = true).
  { destruct Hreg1 as (_ & _ & _ & -> & _). exact Hafter. }
  destruct (@timed_run entries w1 Hafter1 Hall)
    as (timed & w2 & Hrun2 & Hmap & Hreg2 & Hacc2 & Hinv2).
  rewrite Hrun2. unfold Rx.scan_push, bind. simpl emitted.
  destruct (scan_push_run timed w2) as (states & w3 & Hrun3 & Hfinal & Hreg3 & Hacc3 & Hinv3).
  rewrite Hrun3. unfold ret. simpl ending.
  exists timed, w3. split.
  - unfold Rx.last. simpl. rewrite Hfinal, Hacc2, Hacc1, Hseed.
    destruct timed; reflexivity.
  - split; [exact Hmap |].
    split; [eapply same_registry_trans; [exact Hreg1 |];
            eapply same_registry_trans; [exact Hreg2 | exact Hreg3] |].
    rewrite Hinv3, Hinv2, Hinv1. unfold tests_calls.
    destruct Hreg1 as (_ & _ & _ & -> & _). rewrite <- app_assoc. reflexivity.
Qed.

Lemma declare_frame : forall d w,
  acc (snd (Fsntest.declare d w)) = acc w
  /\ invoked (snd (Fsntest.declare d w)) = invoked w
  /\ dates (snd (Fsntest.declare d w)) = dates w
  /\ printed (snd (Fsntest.declare d w)) = printed w.
Proof. intros [] w; repeat split. Qed.

Lemma declare_registry : forall d w1 w2,
  same_registry w1 w2 ->
  same_registry (snd (Fsntest.declare d w1)) (snd (Fsntest.declare d w2)).
Proof.
  intros d w1 w2 (Ha & Hb & Hc & Hd & He).
  destruct d; unfold same_registry; simpl; rewrite ?Ha, ?Hb, ?Hc, ?Hd, ?He;
    repeat split.
Qed.

Lemma registered_cons : forall d rest w,
  registered (d :: rest) w = registered rest (snd (Fsntest.declare d w)).
Proof.
  intros. unfold registered. simpl. unfold bind.
  destruct (Fsntest.declare d w). reflexivity.
Qed.

Lemma registered_frame : forall testDef w,
  acc (registered testDef w) = acc w
  /\ invoked (registered testDef w) = invoked w
  /\ dates (registered testDef w) = dates w
  /\ printed (registered testDef w) = printed w.
Proof.
  induction testDef as [| d rest IH]; intros w.
  - repeat split.
  - rewrite registered_cons.
    destruct (IH (snd (Fsntest.declare d w))) as (a & b & c & e).
    destruct (declare_frame d w) as (a' & b' & c' & e').
    repeat split; congruence.
Qed.

Lemma registered_registry : forall testDef w1 w2,
  same_registry w1 w2 ->
  same_registry (registered testDef w1) (registered testDef w2).
Proof.
  induction testDef as [| d rest IH]; intros w1 w2 Hreg.
  - exact Hreg.
  - rewrite !registered_cons. apply IH. now apply declare_registry.
Qed.

Lemma describe_run : forall suiteName testDef w,
  let r := registered testDef w in
  once "beforeAll" (beforeAllFn r) = true ->
  once "beforeEach" (beforeEachFn r) = true ->
  once "afterEach" (afterEachFn r) = true ->
  once "afterAll" (afterAllFn r) = true ->
  forallb test_completes (entries_of testDef w) = true ->
  exists timed w',
    Fsntest.describe now suiteName testDef w = (Normal (last_of timed), w')
    /\ List.map result timed = flat_map test_results (entries_of testDef w)
    /\ same_registry r w'
    /\ invoked w' = (invoked w ++ suite_calls r (entries_of testDef w) timed)%list.
Proof.
  intros suiteName testDef w r HbAll HbEach HaEach HaAll Hall.
  unfold Fsntest.describe.
  unfold bind at 1. unfold print at 1.
  set (wp := mkWorld _ _ _ _ _ _ _ _ _).
  assert (Hwp : same_registry w wp) by (repeat split).
  unfold bind at 1. change (Fsntest.call_testDef testDef wp)
    with (fst (Fsntest.call_testDef testDef wp), snd (Fsntest.call_testDef testDef wp))
    || rewrite (surjective_pairing (Fsntest.call_testDef testDef wp)).
  fold (registered testDef wp). set (wr := registered testDef wp).
  assert (Hwr : same_registry r wr) by (apply registered_registry; exact Hwp).
  destruct (registered_frame testDef wp) as (Hacc_r & Hinv_r & _ & _).
  fold wr in Hacc_r, Hinv_r.
  assert (Hentries : Fsntest.Object_entries (tests wr) = entries_of testDef w).
  { unfold entries_of. fold r. destruct Hwr as (_ & _ & _ & _ & ->). reflexivity. }
  unfold bind at 1. unfold gets at 1. rewrite Hentries.
  unfold bind at 1. unfold Fsntest.new_seed, modify.
  set (ws := mkWorld _ _ _ _ _ [] _ _ _).
  assert (Hws : same_registry wr ws) by (repeat split).
  assert (Hr_ws : same_registry r ws) by (eapply same_registry_trans; eassumption).
  unfold bind at 1. unfold gets at 1.
  unfold bind at 1. rewrite executeJustCallback_run.
  change (beforeAllFn ws) with (beforeAllFn wr).
  assert (HB : beforeAllFn wr = beforeAllFn r) by (destruct Hwr as (-> & _); reflexivity).
  rewrite HB. destruct (@once_delivers _ _ HbAll) as [rB HrB]. rewrite HrB.
  destruct (called_frame (beforeAllFn r) ws) as (Hreg_b & Hacc_b & _ & _ & Hinv_b).
  set (wb := called (beforeAllFn r) ws) in *.
  assert (Hr_wb : same_registry r wb) by (eapply same_registry_trans; eassumption).
  unfold bind at 1. unfold Rx.concatMap at 1. simpl emitted. simpl ending.
  rewrite concatMap_from_cons. unfold Fsntest.then_tests at 1. unfold bind at 1.
  destruct Hr_wb as (HwbA & HwbB & HwbC & HwbD & HwbE).
  destruct (@executeTests_run (entries_of testDef w) wb)
    as (timed & wt & Hrun & Hmap & Hreg_t & Hinv_t).
  { rewrite HwbB. exact HbEach. }
  { rewrite HwbD. exact HaEach. }
  { exact Hall. }
  { rewrite Hacc_b. reflexivity. }
  rewrite Hrun. unfold ret at 1.
  assert (Hr_wt : same_registry r wt).
  { eapply same_registry_trans; [| exact Hreg_t]. repeat split; assumption. }
  exists timed.
  destruct timed as [| t timed'].
  - simpl. unfold bind, ret. simpl.
    eexists. split; [reflexivity |]. split; [exact Hmap |].
    split; [exact Hr_wt |].
    rewrite Hinv_t, Hinv_b. simpl. rewrite Hinv_r. unfold suite_calls. simpl.
    rewrite HwbB, HwbD, app_nil_r, <- app_assoc. reflexivity.
  - simpl last_of. simpl ending. cbv iota. simpl Rx.concatMap_from. unfold bind at 1.
    unfold ret at 1. simpl emitted. simpl ending.
    unfold bind at 1. unfold Rx.concatMap at 1. simpl emitted. simpl ending.
    rewrite concatMap_from_cons. unfold Fsntest.with_afterAll at 1.
    unfold bind at 1. unfold gets at 1. unfold bind at 1.
    rewrite executeJustCallback_run.
    assert (HA : afterAllFn wt = afterAllFn r) by (destruct Hr_wt as (_ & _ & -> & _); reflexivity).
    rewrite HA. destruct (@once_delivers _ _ HaAll) as [rA HrA]. rewrite HrA.
    unfold ret at 1. simpl on_normal. simpl ending. cbv iota.
    simpl Rx.concatMap_from. unfold ret at 1. simpl emitted.
    destruct (called_frame (afterAllFn r) wt) as (Hreg_a & _ & _ & _ & Hinv_a).
    set (wa := called (afterAllFn r) wt) in *.
    unfold Rx.map. simpl.
    unfold bind, Fsntest.show_summary, bind, print, ret. simpl.
    eexists. split; [reflexivity |]. split; [exact Hmap |].
    split.
    + eapply same_registry_trans; [exact Hr_wt |].
      eapply same_registry_trans; [exact Hreg_a |]. repeat split.
    + simpl. rewrite Hinv_a, Hinv_t, Hinv_b. simpl. rewrite Hinv_r.
      unfold suite_calls. rewrite HwbB, HwbD, <- !app_assoc. reflexivity.
Qed.

Lemma assign_fresh : forall (A : Type) key (fn : A) props,
  ~ In key (List.map fst props) ->
  Fsntest.assign key fn props = (props ++ [(key, fn)])%list.
Proof.
  intros A key fn props. induction props as [| [k old] rest IH]; intros Hfresh.
  - reflexivity.
  - simpl in *. destruct (String.eqb_spec k key) as [-> | Hne].
    + exfalso. apply Hfresh. now left.
    + rewrite IH; [reflexivity |]. intros Hin. apply Hfresh. now right.
Qed.

Lemma tests_registered : forall testDef w,
  NoDup (List.map fst (tests w) ++ List.map fst (declared_tests testDef)) ->
  forallb plain_name (List.map fst (declared_tests testDef)) = true ->
  tests (registered testDef w) = (tests w ++ declared_tests testDef)%list.
Proof.
  induction testDef as [| d rest IH]; intros w Hnodup Hplain.
  - simpl. now rewrite app_nil_r.
  - rewrite registered_cons.
    destruct d as [key fn | fn | fn | fn | fn].
    2-5: (match goal with
          | |- tests (registered _ ?w1) = _ => rewrite (IH w1 Hnodup Hplain)
          end; reflexivity).
    simpl in Hnodup, Hplain. apply andb_true_iff in Hplain.
    destruct Hplain as [Hkey Hplain].
    unfold plain_name in Hkey. apply andb_true_iff in Hkey.
    destruct Hkey as [_ Hproto]. apply negb_true_iff in Hproto.
    assert (Hfresh : ~ In key (List.map fst (tests w))).
    { intros Hin. apply NoDup_remove_2 in Hnodup. apply Hnodup.
      apply in_or_app. now left. }
    assert (Htests : tests (snd (Fsntest.declare (Fsntest.It key fn) w))
                     = (tests w ++ [(key, fn)])%list).
    { simpl. unfold Fsntest.set_property. rewrite Hproto.
      now apply assign_fresh. }
    rewrite IH.
    + rewrite Htests, <- app_assoc. reflexivity.
    + rewrite Htests, List.map_app, <- app_assoc. exact Hnodup.
    + exact Hplain.
Qed.

Lemma Object_entries_plain : forall (A : Type) (props : list (string * A)),
  forallb plain_name (List.map fst props) = true ->
  Fsntest.Object_entries props = props.
Proof.
  intros A props Hplain. unfold Fsntest.Object_entries.
  assert (Hnone : forall e, In e props -> Fsntest.is_index (fst e) = false).
  { intros e Hin. rewrite forallb_forall in Hplain.
    specialize (Hplain (fst e) (in_map fst props e Hin)).
    unfold plain_name in Hplain. apply andb_true_iff in Hplain.
    destruct Hplain as [Hidx _]. now apply negb_true_iff in Hidx. }
  induction props as [| e rest IH]; [reflexivity |].
  simpl. rewrite (Hnone e (or_introl eq_refl)). simpl.
  simpl in Hplain. apply andb_true_iff in Hplain. destruct Hplain as [_ Hrest].
  assert (IH' := IH Hrest (fun e' Hin => Hnone e' (or_intror Hin))).
  assert (Hfilter : filter (fun e0 : string * A => Fsntest.is_index (fst e0)) rest = []).
  { clear - Hnone. induction rest as [| e' rest' IHr]; [reflexivity |].
    simpl. rewrite (Hnone e' (or_intror (or_introl eq_refl))).
    apply IHr. intros e0 [<- | Hin]; apply Hnone; [now left | right; now right]. }
  rewrite Hfilter in *. simpl in *. now rewrite IH'.
Qed.

Lemma one_result_each : forall entries timed,
  forallb test_once entries = true ->
  List.map result timed = flat_map test_results entries ->
  Forall2 (fun t test => test_results test = [result t]) timed entries.
Proof.
  induction entries as [| test rest IH]; intros timed Hall Hmap.
  - destruct timed; [constructor | discriminate].
  - simpl in Hall, Hmap. apply andb_true_iff in Hall. destruct Hall as [Hone Hrest].
    unfold test_once, once in Hone. apply andb_true_iff in Hone.
    destruct Hone as [_ Hlen]. apply Nat.eqb_eq in Hlen.
    fold (test_results test) in Hlen.
    destruct (test_results test) as [| e [| e' more]] eqn:Hres; try discriminate.
    destruct timed as [| t timed']; [discriminate |].
    simpl in Hmap. injection Hmap as Ht Hmap'.
    constructor; [now rewrite Ht | now apply IH].
Qed.

Lemma entries_declared : forall testDef w,
  tests w = [] ->
  NoDup (List.map fst (declared_tests testDef)) ->
  forallb plain_name (List.map fst (declared_tests testDef)) = true ->
  entries_of testDef w = declared_tests testDef.
Proof.
  intros testDef w Hnone Hnodup Hplain. unfold entries_of.
  rewrite tests_registered.
  - rewrite Hnone. simpl. now apply Object_entries_plain.
  - rewrite Hnone. exact Hnodup.
  - exact Hplain.
Qed.


(** A suite that goes to its end.  In a process that registered no test
    before, take a suite that declares its tests under names that are
    pairwise distinct, none an array index and none [__proto__]; let
    every hook yield exactly one result, let the results of every test
    complete, and let the entries be read as they are delivered.  Then
    the results of the tests, test after test in the order the tests were
    declared, one entry for each result, are what [last()] is given: the
    subscriber receives them as the one summary, or, when the tests
    deliver no result at all, the run ends with [EmptyError] and there is
    no summary.  When every test yields exactly one result there is one
    entry per test: as many entries as tests, the i-th being the result
    of the i-th test. *)
Theorem summary_has_one_entry_per_result : forall suiteName testDef w,
  tests w = [] ->
  NoDup (List.map fst (declared_tests testDef)) ->
  forallb plain_name (List.map fst (declared_tests testDef)) = true ->
  once "beforeAll" (beforeAllFn (registered testDef w)) = true ->
  once "beforeEach" (beforeEachFn (registered testDef w)) = true ->
  once "afterEach" (afterEachFn (registered testDef w)) = true ->
  once "afterAll" (afterAllFn (registered testDef w)) = true ->
  forallb test_completes (declared_tests testDef) = true ->
  read_as_delivered (afterEachFn (registered testDef w)) (declared_tests testDef) = true ->
  exists summary,
    fst (Fsntest.describe now suiteName testDef w) = Normal (last_of summary)
    /\ List.map result summary = flat_map test_results (declared_tests testDef)
    /\ (forallb test_once (declared_tests testDef) = true ->
        List.length summary = List.length (declared_tests testDef)
        /\ Forall2 (fun t test => test_results test = [result t])
                   summary (declared_tests testDef)).
Proof.
  intros suiteName testDef w Hnone Hnodup Hplain HbAll HbEach HaEach HaAll Hall _.
  assert (Hentries := entries_declared testDef w Hnone Hnodup Hplain).
  destruct (@describe_run suiteName testDef w HbAll HbEach HaEach HaAll)
    as (timed & w' & Hrun & Hmap & _ & _).
  { rewrite Hentries. exact Hall. }
  rewrite Hentries in Hmap.
  exists timed. rewrite Hrun. simpl. split; [reflexivity |]. split; [exact Hmap |].
  intros Honce. assert (Hpairs := one_result_each _ _ Honce Hmap).
  split; [eapply Forall2_length; exact Hpairs | exact Hpairs].
Qed.

(** A suite without tests: [last()] raises [EmptyError], no summary is
    delivered, and [afterAll] is not called. *)
Theorem empty_suite_ends_with_EmptyError : forall suiteName testDef w,
  once "beforeAll" (beforeAllFn (registered testDef w)) = true ->
  once "beforeEach" (beforeEachFn (registered testDef w)) = true ->
  once "afterEach" (afterEachFn (registered testDef w)) = true ->
  once "afterAll" (afterAllFn (registered testDef w)) = true ->
  entries_of testDef w = [] ->
  fst (Fsntest.describe now suiteName testDef w)
  = Normal (mkObs [] (Errors Rx.EmptyError))
  /\ invoked (snd (Fsntest.describe now suiteName testDef w))
     = (invoked w ++ hook_calls (beforeAllFn (registered testDef w)))%list.
Proof.
  intros suiteName testDef w HbAll HbEach HaEach HaAll Hnone.
  destruct (@describe_run suiteName testDef w HbAll HbEach HaEach HaAll)
    as (timed & w' & Hrun & Hmap & _ & Hinv).
  { rewrite Hnone. reflexivity. }
  rewrite Hnone in Hmap, Hinv. simpl in Hmap.
  destruct timed as [| t rest]; [| discriminate].
  rewrite Hrun. simpl. split; [reflexivity |].
  rewrite Hinv. unfold suite_calls, tests_calls. simpl.
  now rewrite app_nil_r.
Qed.

End Runner.

(* ===================================================================== *)
(** ** Laws of the matchers *)
(* ===================================================================== *)

Section Matcher_laws.

Context {chalk : Chalk} {truthy : Truthy} {diff : Diff}.

Lemma strict_eq_same : forall v, strict_eq v v = negb (is_NaN v).
Proof.
  intros v. destruct v; simpl; try reflexivity.
  - now destruct b.
  - unfold is_nan. now rewrite negb_involutive.
  - apply Z.eqb_refl.
  - apply String.eqb_refl.
  - apply Nat.eqb_refl.
  - apply Nat.eqb_refl.
  - apply Nat.eqb_refl.
  - apply Nat.eqb_refl.
  - apply Nat.eqb_refl.
Qed.

Lemma toEqual_cases : forall expected received,
  (strict_eq expected received = true
   /\ Expect.expect_toEqual expected received = Normal true)
  \/ (strict_eq expected received = false
      /\ exists e, Expect.expect_toEqual expected received = Throw e).
Proof.
  intros expected received. unfold Expect.expect_toEqual.
  destruct (strict_eq expected received); [left; now split | right].
  split; [reflexivity |].
  destruct (String.eqb (typeof expected) "string").
  - destruct expected; try (eexists; reflexivity).
    destruct (diffChars s received); eexists; reflexivity.
  - eexists; reflexivity.
Qed.

Lemma toNotEqual_cases : forall expected received,
  (strict_eq expected received = false
   /\ Expect.expect_toNotEqual expected received = Normal true)
  \/ (strict_eq expected received = true
      /\ exists e, Expect.expect_toNotEqual expected received = Throw e).
Proof.
  intros expected received. unfold Expect.expect_toNotEqual.
  destruct (strict_eq expected received); [right | left; now split].
  split; [reflexivity | eexists; reflexivity].
Qed.

(** No matcher ever returns [false]: each of the five returns [true] or
    throws, whatever the expected and the received value. *)
Theorem matchers_return_true_or_throw : forall expected received : JsVal,
  true_or_throws (Expect.isTruthy (Expect.expect expected))
  /\ true_or_throws (Expect.isFalsy (Expect.expect expected))
  /\ true_or_throws (Expect.toEqual (Expect.expect expected) received)
  /\ true_or_throws (Expect.toNotEqual (Expect.expect expected) received)
  /\ true_or_throws (Expect.toThrow (Expect.expect expected)).
Proof.
  intros expected received. unfold true_or_throws. simpl.
  split; [| split; [| split; [| split]]].
  - unfold Expect.expect_isTruthy. destruct (isTruthy expected);
      [now left | right; eexists; reflexivity].
  - unfold Expect.expect_isFalsy. destruct (isFalsy expected);
      [now left | right; eexists; reflexivity].
  - destruct (toEqual_cases expected received) as [[_ H] | [_ H]]; [now left | now right].
  - destruct (toNotEqual_cases expected received) as [[_ H] | [_ H]]; [now left | now right].
  - unfold Expect.expect_toThrow.
    destruct (negb (String.eqb (typeof expected) "function"));
      [right; eexists; reflexivity |].
    left. unfold Expect.try_catch, Expect.and_then.
    destruct (Expect.call expected); reflexivity.
Qed.

(** [toEqual] and [toNotEqual] are complementary: on every pair of
    values exactly one of them returns [true], and the other throws. *)
Theorem toEqual_and_toNotEqual_are_complementary : forall expected received : JsVal,
  (Expect.toEqual (Expect.expect expected) received = Normal true
   /\ exists e, Expect.toNotEqual (Expect.expect expected) received = Throw e)
  \/ (Expect.toNotEqual (Expect.expect expected) received = Normal true
      /\ exists e, Expect.toEqual (Expect.expect expected) received = Throw e).
Proof.
  intros expected received. simpl.
  destruct (toEqual_cases expected received) as [[Heq H] | [Heq H]];
    destruct (toNotEqual_cases expected received) as [[Hne H'] | [Hne H']];
    try congruence.
  - left. now split.
  - right. now split.
Qed.

(** A value equals itself, with one exception: [expect(v).toEqual(v)]
    returns [true] for every value but [NaN], and
    [expect(v).toNotEqual(v)] returns [true] for [NaN] alone. *)
Theorem a_value_equals_itself_unless_NaN : forall v : JsVal,
  (Expect.toEqual (Expect.expect v) v = Normal true <-> is_NaN v = false)
  /\ (Expect.toNotEqual (Expect.expect v) v = Normal true <-> is_NaN v = true).
Proof.
  intros v. simpl.
  assert (Hsame := strict_eq_same v).
  destruct (toEqual_cases v v) as [[Heq H] | [Heq [e H]]];
    destruct (toNotEqual_cases v v) as [[Hne H'] | [Hne [e' H']]];
    try congruence; rewrite H, H'; rewrite Hsame in *.
  - apply negb_true_iff in Heq. rewrite Heq.
    split; split; try reflexivity; discriminate.
  - apply negb_false_iff in Heq. rewrite Heq.
    split; split; try reflexivity; discriminate.
Qed.

End Matcher_laws.

(* ===================================================================== *)
(** ** The registry of tests and hooks *)
(* ===================================================================== *)

Section Registry.

Lemma test_named_assign : forall key key' (fn : JustCallback) props,
  test_named key' (Fsntest.assign key fn props)
  = if String.eqb key key' then Some fn else test_named key' props.
Proof.
  intros key key' fn props. induction props as [| [k old] rest IH]; simpl.
  - reflexivity.
  - destruct (String.eqb_spec k key) as [-> | Hne]; simpl.
    + destruct (String.eqb key key'); reflexivity.
    + rewrite IH. destruct (String.eqb_spec key key') as [<- | Hne'].
      * apply String.eqb_neq in Hne. now rewrite Hne.
      * reflexivity.
Qed.

Lemma test_named_registered : forall testDef w key,
  test_named key (tests (registered testDef w))
  = or_else (if String.eqb key "__proto__" then None else last_declared key testDef)
            (test_named key (tests w)).
Proof.
  induction testDef as [| d rest IH]; intros w key.
  - simpl. now destruct (String.eqb key "__proto__").
  - rewrite registered_cons, IH.
    destruct d as [k fn | fn | fn | fn | fn]; try reflexivity.
    simpl. unfold Fsntest.set_property.
    destruct (String.eqb_spec key "__proto__") as [-> | Hkey]; simpl.
    + destruct (String.eqb_spec k "__proto__") as [-> | Hk]; [reflexivity |].
      rewrite test_named_assign. apply String.eqb_neq in Hk. now rewrite Hk.
    + destruct (last_declared key rest) as [g |]; simpl; [reflexivity |].
      destruct (String.eqb_spec k "__proto__") as [-> | Hk].
      * assert (H : String.eqb "__proto__" key = false).
        { apply String.eqb_neq. congruence. }
        now rewrite H.
      * rewrite test_named_assign. now destruct (String.eqb k key).
Qed.

(** A hook variable holds the function of the last registration of the
    hook in the suite body; a hook the body does not register stays what
    it was before, be it from an earlier suite. *)
Theorem the_last_registration_of_a_hook_wins : forall testDef w h,
  hook_fn h (registered testDef w) = or_else (last_hook h testDef) (hook_fn h w).
Proof.
  induction testDef as [| d rest IH]; intros w h.
  - reflexivity.
  - rewrite registered_cons, IH. simpl.
    destruct (last_hook h rest) as [g |]; simpl; [reflexivity |].
    destruct d, h; reflexivity.
Qed.

Lemma insert_by_index_perm : forall (A : Type) (e : string * A) sorted,
  Permutation (Fsntest.insert_by_index e sorted) (e :: sorted).
Proof.
  intros A e sorted. induction sorted as [| e' rest IH]; simpl.
  - reflexivity.
  - destruct (_ <=? _)%Z; [reflexivity |].
    rewrite IH. apply perm_swap.
Qed.

Lemma sort_by_index_perm : forall (A : Type) (entries : list (string * A)),
  Permutation (Fsntest.sort_by_index entries) entries.
Proof.
  intros A entries. induction entries as [| e rest IH]; simpl.
  - reflexivity.
  - rewrite insert_by_index_perm. now constructor.
Qed.

Lemma insert_by_index_sorted : forall (A : Type) (e : string * A) sorted,
  Sorted by_index sorted -> Sorted by_index (Fsntest.insert_by_index e sorted).
Proof.
  intros A e sorted Hs. induction Hs as [| e' rest Hrest IH Hhd]; simpl.
  - repeat constructor.
  - destruct (Z.leb_spec (Fsntest.index_of (fst e)) (Fsntest.index_of (fst e')))
      as [Hle | Hgt].
    + constructor; [now constructor | constructor; exact Hle].
    + constructor; [exact IH |].
      destruct rest as [| e'' rest']; simpl.
      * constructor. unfold by_index. lia.
      * destruct (Z.leb_spec (Fsntest.index_of (fst e)) (Fsntest.index_of (fst e''))).
        -- constructor. unfold by_index. lia.
        -- constructor. now inversion Hhd.
Qed.

Lemma sort_by_index_sorted : forall (A : Type) (entries : list (string * A)),
  Sorted by_index (Fsntest.sort_by_index entries).
Proof.
  intros A entries. induction entries as [| e rest IH]; simpl.
  - constructor.
  - now apply insert_by_index_sorted.
Qed.

Lemma keys_assign : forall key (fn : JustCallback) props,
  List.map fst (Fsntest.assign key fn props) = note (List.map fst props) key.
Proof.
  intros key fn props. unfold note, seen.
  induction props as [| [k old] rest IH]; simpl.
  - reflexivity.
  - rewrite (String.eqb_sym key k).
    destruct (String.eqb k key); simpl; [reflexivity |].
    rewrite IH. destruct (existsb (String.eqb key) (List.map fst rest)); reflexivity.
Qed.

Lemma declared_tests_app : forall first second,
  declared_tests (first ++ second) = (declared_tests first ++ declared_tests second)%list.
Proof.
  induction first as [| d rest IH]; intros second; [reflexivity |].
  destruct d; simpl; now rewrite IH.
Qed.

Lemma declares_proto_app : forall first second,
  declares_proto (first ++ second) = declares_proto first || declares_proto second.
Proof.
  intros first second. unfold declares_proto.
  now rewrite declared_tests_app, existsb_app.
Qed.

Lemma keys_registered : forall testDef w,
  declares_proto testDef = false ->
  List.map fst (tests (registered testDef w))
  = fold_left note (List.map fst (declared_tests testDef)) (List.map fst (tests w)).
Proof.
  induction testDef as [| d rest IH]; intros w Hproto.
  - reflexivity.
  - rewrite registered_cons.
    destruct d as [k fn | fn | fn | fn | fn];
      try (rewrite IH by exact Hproto; reflexivity).
    unfold declares_proto in Hproto. simpl in Hproto.
    apply orb_false_iff in Hproto. destruct Hproto as [Hk Hrest].
    rewrite IH by exact Hrest. simpl. unfold Fsntest.set_property. rewrite Hk.
    now rewrite keys_assign.
Qed.

Lemma keys_reached : forall history testDef w,
  reached_by history w ->
  declares_proto (history ++ testDef) = false ->
  List.map fst (tests (registered testDef w))
  = first_occurrences (List.map fst (declared_tests (history ++ testDef))).
Proof.
  intros history testDef w Hreach Hproto.
  rewrite declares_proto_app in Hproto. apply orb_false_iff in Hproto.
  destruct Hproto as [Hh Ht].
  rewrite (keys_registered testDef w Ht).
  destruct Hreach as (_ & _ & _ & _ & ->).
  rewrite (keys_registered history initial Hh).
  unfold first_occurrences. rewrite declared_tests_app, List.map_app, fold_left_app.
  reflexivity.
Qed.

Lemma sorted_names : forall (A : Type) (l : list (string * A)),
  Sorted by_index l -> Sorted index_order (List.map fst l).
Proof.
  intros A l Hs. induction Hs as [| e rest Hrest IH Hhd]; simpl.
  - constructor.
  - constructor; [exact IH |]. destruct Hhd; simpl; constructor. assumption.
Qed.

Lemma filter_names : forall (A : Type) (p : string -> bool) (l : list (string * A)),
  List.map fst (filter (fun e => p (fst e)) l) = filter p (List.map fst l).
Proof.
  intros A p l. induction l as [| e rest IH]; simpl; [reflexivity |].
  destruct (p (fst e)); simpl; now rewrite IH.
Qed.

Lemma digit_range : forall c, Fsntest.is_digit c = true -> (0 <= digit c <= 9)%Z.
Proof.
  intros c H. unfold Fsntest.is_digit in H. apply andb_true_iff in H.
  destruct H as [H1 H2]. apply Nat.leb_le in H1, H2. unfold digit. lia.
Qed.

Lemma digit_injective : forall c c',
  Fsntest.is_digit c = true -> Fsntest.is_digit c' = true -> digit c = digit c' -> c = c'.
Proof.
  intros c c' H H' Heq. unfold Fsntest.is_digit in H, H'.
  apply andb_true_iff in H, H'. destruct H as [H1 _], H' as [H1' _].
  apply Nat.leb_le in H1, H1'. unfold digit in Heq.
  rewrite <- (ascii_nat_embedding c), <- (ascii_nat_embedding c'). f_equal. lia.
Qed.

Lemma digits_value_from : forall s sofar,
  Fsntest.digits_value s sofar
  = (sofar * 10 ^ Z.of_nat (String.length s) + Fsntest.digits_value s 0)%Z.
Proof.
  induction s as [| c rest IH]; intros sofar.
  - simpl. lia.
  - cbn [Fsntest.digits_value String.length]. rewrite IH, (IH (10 * 0 + _)%Z).
    rewrite Nat2Z.inj_succ, Z.pow_succ_r by lia. lia.
Qed.

Lemma digits_value_cons : forall c rest,
  Fsntest.digits_value (String c rest) 0
  = (digit c * 10 ^ Z.of_nat (String.length rest) + Fsntest.digits_value rest 0)%Z.
Proof.
  intros c rest. cbn [Fsntest.digits_value]. rewrite digits_value_from.
  unfold digit. rewrite Z.mul_0_r, Z.add_0_l. reflexivity.
Qed.

Lemma digits_value_bound : forall s,
  Fsntest.all_digits s = true ->
  (0 <= Fsntest.digits_value s 0 < 10 ^ Z.of_nat (String.length s))%Z.
Proof.
  induction s as [| c rest IH]; intros Hall.
  - simpl. lia.
  - cbn [Fsntest.all_digits] in Hall. apply andb_true_iff in Hall.
    destruct Hall as [Hc Hrest]. specialize (IH Hrest).
    apply digit_range in Hc. rewrite digits_value_cons.
    cbn [String.length]. rewrite Nat2Z.inj_succ, Z.pow_succ_r by lia. nia.
Qed.

Lemma digits_same_length : forall s s',
  Fsntest.all_digits s = true -> Fsntest.all_digits s' = true ->
  String.length s = String.length s' ->
  Fsntest.digits_value s 0 = Fsntest.digits_value s' 0 ->
  s = s'.
Proof.
  induction s as [| c rest IH]; intros [| c' rest'] Hs Hs' Hlen Hval;
    try discriminate; [reflexivity |].
  cbn [Fsntest.all_digits] in Hs, Hs'. apply andb_true_iff in Hs, Hs'.
  destruct Hs as [Hc Hrest], Hs' as [Hc' Hrest'].
  cbn [String.length] in Hlen. injection Hlen as Hlen.
  rewrite !digits_value_cons, <- Hlen in Hval.
  assert (Hb := digits_value_bound _ Hrest).
  assert (Hb' := digits_value_bound _ Hrest'). rewrite <- Hlen in Hb'.
  assert (Hr := digit_range _ Hc). assert (Hr' := digit_range _ Hc').
  assert (Hd : digit c = digit c') by nia.
  rewrite (digit_injective _ _ Hc Hc' Hd).
  f_equal. apply IH; try assumption. rewrite Hd in Hval. lia.
Qed.

Lemma leading_digit : forall c rest,
  Fsntest.all_digits (String c rest) = true ->
  Ascii.eqb c "0" = false ->
  (10 ^ Z.of_nat (String.length rest) <= Fsntest.digits_value (String c rest) 0)%Z.
Proof.
  intros c rest Hall Hc. cbn [Fsntest.all_digits] in Hall.
  apply andb_true_iff in Hall. destruct Hall as [Hd Hrest].
  assert (Hb := digits_value_bound _ Hrest). rewrite digits_value_cons.
  assert (H1 : (1 <= digit c)%Z).
  { assert (Hr := digit_range _ Hd).
    destruct (Z.eq_dec (digit c) 0) as [Hz |]; [| lia].
    exfalso. apply Ascii.eqb_neq in Hc. apply Hc.
    apply digit_injective; [exact Hd | reflexivity | exact Hz]. }
  nia.
Qed.

Lemma array_index_injective : forall key key' i,
  Fsntest.array_index key = Some i -> Fsntest.array_index key' = Some i -> key = key'.
Proof.
  intros key key' i Hk Hk'. unfold Fsntest.array_index in Hk, Hk'.
  destruct key as [| c rest]; [discriminate |].
  destruct key' as [| c' rest']; [discriminate |].
  destruct (Fsntest.all_digits (String c rest)) eqn:Hall; [| discriminate].
  destruct (Fsntest.all_digits (String c' rest')) eqn:Hall'; [| discriminate].
  cbn [andb] in Hk, Hk'.
  destruct (negb (Ascii.eqb c "0") || String.eqb rest "") eqn:Hcanon; [| discriminate].
  destruct (negb (Ascii.eqb c' "0") || String.eqb rest' "") eqn:Hcanon'; [| discriminate].
  cbn [andb] in Hk, Hk'.
  destruct (_ <=? _)%Z; [| discriminate]. destruct (_ <=? _)%Z; [| discriminate].
  injection Hk as Hk. injection Hk' as Hk'.
  assert (Hval : Fsntest.digits_value (String c rest) 0
                 = Fsntest.digits_value (String c' rest') 0).
  { cbn [Fsntest.digits_value]. rewrite !Z.mul_0_r, !Z.add_0_l. congruence. }
  apply digits_same_length; try assumption.
  assert (Hb := digits_value_bound _ Hall). assert (Hb' := digits_value_bound _ Hall').
  cbn [String.length] in *. rewrite !Nat2Z.inj_succ, !Z.pow_succ_r in * by lia.
  assert (Hlow : forall c rest,
            Fsntest.all_digits (String c rest) = true ->
            negb (Ascii.eqb c "0") || String.eqb rest "" = true ->
            (10 ^ Z.of_nat (String.length rest) <= Fsntest.digits_value (String c rest) 0
             \/ rest = "")%Z).
  { intros a r Ha Hc. apply orb_true_iff in Hc. destruct Hc as [Hc | Hc].
    - left. apply leading_digit; [exact Ha |]. now apply negb_true_iff in Hc.
    - right. now apply String.eqb_eq in Hc. }
  assert (Hmono : forall n m : nat, (10 ^ Z.of_nat n < 10 * 10 ^ Z.of_nat m)%Z -> n <= m).
  { intros n m Hlt. destruct (Nat.le_gt_cases n m) as [| Hgt]; [assumption |].
    exfalso. assert (10 ^ Z.of_nat (S m) <= 10 ^ Z.of_nat n)%Z
      by (apply Z.pow_le_mono_r; lia).
    rewrite Nat2Z.inj_succ, Z.pow_succ_r in H by lia. lia. }
  destruct (Hlow _ _ Hall Hcanon) as [Hl | ->], (Hlow _ _ Hall' Hcanon') as [Hl' | ->].
  - f_equal. apply Nat.le_antisymm; apply Hmono; lia.
  - f_equal. cbn [String.length] in *. 
    assert (String.length rest <= 0) by (apply Hmono; simpl; lia). lia.
  - f_equal. cbn [String.length] in *.
    assert (String.length rest' <= 0) by (apply Hmono; simpl; lia). lia.
  - reflexivity.
Qed.

Lemma index_names_differ : forall key key',
  Fsntest.is_index key = true -> Fsntest.is_index key' = true ->
  key <> key' -> Fsntest.index_of key <> Fsntest.index_of key'.
Proof.
  intros key key' Hk Hk' Hne Heq. apply Hne.
  unfold Fsntest.is_index, Fsntest.index_of in *.
  destruct (Fsntest.array_index key) as [i |] eqn:Hi; [| discriminate].
  destruct (Fsntest.array_index key') as [i' |] eqn:Hi'; [| discriminate].
  subst i'. exact (@array_index_injective _ _ _ Hi Hi').
Qed.

Lemma seen_In : forall key names, seen key names = true <-> In key names.
Proof.
  intros key names. unfold seen. rewrite existsb_exists. split.
  - intros (k & Hin & Heq). apply String.eqb_eq in Heq. now subst.
  - intros Hin. exists key. split; [exact Hin | apply String.eqb_refl].
Qed.

Lemma note_NoDup : forall sofar key, NoDup sofar -> NoDup (note sofar key).
Proof.
  intros sofar key Hnd. unfold note. destruct (seen key sofar) eqn:Hseen; [exact Hnd |].
  apply NoDup_app; [exact Hnd | repeat constructor; intros [] |].
  intros k Hin [<- | []]. apply seen_In in Hin. congruence.
Qed.

Lemma first_occurrences_NoDup : forall names, NoDup (first_occurrences names).
Proof.
  intros names. unfold first_occurrences.
  assert (H : forall sofar, NoDup sofar -> NoDup (fold_left note names sofar)).
  { induction names as [| key rest IH]; intros sofar Hnd; [exact Hnd |].
    simpl. apply IH. now apply note_NoDup. }
  apply H. constructor.
Qed.

Lemma strictly_sorted : forall names,
  Sorted index_order names -> NoDup names ->
  Forall (fun key => Fsntest.is_index key = true) names ->
  StronglySorted index_before names.
Proof.
  intros names Hsorted Hnd Hidx.
  apply Sorted_StronglySorted in Hsorted;
    [| intros x y z Hxy Hyz; unfold index_order in *; lia].
  induction Hsorted as [| key rest Hrest IH Hall]; [constructor |].
  inversion Hnd as [| ? ? Hnotin Hnd']; subst.
  inversion Hidx as [| ? ? Hkey Hidx']; subst.
  constructor; [now apply IH |].
  rewrite Forall_forall in *. intros key' Hin.
  assert (Hle := Hall key' Hin). unfold index_order in Hle. unfold index_before.
  assert (Hne : Fsntest.index_of key <> Fsntest.index_of key').
  { apply index_names_differ; [exact Hkey | now apply Hidx' |].
    intros ->. contradiction. }
  lia.
Qed.

(** The order in which a run takes the tests, from the calls of [it]: in
    a process that never registers a test under [__proto__], every name
    registered so far is taken once; the names that are array indices
    come first, by strictly ascending index, and the other names follow
    in the order of their first call of [it]. *)
Theorem tests_run_index_names_first : forall history testDef w,
  reached_by history w ->
  declares_proto (history ++ testDef) = false ->
  let names := first_occurrences (List.map fst (declared_tests (history ++ testDef))) in
  NoDup names
  /\ exists indexed,
       List.map fst (entries_of testDef w)
       = (indexed ++ filter (fun key => negb (Fsntest.is_index key)) names)%list
       /\ Permutation indexed (filter Fsntest.is_index names)
       /\ StronglySorted index_before indexed.
Proof.
  intros history testDef w Hreach Hproto names.
  assert (Hnd : NoDup names) by apply first_occurrences_NoDup.
  split; [exact Hnd |].
  assert (Hkeys := keys_reached testDef Hreach Hproto). fold names in Hkeys.
  unfold entries_of, Fsntest.Object_entries.
  set (props := tests (registered testDef w)) in *.
  set (indexed := List.map fst
                    (Fsntest.sort_by_index
                       (filter (fun e => Fsntest.is_index (fst e)) props))).
  assert (Hperm : Permutation indexed (filter Fsntest.is_index names)).
  { unfold indexed. rewrite <- Hkeys, <- (filter_names Fsntest.is_index props).
    apply Permutation_map. apply sort_by_index_perm. }
  exists indexed. rewrite List.map_app. fold indexed.
  rewrite (filter_names (fun key => negb (Fsntest.is_index key)) props), Hkeys.
  split; [reflexivity |]. split; [exact Hperm |].
  apply strictly_sorted.
  - apply sorted_names. apply sort_by_index_sorted.
  - apply (Permutation_NoDup (Permutation_sym Hperm)). now apply NoDup_filter.
  - apply Forall_forall. intros key Hin.
    apply (Permutation_in _ Hperm) in Hin. now apply filter_In in Hin.
Qed.

Lemma last_declared_proto : forall testDef,
  declares_proto testDef = false -> last_declared "__proto__" testDef = None.
Proof.
  induction testDef as [| d rest IH]; intros Hproto; [reflexivity |].
  destruct d as [k fn | fn | fn | fn | fn]; try (apply IH; exact Hproto).
  unfold declares_proto in Hproto. simpl in Hproto.
  apply orb_false_iff in Hproto. destruct Hproto as [Hk Hrest].
  simpl. rewrite (IH Hrest), Hk. reflexivity.
Qed.

(** In a process that never registers a test under [__proto__], the
    test under a name is the callback of the last call of [it] under
    that name, in the suite body or, when the body does not declare the
    name, in the bodies run before it. *)
Theorem registry_holds_the_last_declaration : forall history testDef w key,
  reached_by history w ->
  declares_proto (history ++ testDef) = false ->
  test_named key (tests (registered testDef w))
  = or_else (last_declared key testDef) (last_declared key history).
Proof.
  intros history testDef w key Hreach Hproto.
  rewrite declares_proto_app in Hproto. apply orb_false_iff in Hproto.
  destruct Hproto as [Hh Ht].
  rewrite test_named_registered.
  destruct Hreach as (_ & _ & _ & _ & ->). rewrite test_named_registered. simpl.
  destruct (String.eqb_spec key "__proto__") as [-> | Hkey].
  - rewrite (@last_declared_proto _ Ht), (@last_declared_proto _ Hh). reflexivity.
  - destruct (last_declared key history); reflexivity.
Qed.

Lemma tests_registered_fold : forall testDef w,
  tests (registered testDef w) = register_tests (declared_tests testDef) (tests w).
Proof.
  induction testDef as [| d rest IH]; intros w; [reflexivity |].
  rewrite registered_cons, IH. destruct d; reflexivity.
Qed.

Lemma assign_twice : forall key (first second : JustCallback) props,
  Fsntest.assign key second (Fsntest.assign key first props)
  = Fsntest.assign key second props.
Proof.
  intros key first second props. induction props as [| [k old] rest IH]; simpl.
  - now rewrite String.eqb_refl.
  - destruct (String.eqb k key) eqn:Hk; simpl; rewrite Hk; [reflexivity |].
    now rewrite IH.
Qed.

Lemma assign_commutes : forall key k (v x : JustCallback) props,
  seen key (List.map fst props) = true ->
  String.eqb k key = false ->
  Fsntest.assign key v (Fsntest.assign k x props)
  = Fsntest.assign k x (Fsntest.assign key v props).
Proof.
  intros key k v x props Hseen Hk. unfold seen in Hseen.
  induction props as [| [k0 old] rest IH]; simpl in *; [discriminate |].
  destruct (String.eqb_spec k0 k) as [-> | Hk0k].
  - simpl. rewrite Hk. simpl. rewrite String.eqb_refl. reflexivity.
  - destruct (String.eqb_spec k0 key) as [-> | Hk0key]; simpl.
    + rewrite String.eqb_refl. apply String.eqb_neq in Hk0k. now rewrite Hk0k.
    + apply String.eqb_neq in Hk0k, Hk0key. rewrite Hk0k, Hk0key.
      rewrite IH; [reflexivity |].
      rewrite String.eqb_sym in Hk0key. rewrite Hk0key in Hseen. exact Hseen.
Qed.

Lemma seen_assign : forall key k (x : JustCallback) props,
  seen key (List.map fst props) = true ->
  seen key (List.map fst (Fsntest.assign k x props)) = true.
Proof.
  intros key k x props Hseen. rewrite keys_assign. unfold note.
  destruct (seen k (List.map fst props)); [exact Hseen |].
  unfold seen in *. rewrite existsb_app, Hseen. reflexivity.
Qed.

Lemma seen_assigned : forall key (v : JustCallback) props,
  seen key (List.map fst (Fsntest.assign key v props)) = true.
Proof.
  intros key v props. rewrite keys_assign. unfold note.
  destruct (seen key (List.map fst props)) eqn:H; [exact H |].
  unfold seen. rewrite existsb_app. simpl. rewrite String.eqb_refl.
  now rewrite orb_true_r.
Qed.

Lemma register_after : forall declared key (second : JustCallback) props,
  seen key (List.map fst props) = true ->
  forallb (fun test => negb (String.eqb (fst test) key)) declared = true ->
  Fsntest.assign key second (register_tests declared props)
  = register_tests declared (Fsntest.assign key second props).
Proof.
  induction declared as [| [k x] rest IH]; intros key second props Hseen Hother.
  - reflexivity.
  - simpl in Hother. apply andb_true_iff in Hother. destruct Hother as [Hk Hrest].
    apply negb_true_iff in Hk.
    change (register_tests ((k, x) :: rest) props)
      with (register_tests rest (Fsntest.set_property k x props)).
    change (register_tests ((k, x) :: rest) (Fsntest.assign key second props))
      with (register_tests rest
              (Fsntest.set_property k x (Fsntest.assign key second props))).
    unfold Fsntest.set_property. destruct (String.eqb k "__proto__").
    + now apply IH.
    + rewrite IH by (try apply seen_assign; assumption).
      now rewrite assign_commutes.
Qed.

Lemma not_declared : forall key testDef,
  last_declared key testDef = None ->
  forallb (fun test => negb (String.eqb (fst test) key)) (declared_tests testDef) = true.
Proof.
  intros key testDef. induction testDef as [| d rest IH]; intros Hnone; [reflexivity |].
  destruct d as [k fn | fn | fn | fn | fn]; try (apply IH; exact Hnone).
  simpl in Hnone. destruct (last_declared key rest); [discriminate |].
  destruct (String.eqb k key) eqn:Hk; [discriminate |].
  simpl. rewrite Hk. now apply IH.
Qed.

(** Registering a test again replaces its callback and changes nothing
    else: the registry is the one the suite would have made by giving the
    last callback at the first call.  So the test keeps the place of its
    first registration, before the tests registered in between. *)
Theorem second_registration_replaces :
  forall history between key (first second : JustCallback) w,
  reached_by history w ->
  declares_proto (history ++ Fsntest.It key first :: between ++ [Fsntest.It key second])
  = false ->
  last_declared key between = None ->
  tests (registered (Fsntest.It key first :: between ++ [Fsntest.It key second]) w)
  = tests (registered (Fsntest.It key second :: between) w).
Proof.
  intros history between key first second w _ Hproto Hother.
  rewrite declares_proto_app in Hproto. apply orb_false_iff in Hproto.
  destruct Hproto as [_ Hproto]. unfold declares_proto in Hproto. simpl in Hproto.
  apply orb_false_iff in Hproto. destruct Hproto as [Hkey _].
  rewrite !tests_registered_fold. simpl declared_tests.
  rewrite declared_tests_app. simpl declared_tests.
  change (register_tests ((key, first) :: declared_tests between ++ [(key, second)])
            (tests w))
    with (register_tests (declared_tests between ++ [(key, second)])
            (Fsntest.set_property key first (tests w))).
  change (register_tests ((key, second) :: declared_tests between) (tests w))
    with (register_tests (declared_tests between)
            (Fsntest.set_property key second (tests w))).
  unfold register_tests at 1. rewrite fold_left_app. simpl.
  fold (register_tests (declared_tests between)
          (Fsntest.set_property key first (tests w))).
  assert (Hset : forall (fn : JustCallback) props,
            Fsntest.set_property key fn props = Fsntest.assign key fn props).
  { intros fn props. unfold Fsntest.set_property. now rewrite Hkey. }
  rewrite !Hset. rewrite register_after.
  - now rewrite assign_twice.
  - apply seen_assigned.
  - now apply not_declared.
Qed.

End Registry.

(* ===================================================================== *)
(** ** The time of a result *)
(* ===================================================================== *)

Section Timing.

Lemma sub_self : forall x : float,
  Prim2SF (x - x) = S754_zero false \/ Prim2SF (x - x) = S754_nan.
Proof.
  intros x. rewrite FloatAxioms.sub_spec. destruct (Prim2SF x) as [s | s | | s m e].
  - left. now destruct s.
  - right. now destruct s.
  - now right.
  - left. unfold SF64sub, SFsub. rewrite Z.sub_diag. reflexivity.
Qed.

Lemma sub_self_falsy : forall x : float, ToBoolean (VNum (x - x)) = false.
Proof.
  intros x. unfold ToBoolean, is_nan. rewrite !FloatAxioms.eqb_spec.
  destruct (sub_self x) as [-> | ->]; reflexivity.
Qed.

(** A result that arrives at the reading of the clock the test started
    at is given the time [0.000], whatever that reading is. *)
Theorem same_instant_reads_zero : forall date : Date,
  Fsntest.time_between date date = "0.000".
Proof.
  intros date. unfold Fsntest.time_between. now rewrite sub_self_falsy.
Qed.

Lemma split_on_no_sep : forall sep s,
  has_char sep s = false -> split_on sep s = (s, []).
Proof.
  intros sep s. induction s as [| c rest IH]; simpl; intros Hs; [reflexivity |].
  apply orb_false_iff in Hs. destruct Hs as [Hc Hrest].
  rewrite (IH Hrest), Hc. reflexivity.
Qed.

Lemma split_on_sep : forall sep piece rest,
  has_char sep piece = false ->
  split_on sep (piece ++ String sep rest)
  = (piece, fst (split_on sep rest) :: snd (split_on sep rest)).
Proof.
  intros sep piece rest. induction piece as [| c more IH]; simpl; intros Hp.
  - rewrite Ascii.eqb_refl. now destruct (split_on sep rest).
  - apply orb_false_iff in Hp. destruct Hp as [Hc Hmore].
    rewrite (IH Hmore), Hc. reflexivity.
Qed.

Lemma slice0_short : forall n s, String.length s <= n -> slice0 n s = s.
Proof.
  unfold slice0. induction n as [| n IH]; intros s Hlen.
  - destruct s; [reflexivity | simpl in Hlen; lia].
  - destruct s as [| c rest]; [reflexivity |]. simpl in *. rewrite IH; [reflexivity | lia].
Qed.

Lemma slice0_long : forall n s, n <= String.length s -> String.length (slice0 n s) = n.
Proof.
  unfold slice0. induction n as [| n IH]; intros s Hlen.
  - now destruct s.
  - destruct s as [| c rest]; simpl in *; [lia |]. rewrite IH; [reflexivity | lia].
Qed.

Lemma split_two : forall whole decimal,
  has_char "." whole = false ->
  has_char "." decimal = false ->
  split "." (whole ++ "." ++ decimal) = [whole; decimal].
Proof.
  intros whole decimal Hw Hd. unfold split.
  change ("." ++ decimal) with (String "." decimal).
  rewrite (@split_on_sep _ _ decimal Hw), (@split_on_no_sep _ _ Hd). reflexivity.
Qed.

(** The time of a result, from the number the difference of the two
    readings prints as.  A difference that is zero (or no number) gives
    [0.000].  Otherwise a number printed without a fraction gets [.000];
    a number printed with a fraction keeps its whole part and the first
    three digits of the fraction: a fraction of one, two or three digits
    is left as it is, the time then being the printed number itself, and
    a longer one is cut to exactly three digits. *)
Theorem time_keeps_three_digits_of_the_fraction : forall start finish : Date,
  let _timing := (Fsntest.dateToMs finish - Fsntest.dateToMs start)%float in
  let shown := NumberToString.toString _timing in
  (ToBoolean (VNum _timing) = false -> Fsntest.time_between start finish = "0.000")
  /\ (ToBoolean (VNum _timing) = true ->
      (has_char "." shown = false ->
       Fsntest.time_between start finish = shown ++ ".000")
      /\ (forall whole decimal,
            shown = whole ++ "." ++ decimal ->
            has_char "." whole = false ->
            has_char "." decimal = false ->
            Fsntest.time_between start finish = whole ++ "." ++ slice0 3 decimal
            /\ (String.length decimal <= 3 -> Fsntest.time_between start finish = shown)
            /\ (3 <= String.length decimal ->
                String.length (slice0 3 decimal) = 3))).
Proof.
  intros start finish _timing shown. unfold Fsntest.time_between.
  fold _timing. fold shown. split.
  - intros ->. reflexivity.
  - intros ->. split.
    + intros Hnone. unfold split. rewrite (@split_on_no_sep _ _ Hnone). reflexivity.
    + intros whole decimal Hshown Hw Hd. rewrite Hshown, (@split_two _ _ Hw Hd).
      split; [reflexivity |]. split.
      * intros Hlen. now rewrite slice0_short.
      * intros Hlen. now apply slice0_long.
Qed.

End Timing.

(* ===================================================================== *)
(** ** What a run keeps *)
(* ===================================================================== *)

Section Frames.

Context {chalk : Chalk} {truthy : Truthy} {json : Json}.

Variable now : nat -> Date.

Variable R : World -> World -> Prop.

Context {frame : Frame now R}.

Lemma preserves_ret : forall (A : Type) (a : A), preserves R (ret a).
Proof. intros A a w. apply frame_refl. Qed.

Lemma preserves_bind : forall (A B : Type) (m : Run A) (k : A -> Run B),
  preserves R m -> (forall a, preserves R (k a)) -> preserves R (bind m k).
Proof.
  intros A B m k Hm Hk w. unfold bind. specialize (Hm w).
  destruct (m w) as [a w1]. simpl in Hm.
  eapply frame_trans; [exact Hm | apply Hk].
Qed.

Lemma preserves_gets : forall (A : Type) (f : World -> A), preserves R (gets f).
Proof. intros A f w. apply frame_refl. Qed.

Lemma preserves_executeJustCallback : forall name callback,
  preserves R (Execute.executeJustCallback name callback).
Proof.
  intros name [f |]; simpl.
  - apply preserves_bind; [apply frame_invoke | intros; apply preserves_ret].
  - apply preserves_ret.
Qed.

Lemma preserves_concatMap_from : forall (A B : Type)
    (project : A -> Run (Completion (Obs B) JsVal)) values fin,
  (forall x, preserves R (project x)) ->
  preserves R (Rx.concatMap_from project values fin).
Proof.
  intros A B project values fin Hp. induction values as [| x rest IH]; simpl.
  - apply preserves_ret.
  - apply preserves_bind; [apply Hp |]. intros [inner | thrown]; [| apply preserves_ret].
    destruct (ending inner); try apply preserves_ret.
    apply preserves_bind; [exact IH | intros; apply preserves_ret].
Qed.

Lemma preserves_scan_push_from : forall values, preserves R (Rx.scan_push_from values).
Proof.
  induction values as [| r rest IH]; simpl.
  - apply preserves_ret.
  - apply preserves_bind; [apply frame_push |]. intros a.
    apply preserves_bind; [exact IH | intros; apply preserves_ret].
Qed.

Lemma preserves_on_result : forall name start x,
  preserves R (Fsntest.on_result now name start x).
Proof.
  intros name start x. unfold Fsntest.on_result.
  apply preserves_bind; [apply frame_new_Date |]. intros finish.
  apply preserves_bind; [destruct (strict_eq _ _); now apply frame_print |]. intros _.
  apply preserves_bind; [apply preserves_gets |]. intros a.
  apply preserves_bind; [apply preserves_executeJustCallback | intros; apply preserves_ret].
Qed.

Lemma preserves_with_beforeEach : forall (A : Type) (test : A),
  preserves R (Fsntest.with_beforeEach test).
Proof.
  intros A test. unfold Fsntest.with_beforeEach.
  apply preserves_bind; [apply preserves_gets |]. intros b.
  apply preserves_bind; [apply preserves_executeJustCallback | intros; apply preserves_ret].
Qed.

Lemma preserves_run_test : forall test, preserves R (Fsntest.run_test now test).
Proof.
  intros [name testFn]. unfold Fsntest.run_test.
  apply preserves_bind; [apply frame_new_Date |]. intros start.
  apply preserves_bind; [apply preserves_executeJustCallback |].
  intros [results | thrown]; [| apply preserves_ret].
  apply preserves_bind; [| intros; apply preserves_ret].
  apply preserves_concatMap_from. intros x. apply preserves_on_result.
Qed.

Lemma preserves_executeTests : forall entries,
  preserves R (Fsntest.executeTests now entries).
Proof.
  intros entries. unfold Fsntest.executeTests.
  apply preserves_bind;
    [apply preserves_concatMap_from; intros; apply preserves_with_beforeEach |].
  intros readied.
  apply preserves_bind; [apply preserves_concatMap_from; intros; apply preserves_run_test |].
  intros timed.
  apply preserves_bind; [| intros; apply preserves_ret].
  unfold Rx.scan_push.
  apply preserves_bind; [apply preserves_scan_push_from | intros; apply preserves_ret].
Qed.

(** The pipeline of [describe] up to the subscriber: [beforeAll], the
    tests, [afterAll]. *)
Lemma preserves_pipeline : forall entries,
  preserves R
    (b <- gets beforeAllFn ;;
     r <- Execute.executeJustCallback "beforeAll" b ;;
     match r with
     | Throw thrown => ret (Throw thrown)
     | Normal before =>
         ran <- Rx.concatMap (Fsntest.then_tests now entries) before ;;
         done <- Rx.concatMap Fsntest.with_afterAll ran ;;
         ret (Normal done)
     end)%run.
Proof.
  intros entries.
  apply preserves_bind; [apply preserves_gets |]. intros b.
  apply preserves_bind; [apply preserves_executeJustCallback |].
  intros [before | thrown]; [| apply preserves_ret].
  apply preserves_bind.
  { apply preserves_concatMap_from. intros x. unfold Fsntest.then_tests.
    apply preserves_bind; [apply preserves_executeTests | intros; apply preserves_ret]. }
  intros ran.
  apply preserves_bind; [| intros; apply preserves_ret].
  apply preserves_concatMap_from. intros x. unfold Fsntest.with_afterAll.
  apply preserves_bind; [apply preserves_gets |]. intros a.
  apply preserves_bind; [apply preserves_executeJustCallback | intros; apply preserves_ret].
Qed.

End Frames.

Section Kept_by_a_run.

Context {chalk : Chalk} {truthy : Truthy} {json : Json}.

Variable now : nat -> Date.


Lemma tables_print : forall o w,
  tables (snd (print o w)) = tables w + (if is_table o then 1 else 0).
Proof.
  intros o w. unfold tables. simpl. rewrite filter_app, List.length_app. simpl.
  now destruct (is_table o).
Qed.

Lemma tables_frame : Frame now same_tables.
Proof.
  constructor; unfold same_tables.
  - reflexivity.
  - intros w1 w2 w3 H1 H2. congruence.
  - intros f w. reflexivity.
  - intros w. reflexivity.
  - intros w. reflexivity.
  - intros r w. reflexivity.
  - intros o Ho w. rewrite tables_print, Ho. lia.
Qed.


Lemma subscribe_tables : forall values w,
  tables (snd (Fsntest.subscribe values w)) = tables w + List.length values.
Proof.
  induction values as [| s rest IH]; intros w; simpl.
  - lia.
  - unfold bind, Fsntest.show_summary, bind.
    destruct (print (ConsoleLog _) w) as [u1 w1] eqn:H1.
    destruct (print (PrintTable _) w1) as [u2 w2] eqn:H2.
    rewrite IH.
    assert (T2 := tables_print (PrintTable (Fsntest.rows s)) w1). rewrite H2 in T2.
    assert (T1 := tables_print (ConsoleLog (blue (nl ++ nl ++ "Summary:" ++ nl))) w).
    rewrite H1 in T1. simpl in T1, T2. lia.
Qed.


(** [describe] as its three parts: the header and the suite body, the
    pipeline, the subscriber. *)
Lemma describe_parts : forall suiteName testDef w,
  exists wr,
    same_registry (registered testDef w) wr
    /\ tables wr = tables w
    /\ forall R (frame : Frame now R),
       exists ws wt c,
         R wr ws /\ R ws wt
         /\ Fsntest.describe now suiteName testDef w
            = (c, match c with
                  | Normal done => snd (Fsntest.subscribe (emitted done) wt)
                  | Throw _ => wt
                  end).
Proof.
  intros suiteName testDef w. unfold Fsntest.describe.
  unfold bind at 1. unfold print at 1.
  set (wp := mkWorld _ _ _ _ _ _ _ _ _).
  assert (Hwp : same_registry w wp) by (repeat split).
  unfold bind at 1.
  rewrite (surjective_pairing (Fsntest.call_testDef testDef wp)).
  fold (registered testDef wp). set (wr := registered testDef wp).
  exists wr. split; [apply registered_registry; exact Hwp |].
  split.
  { destruct (registered_frame testDef wp) as (_ & _ & _ & Hprinted).
    fold wr in Hprinted. unfold tables. rewrite Hprinted. unfold wp. simpl.
    rewrite filter_app, List.length_app. simpl. lia. }
  intros R frame.
  unfold bind at 1. unfold gets at 1.
  unfold bind at 1.
  assert (Hseed := frame_new_seed wr).
  destruct (Fsntest.new_seed wr) as [u ws]. simpl in Hseed.
  exists ws.
  assert (Hpipe := @preserves_pipeline _ _ _ now R frame (Fsntest.Object_entries (tests wr)) ws).
  unfold bind in Hpipe at 1. unfold gets in Hpipe at 1.
  unfold bind in Hpipe at 1.
  unfold bind at 1. unfold gets at 1. unfold bind at 1.
  destruct (Execute.executeJustCallback "beforeAll" (beforeAllFn ws) ws) as [[before | thrown] w1].
  - unfold bind in Hpipe at 1. unfold bind at 1.
    destruct (Rx.concatMap _ before w1) as [ran w2].
    unfold bind in Hpipe at 1. unfold bind at 1.
    destruct (Rx.concatMap Fsntest.with_afterAll ran w2) as [done wt].
    unfold ret in Hpipe. simpl in Hpipe.
    exists wt, (Normal done). split; [exact Hseed |]. split; [exact Hpipe |].
    unfold bind, ret. destruct (Fsntest.subscribe (emitted done) wt). reflexivity.
  - unfold ret in *. simpl in *. exists w1, (Throw thrown). repeat split; assumption.
Qed.



(** The summary table is printed once for every summary the subscriber
    receives and never otherwise: a run that delivers no summary (no
    test, a test that never ends, an error in the pipeline) prints no
    table. *)
Theorem one_table_for_each_summary : forall suiteName testDef w,
  tables (snd (Fsntest.describe now suiteName testDef w))
  = tables w
    + match fst (Fsntest.describe now suiteName testDef w) with
      | Normal done => List.length (emitted done)
      | Throw _ => 0
      end.
Proof.
  intros suiteName testDef w.
  destruct (describe_parts suiteName testDef w) as (wr & _ & Hr & Hparts).
  destruct (Hparts same_tables tables_frame) as (ws & wt & c & Hs & Ht & ->).
  unfold same_tables in Hs, Ht.
  destruct c as [done | thrown]; simpl; [rewrite subscribe_tables |]; lia.
Qed.

End Kept_by_a_run.

(* ===================================================================== *)
(** ** Runs in which a hook or a test yields no result, or several *)
(* ===================================================================== *)

Section Runner_edges.

Context {chalk : Chalk} {truthy : Truthy} {json : Json}.

Variable now : nat -> Date.
































Lemma printErrorDetails_throws_iff : forall name error thrown,
  Execute.printErrorDetails name error = Throw thrown
  <-> (isTruthy error = true
       /\ isNativeError error = false
       /\ typeof error = "object"
       /\ JSON_stringify error = Throw thrown).
Proof.
  intros name error thrown. unfold Execute.printErrorDetails. cbv zeta.
  destruct (isTruthy error); cbn [negb].
  2: { split; [discriminate | intros (H & _); discriminate]. }
  destruct (isNativeError error).
  { destruct (Execute.stack_of error) as [stack |];
      [destruct (ToBoolean (VStr stack)) |];
      (split; [discriminate | intros (_ & H & _); discriminate]). }
  destruct (String.eqb_spec (typeof error) "string") as [Hstr | Hstr].
  { split; [discriminate |]. intros (_ & _ & H & _). rewrite H in Hstr. discriminate. }
  destruct (String.eqb_spec (typeof error) "object") as [Hobj | Hobj].
  - destruct (JSON_stringify error) as [text | t].
    + split; [discriminate | intros (_ & _ & _ & H); discriminate].
    + split.
      * intros H. injection H as <-. repeat split. exact Hobj.
      * intros (_ & _ & _ & H). exact H.
  - split; [discriminate | intros (_ & _ & H & _); contradiction].
Qed.

(** [executeJustCallback] throws in one case only: the callback throws,
    synchronously, a truthy value that is no native error and whose
    [typeof] is [object], and [JSON.stringify] throws on it; what it
    throws is what [JSON.stringify] threw. *)
Theorem executeJustCallback_throws_iff : forall name callback w thrown,
  fst (Execute.executeJustCallback name callback w) = Throw thrown
  <-> exists f e,
        callback = Some f
        /\ fn_call f = Throw e
        /\ isTruthy e = true
        /\ isNativeError e = false
        /\ typeof e = "object"
        /\ JSON_stringify e = Throw thrown.
Proof.
  intros name callback w thrown. rewrite executeJustCallback_run. simpl fst.
  destruct callback as [f |]; simpl.
  2: { split; [discriminate | intros (f & e & H & _); discriminate]. }
  unfold Execute.normalize.
  destruct (fn_call f) as [v | e] eqn:Hcall.
  - split.
    + destruct v; discriminate.
    + intros (f' & e & Hf & Hcall' & _). injection Hf as <-. congruence.
  - destruct (Execute.printErrorDetails name e) as [text | t] eqn:Hprint.
    + split; [discriminate |].
      intros (f' & e' & Hf & Hcall' & H). injection Hf as <-.
      rewrite Hcall in Hcall'. injection Hcall' as <-.
      apply (printErrorDetails_throws_iff name) in H. congruence.
    + split.
      * intros H. injection H as <-. exists f, e.
        apply printErrorDetails_throws_iff in Hprint. tauto.
      * intros (f' & e' & Hf & Hcall' & H). injection Hf as <-.
        rewrite Hcall in Hcall'. injection Hcall' as <-.
        apply (printErrorDetails_throws_iff name) in H. congruence.
Qed.

(** In a process that never registers a test under [__proto__], and for
    a suite body that only registers tests and hooks, the promise
    [describe] returns rejects in one case only: [beforeAll] throws a
    value the renderer cannot print, and the rejection is what the
    renderer threw.  Every other failure stays inside the pipeline. *)
Theorem describe_rejects_only_for_beforeAll :
  forall suiteName history testDef w thrown,
  reached_by history w ->
  declares_proto (history ++ testDef) = false ->
  (fst (Fsntest.describe now suiteName testDef w) = Throw thrown
   <-> exists f e,
         beforeAllFn (registered testDef w) = Some f
         /\ fn_call f = Throw e
         /\ Execute.printErrorDetails "beforeAll" e = Throw thrown).
Proof.
  intros suiteName history testDef w thrown _ _.
  unfold Fsntest.describe.
  unfold bind at 1. unfold print at 1.
  set (wp := mkWorld _ _ _ _ _ _ _ _ _).
  assert (Hwp : same_registry w wp) by (repeat split).
  unfold bind at 1.
  rewrite (surjective_pairing (Fsntest.call_testDef testDef wp)).
  fold (registered testDef wp).
  assert (Hwr := registered_registry testDef Hwp).
  set (wr := registered testDef wp) in *.
  unfold bind at 1. unfold gets at 1.
  unfold bind at 1. unfold Fsntest.new_seed, modify.
  unfold bind at 1. unfold gets at 1.
  set (ws := mkWorld _ _ _ _ _ [] _ _ _).
  unfold bind at 1. rewrite executeJustCallback_run.
  change (beforeAllFn ws) with (beforeAllFn wr).
  assert (HB : beforeAllFn wr = beforeAllFn (registered testDef w))
    by (destruct Hwr as (-> & _); reflexivity).
  rewrite HB.
  assert (Hnormal : forall before w0,
            fst ((ran <- Rx.concatMap
                           (Fsntest.then_tests now (Fsntest.Object_entries (tests wr)))
                           before ;;
                  done <- Rx.concatMap Fsntest.with_afterAll ran ;;
                  Fsntest.subscribe (emitted done) ;; ret (Normal done))%run w0)
            <> Throw thrown).
  { intros before w0. unfold bind, ret.
    repeat match goal with |- context [let (_, _) := ?p in _] => destruct p end.
    simpl. discriminate. }
  destruct (beforeAllFn (registered testDef w)) as [f |].
  - unfold delivers.
    destruct (fn_call f) as [v | e] eqn:Hcall.
    + split.
      * intros Heq. exfalso.
        assert (Hv : exists before, Execute.normalize "beforeAll" (Normal v) = Normal before).
        { destruct v; simpl; eexists; reflexivity. }
        destruct Hv as [before Hv]. rewrite Hv in Heq.
        exact (Hnormal _ _ Heq).
      * intros (f' & e & Hf & Hcall' & _). injection Hf as <-. congruence.
    + unfold Execute.normalize.
      destruct (Execute.printErrorDetails "beforeAll" e) as [text | thrown'] eqn:Hprint.
      * split.
        -- intros Heq. exfalso. exact (Hnormal _ _ Heq).
        -- intros (f' & e' & Hf & Hcall' & Hprint'). injection Hf as <-.
           rewrite Hcall in Hcall'. injection Hcall' as <-. congruence.
      * unfold ret. simpl fst. split.
        -- intros Heq. injection Heq as <-. exists f, e. repeat split; assumption.
        -- intros (f' & e' & Hf & Hcall' & Hprint'). injection Hf as <-.
           rewrite Hcall in Hcall'. injection Hcall' as <-. congruence.
  - simpl delivers. cbv iota. split.
    + intros Heq. exfalso. exact (Hnormal _ _ Heq).
    + intros (f' & e & Hf & _). discriminate.
Qed.

End Runner_edges.

(* ===================================================================== *)
(** ** The command line front end *)
(* ===================================================================== *)

Section Front_end.

Context {chalk : Chalk}.

Lemma split_has_sep : forall sep s,
  has_char sep s = true ->
  exists first second more, split sep s = first :: second :: more.
Proof.
  intros sep s. unfold split. induction s as [| c rest IH]; simpl; [discriminate |].
  intros Hs. destruct (Ascii.eqb c sep) eqn:Hc.
  - destruct (split_on sep rest) as [piece more]. now exists "", piece, more.
  - simpl in Hs. destruct (IH Hs) as (first & second & more & Hsplit).
    destruct (split_on sep rest) as [piece more']. inversion Hsplit; subst.
    now exists (String c first), second, more.
Qed.

(** [formatTsMsg] on a message with a time of day reads the text before
    the first dash as the timestamp and the text between the first and
    the second dash as the message: what follows a second dash is
    dropped. *)
Theorem formatTsMsg_reads_two_pieces : forall timestamp message rest color,
  has_char "-" timestamp = false ->
  has_char "-" message = false ->
  Cli.has_time (timestamp ++ "-" ++ message ++ "-" ++ rest) = true ->
  Cli.formatTsMsg (timestamp ++ "-" ++ message ++ "-" ++ rest) color
  = Normal (gray ("[" ++ Cli.trim timestamp ++ "]") ++ " " ++ color (Cli.trim message)).
Proof.
  intros timestamp message rest color Ht Hm Htime.
  unfold Cli.formatTsMsg. rewrite Htime. unfold split.
  change ("-" ++ message ++ "-" ++ rest) with (String "-" (message ++ String "-" rest)).
  rewrite (@split_on_sep _ _ _ Ht), (@split_on_sep _ _ _ Hm). reflexivity.
Qed.

Lemma formatTsMsg_cases : forall msg color,
  (exists text, Cli.formatTsMsg msg color = Normal text
                /\ (Cli.has_time msg = false \/ has_char "-" msg = true))
  \/ (Cli.formatTsMsg msg color = Throw Cli.TypeError_undefined
      /\ Cli.has_time msg = true /\ has_char "-" msg = false).
Proof.
  intros msg color. unfold Cli.formatTsMsg.
  destruct (Cli.has_time msg).
  - destruct (has_char "-" msg) eqn:Hdash.
    + destruct (@split_has_sep _ _ Hdash) as (first & second & more & ->).
      left. eexists. split; [reflexivity | now right].
    + unfold split. rewrite (@split_on_no_sep _ _ Hdash). right. repeat split.
  - left. eexists. split; [reflexivity | now left].
Qed.

(** [formatTscMessage] returns [true], the signal to start the tests,
    exactly for a chunk that holds no [error TS], announces no
    compilation, holds [Found 0 errors], and whose trimmed text has a
    dash or no time of day. *)
Theorem formatTscMessage_true_iff : forall data,
  snd (Cli.formatTscMessage data) = Normal true
  <-> (Cli.includes "error TS" data = false
       /\ banner data = false
       /\ Cli.includes "Found 0 errors" data = true
       /\ (Cli.has_time (Cli.trim data) = false \/ has_char "-" (Cli.trim data) = true)).
Proof.
  intros data. unfold Cli.formatTscMessage, banner.
  destruct (Cli.includes "error TS" data).
  { simpl. split; [discriminate | intros (H & _); discriminate]. }
  destruct (Cli.includes_i "Starting compilation" data
            || Cli.includes_i "File change detected" data).
  { destruct (Cli.formatTsMsg (Cli.trim data) blue); simpl;
      (split; [discriminate | intros (_ & H & _); discriminate]). }
  destruct (Cli.includes "Found 0 errors" data).
  { destruct (formatTsMsg_cases (Cli.trim data) green)
      as [(text & -> & Hok) | (-> & Htime & Hdash)]; simpl.
    - split; [intros _; repeat split; exact Hok | reflexivity].
    - split; [discriminate |]. intros (_ & _ & _ & [H | H]); congruence. }
  destruct (Cli.found_errors data).
  { destruct (Cli.formatTsMsg (Cli.trim data) red); simpl;
      (split; [discriminate | intros (_ & _ & H & _); discriminate]). }
  destruct (Nat.ltb 0 (String.length (Cli.trim data))); simpl;
    (split; [discriminate | intros (_ & _ & H & _); discriminate]).
Qed.

(** [formatTscMessage] throws exactly for a chunk without [error TS]
    that announces a compilation or reports a number of errors, and whose
    trimmed text has a time of day and no dash: [formatTsMsg] then calls
    [trim] on the missing second piece. *)
Theorem formatTscMessage_throws_iff : forall data,
  (exists thrown, snd (Cli.formatTscMessage data) = Throw thrown)
  <-> (Cli.includes "error TS" data = false
       /\ (banner data || Cli.includes "Found 0 errors" data || Cli.found_errors data) = true
       /\ Cli.has_time (Cli.trim data) = true
       /\ has_char "-" (Cli.trim data) = false).
Proof.
  intros data. unfold Cli.formatTscMessage, banner.
  destruct (Cli.includes "error TS" data).
  { simpl. split; [intros [t H]; discriminate | intros (H & _); discriminate]. }
  assert (Hcase : forall color (k : string -> list Cli.Console * Completion bool JsVal)
                         (out : list Cli.Console),
            (forall text, exists b, snd (k text) = Normal b) ->
            ((exists thrown,
                snd (match Cli.formatTsMsg (Cli.trim data) color with
                     | Normal text => k text
                     | Throw thrown => (out, Throw thrown)
                     end) = Throw thrown)
             <-> (Cli.has_time (Cli.trim data) = true
                  /\ has_char "-" (Cli.trim data) = false))).
  { intros color k out Hk.
    destruct (formatTsMsg_cases (Cli.trim data) color)
      as [(text & -> & Hok) | (-> & Htime & Hdash)].
    - destruct (Hk text) as [b Hb]. rewrite Hb.
      split; [intros [t H]; discriminate | intros [H1 H2]; destruct Hok; congruence].
    - simpl. split; [intros _; now split | intros _; eexists; reflexivity]. }
  destruct (Cli.includes_i "Starting compilation" data
            || Cli.includes_i "File change detected" data).
  { simpl orb.
    rewrite (Hcase blue (fun text => ([Cli.Clear; Cli.StdOut (text ++ nl)], Normal false)))
      by (intros; eexists; reflexivity).
    tauto. }
  destruct (Cli.includes "Found 0 errors" data).
  { simpl orb.
    rewrite (Hcase green (fun text => ([Cli.StdOut (text ++ nl)], Normal true)))
      by (intros; eexists; reflexivity).
    tauto. }
  destruct (Cli.found_errors data).
  { simpl orb.
    rewrite (Hcase red (fun text => ([Cli.StdErr (text ++ nl)], Normal false)))
      by (intros; eexists; reflexivity).
    tauto. }
  simpl orb.
  destruct (Nat.ltb 0 (String.length (Cli.trim data))); simpl;
    (split; [intros [t H]; discriminate | intros (_ & H & _); discriminate]).
Qed.

Lemma lastIndexOf_none : forall c s,
  has_char c s = false -> Cli.lastIndexOf c s = None.
Proof.
  intros c s. induction s as [| a rest IH]; simpl; intros Hs; [reflexivity |].
  apply orb_false_iff in Hs. destruct Hs as [Ha Hrest].
  now rewrite (IH Hrest), Ha.
Qed.

Lemma lastIndexOf_last : forall c stem ext,
  has_char c ext = false ->
  Cli.lastIndexOf c (stem ++ String c ext) = Some (String.length stem).
Proof.
  intros c stem ext Hext. induction stem as [| a rest IH]; simpl.
  - now rewrite (@lastIndexOf_none _ _ Hext), Ascii.eqb_refl.
  - now rewrite IH.
Qed.

Lemma substring_stem : forall stem rest,
  substring 0 (String.length stem) (stem ++ rest) = stem.
Proof.
  intros stem rest. induction stem as [| a more IH]; simpl.
  - now destruct rest.
  - now rewrite IH.
Qed.

Section Resolution.

Variable existsSync : string -> bool.
Variable resolve : string -> string.
Variable join : list string -> string.
Variable glob : string -> list string.

(** The compiled file the front end runs: the base name of the source
    loses its last extension only ([a.spec.ts] gives [a.spec]), and
    [resolveOutFile] returns the one file that matches
    [**/<name>.js] under the output directory; it throws when no file or
    more than one matches.  A base name without a dot gives the empty
    name. *)
Theorem outFile_drops_the_last_extension : forall outDir stem ext,
  has_char "." ext = false ->
  Cli.outFile_of (stem ++ "." ++ ext) = stem
  /\ Cli.resolveOutFile join glob outDir (Cli.outFile_of (stem ++ "." ++ ext))
     = match glob (join [outDir; "**/" ++ stem ++ ".js"]) with
       | [] => Throw "Compiled file could not be resolved."
       | [path] => Normal path
       | _ => Throw ("Multiple files in the out directory that match the name "
                     ++ stem ++ ".")
       end
  /\ Cli.outFile_of ext = "".
Proof.
  intros outDir stem ext Hext.
  assert (Hstem : Cli.outFile_of (stem ++ "." ++ ext) = stem).
  { unfold Cli.outFile_of. change ("." ++ ext) with (String "." ext).
    rewrite (@lastIndexOf_last _ _ _ Hext). apply substring_stem. }
  split; [exact Hstem |]. split.
  - rewrite Hstem. unfold Cli.resolveOutFile.
    destruct (glob _) as [| path [| other more]]; reflexivity.
  - unfold Cli.outFile_of. rewrite (@lastIndexOf_none _ _ Hext). now destruct ext.
Qed.

(** [resolveSrcFile] returns only a path that exists or the single match
    of the pattern [<tsDir>/**/<source>]; it ends the process exactly
    when neither the source as given nor its resolution exists and the
    pattern matches no file or several. *)
Theorem resolveSrcFile_outcomes : forall srcFileNameOrPath tsDir,
  (forall path,
     Cli.resolveSrcFile existsSync resolve join glob srcFileNameOrPath tsDir
     = Cli.Resolved path ->
     existsSync path = true \/ glob (join [tsDir; "**"; srcFileNameOrPath]) = [path])
  /\ ((exists line,
         Cli.resolveSrcFile existsSync resolve join glob srcFileNameOrPath tsDir
         = Cli.Exited line)
      <-> (existsSync srcFileNameOrPath = false
           /\ existsSync (resolve srcFileNameOrPath) = false
           /\ List.length (glob (join [tsDir; "**"; srcFileNameOrPath])) <> 1)).
Proof.
  intros srcFileNameOrPath tsDir. unfold Cli.resolveSrcFile.
  destruct (existsSync srcFileNameOrPath) eqn:Hsrc.
  { split.
    - intros path H. injection H as <-. now left.
    - split; [intros [line H]; discriminate | intros (H & _); discriminate]. }
  destruct (existsSync (resolve srcFileNameOrPath)) eqn:Hres.
  { split.
    - intros path H. injection H as <-. now left.
    - split; [intros [line H]; discriminate | intros (_ & H & _); discriminate]. }
  destruct (glob (join [tsDir; "**"; srcFileNameOrPath])) as [| found [| other more]].
  - split; [intros path H; discriminate |].
    split; [intros _; repeat split; discriminate | intros _; eexists; reflexivity].
  - split; [intros path H; injection H as <-; now right |].
    split; [intros [line H]; discriminate | intros (_ & _ & H); now contradiction H].
  - split; [intros path H; discriminate |].
    split; [intros _; repeat split; discriminate | intros _; eexists; reflexivity].
Qed.

End Resolution.

End Front_end.

(* ===================================================================== *)
(** ** Runs on concrete inputs *)
(* ===================================================================== *)

Section Closed_runs.

#[local] Existing Instance chalk_level0.
#[local] Existing Instance truthy_ToBoolean.
#[local] Existing Instance json_pretty.

(** C1, at the failing input.  A test that returns [of(1)] gets the
    failing result, where a test whose promise resolves with [1] and a
    test that returns get the passing one; a test that returns [EMPTY]
    gets no result at all.  No observable reaches the passing result:
    whatever a test's observable emits and however it ends, every result
    [executeJustCallback] builds for it is a failing one. *)
Theorem a_value_of_an_observable_is_reported_failed :
  fst (Execute.executeJustCallback "t" (Some Sample.emits_one) initial)
  = Normal (Rx.of_ [Own (mkExecResult "t" Execute.fail_mark None)])
  /\ fst (Execute.executeJustCallback "t" (Some Sample.resolves) initial)
     = Normal (Rx.of_ [Own (mkExecResult "t" Execute.pass_mark None)])
  /\ fst (Execute.executeJustCallback "t" (Some Sample.returns) initial)
     = Normal (Rx.of_ [Own (mkExecResult "t" Execute.pass_mark None)])
  /\ fst (Execute.executeJustCallback "t" (Some Sample.emits_nothing) initial)
     = Normal (mkObs [] Completes)
  /\ Execute.fail_mark <> Execute.pass_mark
  /\ (forall name ref id emits ends w delivered r,
        fst (Execute.executeJustCallback name
               (Some (mkCallback ref (Normal (VObservable id emits ends)))) w)
        = Normal delivered ->
        In (Own r) (emitted delivered) ->
        passed r = Execute.fail_mark).
Proof.
  split; [reflexivity |]. split; [reflexivity |]. split; [reflexivity |].
  split; [reflexivity |]. split.
  - unfold Execute.fail_mark, Execute.pass_mark. simpl. discriminate.
  - intros name ref id emits ends w delivered r Hrun Hin.
    unfold Execute.executeJustCallback, bind, invoke, ret in Hrun.
    cbn [fst fn_call Execute.normalize] in Hrun.
    injection Hrun as <-.
    unfold Rx.map in Hin. cbn [emitted] in Hin.
    apply in_map_iff in Hin. destruct Hin as (value & Hvalue & Hin).
    assert (Hown : forall r', value = Own r' -> passed r' = Execute.fail_mark).
    { intros r' ->. unfold Rx.catchError in Hin. cbn [ending emitted] in Hin.
      assert (Hsource : In (Own r') (List.map Foreign emits) -> False).
      { intros Hsrc. apply in_map_iff in Hsrc.
        destruct Hsrc as (v & Hv & _). discriminate Hv. }
      destruct ends as [| err |]; cbn [emitted] in Hin;
        try (exfalso; exact (Hsource Hin)).
      unfold Execute.on_error in Hin.
      destruct (Execute.printErrorDetails name err) as [text | thrown];
        cbn [emitted] in Hin; [| exfalso; exact (Hsource Hin)].
      apply in_app_or in Hin. destruct Hin as [Hin | Hin];
        [exfalso; exact (Hsource Hin) |].
      simpl in Hin. destruct Hin as [Heq | []].
      injection Heq as <-. reflexivity. }
    destruct value as [r' | v]; cbn [Execute.coerce] in Hvalue.
    + injection Hvalue as <-. apply Hown. reflexivity.
    + destruct (Execute.isExecResult v); [discriminate Hvalue |].
      injection Hvalue as <-. reflexivity.
Qed.

(** A test that returns [EMPTY] gets no result at all, and leaves no
    entry in the summary: with it as the only test, [last()] raises
    [EmptyError]. *)
Lemma empty_observable_yields_no_result :
  fst (Execute.executeJustCallback "t" (Some Sample.emits_nothing) initial)
  = Normal (mkObs [] Completes)
  /\ fst (Fsntest.describe Sample.half_seconds "suite"
            [Fsntest.It "t" Sample.emits_nothing] initial)
     = Normal (mkObs [] (Errors Rx.EmptyError)).
Proof.
  split; vm_compute; reflexivity.
Qed.

(** C2, at the failing input.  A suite of two tests, the first of which
    returns [EMPTY]: both tests are called, and the summary has one
    entry, the one of the second test. *)
Theorem a_test_without_result_has_no_entry :
  fst (Fsntest.describe Sample.half_seconds "suite" Sample.empty_first initial)
  = Normal (Rx.of_ [[mkTimed (Own (mkExecResult "b" Execute.pass_mark None)) "0.5"]])
  /\ entries_of Sample.empty_first initial
     = [("a", Sample.emits_nothing); ("b", Sample.returns)]
  /\ List.map (fun ref =>
                 calls_of ref
                   (snd (Fsntest.describe Sample.half_seconds "suite"
                           Sample.empty_first initial)))
              [fn_ref Sample.emits_nothing; fn_ref Sample.returns]
     = [1; 1].
Proof.
  repeat split; vm_compute; reflexivity.
Qed.

(** A suite of one test that returns [of(1, 2)] ends with a summary of
    two entries. *)
Lemma one_test_two_entries :
  exists summary,
    fst (Fsntest.describe Sample.half_seconds "suite" Sample.two_values initial)
    = Normal (Rx.of_ [summary])
    /\ List.length summary = 2
    /\ List.length (entries_of Sample.two_values initial) = 1.
Proof.
  eexists. split; [vm_compute; reflexivity |]. split; reflexivity.
Qed.

(** C3, at the failing input.  A suite without tests, with [beforeAll]
    and [afterAll]: [last()] ends the run with [EmptyError], [beforeAll]
    was called once and [afterAll] is never called. *)
Theorem afterAll_is_not_called_without_tests :
  entries_of Sample.no_tests initial = []
  /\ afterAllFn (registered Sample.no_tests initial) = Some Sample.hookAfterAll
  /\ fst (Fsntest.describe Sample.half_seconds "suite" Sample.no_tests initial)
     = Normal (mkObs [] (Errors Rx.EmptyError))
  /\ calls_of (fn_ref Sample.hookBeforeAll)
              (snd (Fsntest.describe Sample.half_seconds "suite" Sample.no_tests initial))
     = 1
  /\ calls_of (fn_ref Sample.hookAfterAll)
              (snd (Fsntest.describe Sample.half_seconds "suite" Sample.no_tests initial))
     = 0.
Proof.
  repeat split; vm_compute; reflexivity.
Qed.

(** In the suite of one test that returns [of(1, 2)], [afterEach] is
    called twice: once for each result of the test. *)
Lemma afterEach_runs_for_each_result :
  calls_of (fn_ref Sample.hookAfterEach)
           (snd (Fsntest.describe Sample.half_seconds "suite" Sample.two_values initial))
  = 2
  /\ List.length (entries_of Sample.two_values initial) = 1.
Proof.
  split; vm_compute; reflexivity.
Qed.

(** C5, counterexample.  The result of a missing hook has the string
    [chalk.green('✔')] as [passed], no boolean; and a result that went
    through from a test's observable has an error text although it
    passed. *)
Lemma passed_is_a_mark_not_a_boolean :
  fst (Execute.executeJustCallback "beforeAll" None initial)
  = Normal (Rx.of_ [Own (mkExecResult "beforeAll" Execute.pass_mark None)])
  /\ typeof (field "passed" (Own (mkExecResult "beforeAll" Execute.pass_mark None)))
     = "string"
  /\ ~ spec_result_shape (Own (mkExecResult "beforeAll" Execute.pass_mark None))
  /\ fst (Execute.executeJustCallback "t" (Some Sample.emits_lookalike) initial)
     = Normal (Rx.of_ [Foreign Sample.lookalike])
  /\ ~ spec_result_shape (Foreign Sample.lookalike).
Proof.
  split; [reflexivity |]. split; [reflexivity |]. split; [| split; [reflexivity |]].
  - intros (_ & Hbool & _). simpl in Hbool. discriminate.
  - intros (_ & _ & Hdetail). simpl in Hdetail.
    assert (H : VBool true = VBool false) by (apply Hdetail; discriminate).
    discriminate.
Qed.

(** C8, counterexample.  For a native error without a stack the rendered
    block is the [failed] line alone: no line is appended, neither the
    unknown-error line the specification gives this case nor any
    other. *)
Lemma stackless_error_gets_no_line :
  Execute.printErrorDetails "t" Sample.stackless = Normal (failed_line "t")
  /\ spec_error_block "t" Sample.stackless
     = Normal (failed_line "t" ++ nl ++ "An unknown error occured.")
  /\ Execute.printErrorDetails "t" Sample.stackless
     <> spec_error_block "t" Sample.stackless
  /\ (forall line,
        Execute.printErrorDetails "t" Sample.stackless
        <> Normal (failed_line "t" ++ nl ++ line)).
Proof.
  split; [reflexivity |]. split; [reflexivity |]. split.
  - vm_compute. discriminate.
  - intros line. vm_compute. discriminate.
Qed.

(** C4, at the failing input.  The first test throws [{ id: 1n }]: the
    renderer throws inside the [catch] block, the pipeline ends with that
    [TypeError], the second test is never called and no summary is
    delivered or printed. *)
Theorem unprintable_throw_aborts_the_run :
  fst (Fsntest.describe Sample.half_seconds "suite" Sample.unprintable_first initial)
  = Normal (mkObs [] (Errors JSON.TypeError_BigInt))
  /\ calls_of (fn_ref Sample.throws_unprintable)
              (snd (Fsntest.describe Sample.half_seconds "suite"
                      Sample.unprintable_first initial)) = 1
  /\ calls_of (fn_ref Sample.returns)
              (snd (Fsntest.describe Sample.half_seconds "suite"
                      Sample.unprintable_first initial)) = 0
  /\ printed (snd (Fsntest.describe Sample.half_seconds "suite"
                     Sample.unprintable_first initial))
     = [ConsoleLog ("Executing suite" ++ nl)].
Proof.
  repeat split; vm_compute; reflexivity.
Qed.

(** C6, at the failing input.  Half a second between the two [Date]s is
    printed with one decimal digit, and that string is the [timing] of
    the entry in the summary. *)
Theorem half_a_second_has_one_decimal :
  Fsntest.time_between (mkDate 0 0 0 0) (mkDate 0 0 0 500) = "0.5"
  /\ fst (Fsntest.describe Sample.half_seconds "suite"
            [Fsntest.It "a" Sample.returns] initial)
     = Normal (Rx.of_ [[mkTimed (Own (mkExecResult "a" Execute.pass_mark None)) "0.5"]]).
Proof.
  split; vm_compute; reflexivity.
Qed.

(** C7, at the failing input.  A promise that rejects with [{ id: 1n }]:
    the renderer throws inside the [catch] handler of the promise, and
    the observable of the test never delivers a result. *)
Theorem unprintable_rejection_yields_no_result :
  fst (Execute.executeJustCallback "t" (Some Sample.rejects_unprintable) initial)
  = Normal (mkObs [] Never)
  /\ Execute.printErrorDetails "t" Sample.unprintable = Throw JSON.TypeError_BigInt.
Proof.
  split; vm_compute; reflexivity.
Qed.

(** Witness of C5: the result of a test that throws [Error("boom")]. *)
Lemma results_built_witness :
  name (mkExecResult "t" Execute.fail_mark
          (Some (failed_line "t" ++ nl ++ nl ++ "Details:" ++ nl ++ nl ++ "Error: boom")))
  = "t"
  /\ (passed (mkExecResult "t" Execute.fail_mark
                (Some (failed_line "t" ++ nl ++ nl ++ "Details:" ++ nl ++ nl
                       ++ "Error: boom")))
      = Execute.pass_mark
      \/ passed (mkExecResult "t" Execute.fail_mark
                   (Some (failed_line "t" ++ nl ++ nl ++ "Details:" ++ nl ++ nl
                          ++ "Error: boom")))
         = Execute.fail_mark)
  /\ (forall text,
        errorStr (mkExecResult "t" Execute.fail_mark
                    (Some (failed_line "t" ++ nl ++ nl ++ "Details:" ++ nl ++ nl
                           ++ "Error: boom")))
        = Some text ->
        passed (mkExecResult "t" Execute.fail_mark
                  (Some (failed_line "t" ++ nl ++ nl ++ "Details:" ++ nl ++ nl
                         ++ "Error: boom")))
        = Execute.fail_mark).
Proof.
  apply (@results_built_by_executeJustCallback chalk_level0 truthy_ToBoolean json_pretty
           "t" (Some Sample.throws_boom) initial
           (Rx.of_ [Own (mkExecResult "t" Execute.fail_mark
                           (Some (failed_line "t" ++ nl ++ nl ++ "Details:" ++ nl ++ nl
                                  ++ "Error: boom")))])
           (Own (mkExecResult "t" Execute.fail_mark
                   (Some (failed_line "t" ++ nl ++ nl ++ "Details:" ++ nl ++ nl
                          ++ "Error: boom"))))).
  - reflexivity.
  - simpl. left. reflexivity.
Defined.

(** The scenario of the specification: its summary, entry by entry. *)
Lemma summary_scenario_witness :
  exists summary,
    fst (Fsntest.describe Sample.half_seconds "suite" Sample.scenario initial)
    = Normal (last_of summary)
    /\ List.map result summary = flat_map test_results (declared_tests Sample.scenario)
    /\ (forallb test_once (declared_tests Sample.scenario) = true ->
        List.length summary = List.length (declared_tests Sample.scenario)
        /\ Forall2 (fun t test => test_results test = [result t])
                   summary (declared_tests Sample.scenario)).
Proof.
  apply (@summary_has_one_entry_per_result chalk_level0 truthy_ToBoolean json_pretty
           Sample.half_seconds "suite" Sample.scenario initial);
    try reflexivity.
  simpl. repeat constructor; simpl; intuition discriminate.
Defined.

(** Witness: a test that throws [Error("boom")]. *)
Lemma printable_throw_witness :
  fst (Execute.executeJustCallback "b" (Some (mkCallback 7 (Throw Sample.boom))) initial)
  = Normal (Rx.of_ [Own (mkExecResult "b" Execute.fail_mark
                           (Some (failed_line "b" ++ nl ++ nl ++ "Details:" ++ nl ++ nl
                                  ++ "Error: boom")))])
  /\ exists rest,
       failed_line "b" ++ nl ++ nl ++ "Details:" ++ nl ++ nl ++ "Error: boom"
       = failed_line "b" ++ rest.
Proof.
  apply (@printable_throw_is_captured chalk_level0 truthy_ToBoolean json_pretty
           "b" 7 Sample.boom
           (failed_line "b" ++ nl ++ nl ++ "Details:" ++ nl ++ nl ++ "Error: boom")
           initial).
  reflexivity.
Defined.

(** Witness: the suite without tests. *)
Lemma empty_suite_witness :
  fst (Fsntest.describe Sample.half_seconds "suite" Sample.no_tests initial)
  = Normal (mkObs [] (Errors Rx.EmptyError))
  /\ invoked (snd (Fsntest.describe Sample.half_seconds "suite" Sample.no_tests initial))
     = (invoked initial
        ++ hook_calls (beforeAllFn (registered Sample.no_tests initial)))%list.
Proof.
  apply (@empty_suite_ends_with_EmptyError chalk_level0 truthy_ToBoolean json_pretty
           Sample.half_seconds "suite" Sample.no_tests initial);
    reflexivity.
Defined.

(** After a suite that registered [z]: test [a] registered, then [b],
    then [a] again.  The registry is the one of [a] registered with its
    second callback, then [b]. *)
Lemma second_registration_witness :
  tests (registered (Fsntest.It "a" Sample.returns
                     :: [Fsntest.It "b" Sample.resolves]
                        ++ [Fsntest.It "a" Sample.throws_boom])
                    (registered [Fsntest.It "z" Sample.returns] initial))
  = tests (registered (Fsntest.It "a" Sample.throws_boom
                       :: [Fsntest.It "b" Sample.resolves])
                      (registered [Fsntest.It "z" Sample.returns] initial)).
Proof.
  apply (@second_registration_replaces
           [Fsntest.It "z" Sample.returns] [Fsntest.It "b" Sample.resolves]
           "a" Sample.returns Sample.throws_boom
           (registered [Fsntest.It "z" Sample.returns] initial)).
  - unfold reached_by, same_registry. repeat split.
  - reflexivity.
  - reflexivity.
Defined.

(** The registry of that process: [a] has its second callback and is
    still before [b]. *)
Lemma second_registration_run :
  tests (registered [Fsntest.It "a" Sample.returns; Fsntest.It "b" Sample.resolves;
                     Fsntest.It "a" Sample.throws_boom]
                    (registered [Fsntest.It "z" Sample.returns] initial))
  = [("z", Sample.returns); ("a", Sample.throws_boom); ("b", Sample.resolves)].
Proof.
  reflexivity.
Qed.

(** The suite that registers [b], [1], [a], [0] and [b] again: test [b]
    is the callback of its second registration. *)
Lemma last_declaration_witness :
  test_named "b" (tests (registered Sample.mixed_names initial))
  = or_else (last_declared "b" Sample.mixed_names) (last_declared "b" []).
Proof.
  apply (@registry_holds_the_last_declaration [] Sample.mixed_names initial "b").
  - unfold reached_by, same_registry. repeat split.
  - reflexivity.
Defined.

(** That suite runs [0], [1], [b], [a], in this order. *)
Lemma index_names_witness :
  let names := first_occurrences (List.map fst (declared_tests ([] ++ Sample.mixed_names))) in
  NoDup names
  /\ exists indexed,
       List.map fst (entries_of Sample.mixed_names initial)
       = (indexed ++ filter (fun key => negb (Fsntest.is_index key)) names)%list
       /\ Permutation indexed (filter Fsntest.is_index names)
       /\ StronglySorted index_before indexed.
Proof.
  apply (@tests_run_index_names_first [] Sample.mixed_names initial).
  - unfold reached_by, same_registry. repeat split.
  - reflexivity.
Defined.

(** The names of that run, and the names in the order of their first
    registration. *)
Lemma mixed_names_run :
  List.map fst (entries_of Sample.mixed_names initial) = ["0"; "1"; "b"; "a"]
  /\ first_occurrences (List.map fst (declared_tests Sample.mixed_names))
     = ["b"; "1"; "a"; "0"].
Proof.
  split; reflexivity.
Qed.

(** The scenario of the specification, run: the summary lists [a] as
    passed, [b] as failed with a text that holds the stack of the error,
    and [c] as passed, in that order; every hook was called as often as
    the specification says. *)
Theorem scenario_summary :
  fst (Fsntest.describe Sample.half_seconds "suite" Sample.scenario initial)
  = Normal
      (Rx.of_
         [[mkTimed (Own (mkExecResult "a" Execute.pass_mark None)) "0.5";
           mkTimed (Own (mkExecResult "b" Execute.fail_mark
                           (Some (failed_line "b" ++ nl ++ nl ++ "Details:" ++ nl ++ nl
                                  ++ "Error: boom"))))
                   "0.5";
           mkTimed (Own (mkExecResult "c" Execute.pass_mark None)) "0.5"]])
  /\ List.map (fun ref =>
                 calls_of ref
                   (snd (Fsntest.describe Sample.half_seconds "suite"
                           Sample.scenario initial)))
              [fn_ref Sample.hookBeforeAll; fn_ref Sample.hookBeforeEach;
               fn_ref Sample.hookAfterEach; fn_ref Sample.hookAfterAll]
     = [1; 3; 3; 1].
Proof.
  split; vm_compute; reflexivity.
Qed.

End Closed_runs.

(* ===================================================================== *)
(** ** Further runs on concrete inputs *)
(* ===================================================================== *)

Section Closed_checks.

#[local] Existing Instance chalk_level0.
#[local] Existing Instance truthy_ToBoolean.
#[local] Existing Instance json_pretty.



(** That run: the hook yields two results, the summary holds the results
    of [a] twice and then those of [b] twice, and each test was called
    twice. *)
Lemma doubled_tests_run :
  List.length (results_of "beforeEach" (beforeEachFn (registered Sample.doubled initial)))
  = 2
  /\ (exists summary,
        fst (Fsntest.describe Sample.half_seconds "suite" Sample.doubled initial)
        = Normal (Rx.of_ [summary])
        /\ List.map (fun t => field "name" (result t)) summary
           = [VStr "a"; VStr "a"; VStr "b"; VStr "b"])
  /\ List.map (fun ref =>
                 calls_of ref
                   (snd (Fsntest.describe Sample.half_seconds "suite"
                           Sample.doubled initial)))
              [fn_ref Sample.returns; fn_ref Sample.throws_boom]
     = [2; 2].
Proof.
  split; [reflexivity |]. split; [| vm_compute; reflexivity].
  eexists. split; vm_compute; reflexivity.
Qed.

(** A [beforeEach] hook that returns [EMPTY], before two tests: no test
    is called and the run ends with [EmptyError]. *)
Lemma skipped_tests_run :
  fst (Fsntest.describe Sample.half_seconds "suite" Sample.skipped initial)
  = Normal (mkObs [] (Errors Rx.EmptyError))
  /\ List.map (fun ref =>
                 calls_of ref
                   (snd (Fsntest.describe Sample.half_seconds "suite"
                           Sample.skipped initial)))
              [fn_ref Sample.returns; fn_ref Sample.throws_boom]
     = [0; 0].
Proof.
  split; vm_compute; reflexivity.
Qed.

(** A suite whose [beforeAll] throws [{ id: 1n }]: the promise of
    [describe] rejects with the [TypeError] of [JSON.stringify]. *)
Lemma rejection_witness :
  fst (Fsntest.describe Sample.half_seconds "suite" Sample.unprintable_beforeAll initial)
  = Throw JSON.TypeError_BigInt
  <-> exists f e,
        beforeAllFn (registered Sample.unprintable_beforeAll initial) = Some f
        /\ fn_call f = Throw e
        /\ Execute.printErrorDetails "beforeAll" e = Throw JSON.TypeError_BigInt.
Proof.
  apply (@describe_rejects_only_for_beforeAll chalk_level0 truthy_ToBoolean json_pretty
           Sample.half_seconds "suite" [] Sample.unprintable_beforeAll initial
           JSON.TypeError_BigInt).
  - unfold reached_by, same_registry. repeat split.
  - reflexivity.
Defined.

(** That run. *)
Lemma unprintable_beforeAll_run :
  fst (Fsntest.describe Sample.half_seconds "suite" Sample.unprintable_beforeAll initial)
  = Throw JSON.TypeError_BigInt.
Proof.
  vm_compute. reflexivity.
Qed.

(** From 0.8 s to 1.1 s after midnight: the difference prints as
    [0.30000000000000004], and the time is [0.300]. *)
Lemma long_fraction_witness :
  Fsntest.time_between (mkDate 0 0 0 800) (mkDate 0 0 1 100)
  = "0" ++ "." ++ slice0 3 "30000000000000004"
  /\ (String.length "30000000000000004" <= 3 ->
      Fsntest.time_between (mkDate 0 0 0 800) (mkDate 0 0 1 100)
      = NumberToString.toString
          (Fsntest.dateToMs (mkDate 0 0 1 100) - Fsntest.dateToMs (mkDate 0 0 0 800))%float)
  /\ (3 <= String.length "30000000000000004" ->
      String.length (slice0 3 "30000000000000004") = 3).
Proof.
  apply (proj2 (proj2 (time_keeps_three_digits_of_the_fraction
                         (mkDate 0 0 0 800) (mkDate 0 0 1 100))
                      ltac:(vm_compute; reflexivity))
               "0" "30000000000000004");
    vm_compute; reflexivity.
Defined.

(** Three times: a long fraction, no fraction, and a fraction of two
    digits. *)
Lemma long_fraction_run :
  Fsntest.time_between (mkDate 0 0 0 800) (mkDate 0 0 1 100) = "0.300"
  /\ Fsntest.time_between (mkDate 0 0 0 0) (mkDate 0 0 2 0) = "2.000"
  /\ Fsntest.time_between (mkDate 0 0 0 0) (mkDate 0 0 0 250) = "0.25".
Proof.
  repeat split; vm_compute; reflexivity.
Qed.


(** A message of the compiler with a second dash. *)
Lemma formatTsMsg_witness :
  Cli.formatTsMsg ("12:00:00 AM " ++ "-" ++ " Found 0 errors. " ++ "-" ++ " Watching.") green
  = Normal (gray ("[" ++ Cli.trim "12:00:00 AM " ++ "]") ++ " "
            ++ green (Cli.trim " Found 0 errors. ")).
Proof.
  apply (@formatTsMsg_reads_two_pieces chalk_level0
           "12:00:00 AM " " Found 0 errors. " " Watching." green);
    reflexivity.
Defined.

(** The chunk that reports a clean compilation starts the tests. *)
Lemma clean_compilation_witness :
  snd (Cli.formatTscMessage ("12:00:00 AM - Found 0 errors. Watching for file changes." ++ nl))
  = Normal true.
Proof.
  apply (@formatTscMessage_true_iff chalk_level0). repeat split. now right.
Defined.

(** The same report with the time in brackets, as the compiler prints it
    in its pretty format, has no dash: [formatTscMessage] throws. *)
Lemma bracketed_time_witness :
  exists thrown,
    snd (Cli.formatTscMessage
           ("[12:00:00 AM] Found 0 errors. Watching for file changes." ++ nl))
    = Throw thrown.
Proof.
  apply (@formatTscMessage_throws_iff chalk_level0). repeat split.
Defined.

(** The source [a.spec.ts], compiled to [out/a.spec.js]. *)
Lemma outFile_witness :
  Cli.outFile_of ("a.spec" ++ "." ++ "ts") = "a.spec"
  /\ Cli.resolveOutFile Sample.posix_join Sample.one_compiled_file "out"
       (Cli.outFile_of ("a.spec" ++ "." ++ "ts"))
     = match Sample.one_compiled_file (Sample.posix_join ["out"; "**/" ++ "a.spec" ++ ".js"]) with
       | [] => Throw "Compiled file could not be resolved."
       | [path] => Normal path
       | _ => Throw ("Multiple files in the out directory that match the name "
                     ++ "a.spec" ++ ".")
       end
  /\ Cli.outFile_of "ts" = "".
Proof.
  apply (@outFile_drops_the_last_extension Sample.posix_join Sample.one_compiled_file
           "out" "a.spec" "ts").
  reflexivity.
Defined.




End Closed_checks.
